(** * ChessRL: the Board / Move / Environment layer, embedded and verified

    A shallow embedding of the Python sources under [chess_rl/game] and
    [chess_rl/environments]:

    - [game/move.py]                  -> module [MovePy]
    - [game/chess_board.py]           -> module [Chess]   (python-chess is a parameter)
    - [game/xiangqi_board.py]         -> module [Xiangqi] (the native stub board)
    - [game/xiangqi_pyffish_board.py] -> module [Pyffish] (pyffish is a parameter)
    - [game/simple_xiangqi_board.py]  -> module [SimpleXiangqi]
    - [environments/chess_env.py]     -> module [ChessEnvPy]
    - [environments/xiangqi_env.py]   -> module [XiangqiEnvPy]
    - [game/game_factory.py]          -> module [GameFactory]
    - [game/board_base.py]            -> module [Boards], the interface
      through which the properties of "every board" are stated

    Conventions of the embedding.
    - A Python [int] is a [Z].  The rewards [1.0], [-1.0], [0.0] (and the
      [int]s [1], [-1], [0] the oracle-backed boards return, which Python
      compares equal to them) are the integers [1], [-1], [0]; tensor
      entries [0.0] and [1.0] are [0] and [1].  Every sum taken below is a
      sum of at most a few thousand ones, which [float32] represents exactly.
    - A Python [str] is a [string]; one [ascii] stands for one code point
      below 256.
    - A method that may raise returns [exn + A]; a method that mutates
      [self] and may raise returns the new object together with [exn + A],
      so that what an exception leaves behind is visible.
    - A [dict] literal used as a lookup table is a [gmap].
    - numpy arrays are flat row-major lists; indexing follows numpy
      (negative indices wrap once, anything else out of range raises). *)

From Stdlib Require Import ZArith Ascii String DecimalString.
From stdpp Require Import gmap strings list.

Local Open Scope string_scope.
Local Open Scope Z_scope.

(** ** Python primitives *)

Module Py.

(** The exception classes that occur; [OtherError] stands for any other
    subclass of [Exception] (an oracle may raise whatever it likes). *)
Inductive exn : Type :=
| ValueError
| IndexError
| KeyError
| TypeError
| OtherError (tag : string).

#[global] Instance exn_eq_dec : EqDecision exn.
Proof. solve_decision. Defined.

Definition res (A : Type) : Type := exn + A.

Definition ret {A : Type} (a : A) : res A := inr a.

Definition raise {A : Type} (e : exn) : res A := inl e.

Definition bind {A B : Type} (m : res A) (k : A -> res B) : res B :=
  match m with
  | inl e => inl e
  | inr a => k a
  end.

Definition is_ok {A : Type} (m : res A) : bool :=
  match m with inr _ => true | inl _ => false end.

Definition raises {A : Type} (m : res A) : Prop := exists e, m = inl e.

(** [ord(c)] *)
Definition ord (c : ascii) : Z := Z.of_N (N_of_ascii c).

(** [chr(n)], for the code points this model has. *)
Definition chr (n : Z) : res ascii :=
  if decide (0 <= n < 256) then ret (ascii_of_N (Z.to_N n)) else raise ValueError.

(** [c] is one of '0'..'9'. *)
Definition is_decimal (c : ascii) : bool :=
  (48 <=? ord c) && (ord c <=? 57).

(** [int(c)] for a one-character string: below code point 256 the only
    characters of category Nd are '0'..'9'; everything else is a
    [ValueError]. *)
Definition int_of_char (c : ascii) : res Z :=
  if is_decimal c then ret (ord c - 48) else raise ValueError.

(** [c.isdigit()]: the decimal digits and the superscripts U+00B2, U+00B3
    and U+00B9, which [isdigit] accepts although [int] rejects them. *)
Definition isdigit (c : ascii) : bool :=
  is_decimal c || (ord c =? 178) || (ord c =? 179) || (ord c =? 185).

(** [c.lower()] below code point 256: A-Z and the Latin-1 capitals. *)
Definition lower (c : ascii) : ascii :=
  let n := ord c in
  if ((65 <=? n) && (n <=? 90)) || ((192 <=? n) && (n <=? 222) && negb (n =? 215))
  then ascii_of_N (Z.to_N (n + 32))
  else c.

(** [str(n)] for an [int]. *)
Definition str_of_int (n : Z) : string :=
  NilZero.string_of_int (Z.to_int n).

(** [str(b)] for a [bool]. *)
Definition str_of_bool (b : bool) : string :=
  if b then "True" else "False".

(** Index normalisation shared by [list], [str] and numpy: an index in
    [[0, n)] is itself, one in [[-n, 0)] counts from the end, the rest
    raise [IndexError]. *)
Definition norm_index (n : nat) (i : Z) : res nat :=
  if decide (0 <= i < Z.of_nat n) then ret (Z.to_nat i)
  else if decide (- Z.of_nat n <= i < 0) then ret (Z.to_nat (i + Z.of_nat n))
  else raise IndexError.

(** [l[i]] *)
Definition getitem {A : Type} (l : list A) (i : Z) : res A :=
  bind (norm_index (length l) i) (fun k =>
  match l !! k with
  | Some a => ret a
  | None => raise IndexError
  end).

(** [s[i]] on a string *)
Definition str_getitem (s : string) (i : Z) : res ascii :=
  getitem (list_ascii_of_string s) i.

(** [s.split(sep)] for a one-character separator: never empty. *)
Fixpoint split_aux (sep : ascii) (cur : string) (s : string) : list string :=
  match s with
  | EmptyString => [String.rev cur]
  | String c s' =>
      if decide (c = sep) then String.rev cur :: split_aux sep EmptyString s'
      else split_aux sep (String c cur) s'
  end.

Definition split (sep : ascii) (s : string) : list string :=
  split_aux sep EmptyString s.

End Py.

Import Py.

Notation "x <- m ;; k" := (Py.bind m (fun x => k))
  (at level 100, m at next level, right associativity, only parsing).

(** ** [game/move.py] *)

Module MovePy.

(** The values a [metadata] dictionary holds ([Dict[str, Any]]). *)
Inductive pyval : Type :=
| PyNone
| PyBool (b : bool)
| PyInt (n : Z)
| PyStr (s : string).

#[global] Instance pyval_eq_dec : EqDecision pyval.
Proof. solve_decision. Defined.

(** [@dataclass(frozen=True) class Move]; the generated [__eq__] compares
    the four fields, which is Leibniz equality here. *)
Record Move : Type := mkMove {
  from_sq : Z;
  to_sq : Z;
  promotion : option Z;
  metadata : option (gmap string pyval)
}.

#[global] Instance Move_eq_dec : EqDecision Move.
Proof. solve_decision. Defined.

(** [promotion_map] of [from_uci] *)
Definition promotion_of_char : gmap ascii Z :=
  {[ "q"%char := 5; "r"%char := 4; "b"%char := 3; "n"%char := 2 ]}.

(** [promotion_map] of [to_uci] *)
Definition char_of_promotion : gmap Z string :=
  {[ 5 := "q"; 4 := "r"; 3 := "b"; 2 := "n" ]}.

(** The inner [square_to_index(file, rank)] of [from_uci]. *)
Definition square_to_index (file rank : ascii) : res Z :=
  let file_idx := ord file - ord "a" in
  r <- int_of_char rank ;;
  let rank_idx := r - 1 in
  ret (rank_idx * 8 + file_idx).

(** [Move.from_uci(uci_str)] *)
Definition from_uci (uci_str : string) : res Move :=
  from_file <- str_getitem uci_str 0 ;;
  from_rank <- str_getitem uci_str 1 ;;
  to_file <- str_getitem uci_str 2 ;;
  to_rank <- str_getitem uci_str 3 ;;
  from_sq <- square_to_index from_file from_rank ;;
  to_sq <- square_to_index to_file to_rank ;;
  promotion <-
    (if decide (String.length uci_str = 5%nat) then
       c <- str_getitem uci_str 4 ;;
       ret (promotion_of_char !! lower c)
     else ret None) ;;
  ret (mkMove from_sq to_sq promotion None).

(** The inner [index_to_square(index)] of [to_uci]: the file character and
    the rank rendered by [str]. *)
Definition index_to_square (index : Z) : res (ascii * string) :=
  let rank := index / 8 + 1 in
  file <- chr (ord "a" + index mod 8) ;;
  ret (file, str_of_int rank).

(** Truthiness of [self.promotion] ([None] and [0] are false). *)
Definition promotion_truthy (p : option Z) : bool :=
  match p with
  | None => false
  | Some n => negb (n =? 0)
  end.

(** [Move.to_uci(self)] *)
Definition to_uci (m : Move) : res string :=
  from_square <- index_to_square (from_sq m) ;;
  let '(from_file, from_rank) := from_square in
  to_square <- index_to_square (to_sq m) ;;
  let '(to_file, to_rank) := to_square in
  let uci := String from_file from_rank ++ String to_file to_rank in
  let uci :=
    if promotion_truthy (promotion m) then
      uci ++ default "" (promotion m ≫= fun p => char_of_promotion !! p)
    else uci in
  ret uci.

(** A move whose squares are on the board and whose promotion, if any,
    is one of the four promotion pieces. *)
Definition valid_move (m : Move) : Prop :=
  0 <= from_sq m < 64 /\ 0 <= to_sq m < 64 /\
  (promotion m = None \/ exists p, promotion m = Some p /\ 2 <= p <= 5).

(** [from_uci(m.to_uci())] *)
Definition roundtrip (m : Move) : res Move :=
  s <- to_uci m ;;
  from_uci s.

(** The character at index [n] of [s] exists and is a decimal digit. *)
Definition digit_at (n : nat) (s : string) : Prop :=
  exists c, String.get n s = Some c /\ is_decimal c = true.

(** A file letter, a to h. *)
Definition is_file (c : ascii) : bool := (ord "a" <=? ord c) && (ord c <=? ord "h").

(** A rank digit, 1 to 8. *)
Definition is_rank (c : ascii) : bool := (ord "1" <=? ord c) && (ord c <=? ord "8").

(** What a move in UCI notation looks like: four or five characters,
    file letters and rank digits in the square positions. *)
Definition uci_shaped (s : string) : Prop :=
  (String.length s = 4%nat \/ String.length s = 5%nat) /\
  (exists f1 r1 f2 r2,
     String.get 0 s = Some f1 /\ String.get 1 s = Some r1 /\
     String.get 2 s = Some f2 /\ String.get 3 s = Some r2 /\
     is_file f1 = true /\ is_rank r1 = true /\ is_file f2 = true /\ is_rank r2 = true).

(** Every square index on the board is written as a file letter and a
    one-character rank that [square_to_index] reads back. *)
Definition square_roundtrips (i : Z) : bool :=
  match index_to_square i with
  | inr (f, String r EmptyString) => bool_decide (square_to_index f r = inr i)
  | _ => false
  end.

(** The promotion suffix [from_uci] reads. *)
Definition promotion_suffix (rest : string) : option Z :=
  match rest with
  | String c EmptyString => promotion_of_char !! lower c
  | _ => None
  end.

(** [to_uci(from_uci(s))]: print what was parsed. *)
Definition reprint (s : string) : res string :=
  m <- from_uci s ;;
  to_uci m.

End MovePy.

(** ** numpy arrays, as far as the boards use them *)

Module Np.

(** [np.zeros(n)], flattened *)
Definition zeros (n : nat) : list Z := replicate n 0.

(** [a[i] = v] on an array of shape [(n,)] *)
Definition set1 (n : nat) (a : list Z) (i v : Z) : res (list Z) :=
  i' <- norm_index n i ;;
  ret (<[ i' := v ]> a).

(** [a[r, c]] on an array of shape [(H, W)] *)
Definition get2 (H W : nat) (a : list Z) (r c : Z) : res Z :=
  r' <- norm_index H r ;;
  c' <- norm_index W c ;;
  match a !! (r' * W + c')%nat with
  | Some v => ret v
  | None => raise IndexError
  end.

(** [a[r, c] = v] on an array of shape [(H, W)] *)
Definition set2 (H W : nat) (a : list Z) (r c v : Z) : res (list Z) :=
  r' <- norm_index H r ;;
  c' <- norm_index W c ;;
  ret (<[ (r' * W + c')%nat := v ]> a).

(** Flat position of cell [(p, r, c)] in an array of shape [(P, H, W)]. *)
Definition flat3 (H W : nat) (p r c : nat) : nat := ((p * H + r) * W + c)%nat.

(** [a[p, r, c] = v] on an array of shape [(P, H, W)] *)
Definition set3 (P H W : nat) (a : list Z) (p r c v : Z) : res (list Z) :=
  p' <- norm_index P p ;;
  r' <- norm_index H r ;;
  c' <- norm_index W c ;;
  ret (<[ flat3 H W p' r' c' := v ]> a).

(** [a.sum()] *)
Definition sum (a : list Z) : Z := foldr Z.add 0 a.

(** [a.tolist()] for shape [(H, W)]: the list of rows *)
Definition tolist2 (H W : nat) (a : list Z) : list (list Z) :=
  (fun r => take W (drop (r * W) a)) <$> seq 0 H.

(** Every entry is [0.0] or [1.0]. *)
Definition binary (a : list Z) : Prop := Forall (fun v => v = 0 \/ v = 1) a.

(** The loop invariant of the three [to_observation]s: the tensor has its
    shape, holds zeros and ones that sum to [n], and every cell whose
    site the loop reaches at time [k] or later is still zero. *)
Definition inv (P H W : nat) (time : nat -> nat -> Z) (k : Z) (obs : list Z) (n : Z)
  : Prop :=
  length obs = (P * H * W)%nat /\ binary obs /\ sum obs = n /\
  forall p r c, (p < P)%nat -> (r < H)%nat -> (c < W)%nat -> k <= time r c ->
                obs !! flat3 H W p r c = Some 0.

End Np.

(** ** [game/chess_board.py] *)

Module Chess.

(** [chess.Piece]: [piece_type] is one of [chess.PAWN = 1] ..
    [chess.KING = 6], [color] is [chess.WHITE = True] or [chess.BLACK]. *)
Record Piece : Type := mkPiece { piece_type : Z; color : bool }.

(** [chess.Outcome]: the termination's name and the winner, if any. *)
Record Outcome : Type := mkOutcome {
  termination : option string;
  winner : option bool
}.

(** What [ChessBoard] and [ChessEnv] use of python-chess, which is not part
    of the repository.  [pos] is the state of a [chess.Board]; [push] is
    its effect on that state; [legal_moves] is [list(board.legal_moves)].
    [move in board.legal_moves] is not membership in that list: python-chess
    answers it with [board.is_legal(move)], here [is_legal], which accepts
    every move the list holds ([legal_moves_legal]) and may accept others
    (castling written as king takes rook). *)
Record Lib : Type := mkLib {
  pos : Type;
  move : Type;
  move_eq_dec : EqDecision move;
  initial : pos;
  parse_fen : string -> res pos;
  legal_moves : pos -> list move;
  is_legal : pos -> move -> bool;
  push : pos -> move -> pos;
  turn : pos -> bool;
  is_check : pos -> bool;
  lib_is_game_over : pos -> bool;
  outcome : pos -> option Outcome;
  piece_at : pos -> Z -> option Piece;
  fen : pos -> string;
  from_square : move -> Z;
  to_square : move -> Z;
  legal_moves_legal : forall p mv, mv ∈ legal_moves p -> is_legal p mv = true
}.

#[global] Existing Instance move_eq_dec.

Definition PAWN : Z := 1.
Definition KNIGHT : Z := 2.
Definition BISHOP : Z := 3.
Definition ROOK : Z := 4.
Definition QUEEN : Z := 5.
Definition KING : Z := 6.
Definition WHITE : bool := true.
Definition BLACK : bool := false.

(** [ChessBoard.PIECE_TO_PLANE] *)
Definition PIECE_TO_PLANE : gmap (Z * bool) Z :=
  {[ (PAWN, WHITE) := 0; (KNIGHT, WHITE) := 1; (BISHOP, WHITE) := 2;
     (ROOK, WHITE) := 3; (QUEEN, WHITE) := 4; (KING, WHITE) := 5;
     (PAWN, BLACK) := 6; (KNIGHT, BLACK) := 7; (BISHOP, BLACK) := 8;
     (ROOK, BLACK) := 9; (QUEEN, BLACK) := 10; (KING, BLACK) := 11 ]}.

Definition BOARD_SIZE : nat := 8.
Definition NUM_SQUARES : nat := 64.
Definition NUM_PLANES : nat := 12.

(** [chess.SQUARES] *)
Definition SQUARES : list Z := seqZ 0 64.

(** The time at which the loop over [chess.SQUARES] reaches the cell in
    row [r], column [c]: the square it shows, [(7 - r) * 8 + c]. *)
Definition time (r c : nat) : Z := (7 - Z.of_nat r) * 8 + Z.of_nat c.

(** The dictionary [get_result] returns; [None] below stands for [{}]. *)
Record ResultDict : Type := mkResultDict {
  rd_winner : option string;
  rd_termination : string;
  rd_moves : Z
}.

Section WithLib.

Context (L : Lib).

(** The attributes of a [ChessBoard]. *)
Record ChessBoard : Type := mkChessBoard {
  board : pos L;
  move_history : list (move L);
  result : option Outcome
}.

(** [ChessBoard(fen)] *)
Definition init (fen_arg : option string) : res ChessBoard :=
  b <- match fen_arg with
       | Some (String c s) => parse_fen L (String c s)
       | _ => ret (initial L)
       end ;;
  ret (mkChessBoard b [] None).

(** [reset] *)
Definition reset (self : ChessBoard) : ChessBoard :=
  mkChessBoard (initial L) [] None.

(** [get_legal_moves(player)] *)
Definition get_legal_moves (self : ChessBoard) (player : option bool) : list (move L) :=
  match player with
  | Some p => if decide (p = turn L (board self)) then legal_moves L (board self) else []
  | None => legal_moves L (board self)
  end.

(** The reward of a finished game, as [apply_move] computes it from the
    outcome and the player who moved. *)
Definition reward_of (result : option Outcome) (player_before : bool) : Z :=
  match result with
  | Some {| winner := Some w |} => if decide (w = player_before) then 1 else -1
  | _ => 0
  end.

(** [apply_move(move)]: the board afterwards and either the exception or
    [(reward, done)]. *)
Definition apply_move (self : ChessBoard) (mv : move L) : ChessBoard * res (Z * bool) :=
  if is_legal L (board self) mv then
    let player_before := turn L (board self) in
    let history := (move_history self ++ [mv])%list in
    let b := push L (board self) mv in
    if lib_is_game_over L b then
      let result := outcome L b in
      (mkChessBoard b history result, ret (reward_of result player_before, true))
    else
      (mkChessBoard b history (result self), ret (0, false))
  else (self, raise ValueError).

(** [is_game_over] *)
Definition is_game_over (self : ChessBoard) : bool :=
  lib_is_game_over L (board self).

(** One turn of the loop of [to_observation]. *)
Definition observe_square (self : ChessBoard) (acc : res (list Z)) (square : Z) : res (list Z) :=
  observation <- acc ;;
  match piece_at L (board self) square with
  | Some piece =>
      let row := 7 - square / 8 in
      let col := square mod 8 in
      match PIECE_TO_PLANE !! (piece_type piece, color piece) with
      | Some plane_idx => Np.set3 NUM_PLANES BOARD_SIZE BOARD_SIZE observation plane_idx row col 1
      | None => raise KeyError
      end
  | None => ret observation
  end.

(** [to_observation]: shape [(12, 8, 8)], flattened. *)
Definition to_observation (self : ChessBoard) : res (list Z) :=
  foldl (observe_square self) (ret (Np.zeros (NUM_PLANES * BOARD_SIZE * BOARD_SIZE))) SQUARES.

(** [get_state_hash] *)
Definition get_state_hash (self : ChessBoard) : string := fen L (board self).

(** [get_result]; [None] is the empty dictionary. *)
Definition get_result (self : ChessBoard) : option ResultDict :=
  if is_game_over self then
    match outcome L (board self) with
    | None => Some (mkResultDict None "UNKNOWN" (Z.of_nat (length (move_history self))))
    | Some r =>
        let w := match winner r with
                 | Some true => Some "white"
                 | Some false => Some "black"
                 | None => None
                 end in
        Some (mkResultDict w (default "UNKNOWN" (termination r))
                (Z.of_nat (length (move_history self))))
    end
  else None.

(** The square holds a piece. *)
Definition occupied (self : ChessBoard) (sq : Z) : Prop :=
  is_Some (piece_at L (board self) sq).

(** The number of occupied squares. *)
Definition piece_count (self : ChessBoard) : Z :=
  Z.of_nat (length (filter (occupied self) SQUARES)).

End WithLib.

Arguments board {L} _.
Arguments move_history {L} _.
Arguments result {L} _.
Arguments mkChessBoard {L} _ _ _.

End Chess.

(** ** [game/xiangqi_board.py]: the native board, whose rules are stubs *)

Module Xiangqi.

Definition RED : bool := true.
Definition BLACK : bool := false.

Definition GENERAL : Z := 1.
Definition ADVISOR : Z := 2.
Definition ELEPHANT : Z := 3.
Definition HORSE : Z := 4.
Definition CHARIOT : Z := 5.
Definition CANNON : Z := 6.
Definition SOLDIER : Z := 7.

(** [class XiangqiMove]; [__eq__] compares the four attributes. *)
Record XiangqiMove : Type := mkXiangqiMove {
  from_pos : Z * Z;
  to_pos : Z * Z;
  piece_type : Z;
  piece_color : bool
}.

#[global] Instance XiangqiMove_eq_dec : EqDecision XiangqiMove.
Proof. solve_decision. Defined.

Definition BOARD_WIDTH : nat := 9.
Definition BOARD_HEIGHT : nat := 10.
Definition NUM_PLANES : nat := 14.

(** The dictionary [get_result] returns; [None] below stands for [{}]. *)
Record ResultDict : Type := mkResultDict {
  rd_winner : option string;
  rd_termination : string;
  rd_moves : Z
}.

(** The attributes of a [XiangqiBoard].  [board] is the [int8] array of
    shape [(10, 9)]: [0] for an empty point, a positive kind for a red
    piece, a negative one for a black piece. *)
Record XiangqiBoard : Type := mkXiangqiBoard {
  board : list Z;
  move_history : list XiangqiMove;
  current_player : bool;
  result : option ResultDict;
  halfmove_clock : Z
}.

(** The assignments of [_setup_initial_position], in source order, as
    [(row, column, piece)]. *)
Definition initial_assignments : list (Z * Z * Z) :=
  [ (0, 0, CHARIOT); (0, 1, HORSE); (0, 2, ELEPHANT); (0, 3, ADVISOR);
    (0, 4, GENERAL); (0, 5, ADVISOR); (0, 6, ELEPHANT); (0, 7, HORSE);
    (0, 8, CHARIOT);
    (2, 1, CANNON); (2, 7, CANNON);
    (3, 0, SOLDIER); (3, 2, SOLDIER); (3, 4, SOLDIER); (3, 6, SOLDIER);
    (3, 8, SOLDIER);
    (9, 0, - CHARIOT); (9, 1, - HORSE); (9, 2, - ELEPHANT); (9, 3, - ADVISOR);
    (9, 4, - GENERAL); (9, 5, - ADVISOR); (9, 6, - ELEPHANT); (9, 7, - HORSE);
    (9, 8, - CHARIOT);
    (7, 1, - CANNON); (7, 7, - CANNON);
    (6, 0, - SOLDIER); (6, 2, - SOLDIER); (6, 4, - SOLDIER); (6, 6, - SOLDIER);
    (6, 8, - SOLDIER) ].

(** [_setup_initial_position]: every index above is in range, so the
    assignments are plain updates. *)
Definition _setup_initial_position (b : list Z) : list Z :=
  foldl (fun a '(r, c, v) => <[ Z.to_nat (r * 9 + c) := v ]> a) b initial_assignments.

(** [XiangqiBoard()] *)
Definition init : XiangqiBoard :=
  mkXiangqiBoard (_setup_initial_position (Np.zeros (BOARD_HEIGHT * BOARD_WIDTH)))
    [] RED None 0.

(** [reset] *)
Definition reset (self : XiangqiBoard) : XiangqiBoard :=
  mkXiangqiBoard (_setup_initial_position (Np.zeros (BOARD_HEIGHT * BOARD_WIDTH)))
    [] RED None 0.

(** [get_legal_moves(player)]: the generator is a TODO in the source and
    the list it returns is always empty. *)
Definition get_legal_moves (self : XiangqiBoard) (player : option bool) : list XiangqiMove :=
  let player_to_move := default (current_player self) player in
  match player with
  | Some p =>
      if decide (p <> current_player self) then []
      else let legal_moves := [] in legal_moves
  | None => let legal_moves := [] in legal_moves
  end.

(** What [apply_move] does once the move has passed the legality test. *)
Definition apply_move_body (self : XiangqiBoard) (mv : XiangqiMove)
  : XiangqiBoard * res (Z * bool) :=
  let '(from_row, from_col) := from_pos mv in
  let '(to_row, to_col) := to_pos mv in
  match Np.get2 BOARD_HEIGHT BOARD_WIDTH (board self) from_row from_col with
  | inl e => (self, inl e)
  | inr piece =>
  match Np.get2 BOARD_HEIGHT BOARD_WIDTH (board self) to_row to_col with
  | inl e => (self, inl e)
  | inr captured_piece =>
  match Np.set2 BOARD_HEIGHT BOARD_WIDTH (board self) to_row to_col piece with
  | inl e => (self, inl e)
  | inr b1 =>
  match Np.set2 BOARD_HEIGHT BOARD_WIDTH b1 from_row from_col 0 with
  | inl e =>
      (mkXiangqiBoard b1 (move_history self) (current_player self) (result self)
         (halfmove_clock self), inl e)
  | inr b2 =>
      (mkXiangqiBoard b2 (move_history self ++ [mv])%list (negb (current_player self))
         (result self) (halfmove_clock self),
       ret (0, false))
  end end end end.

(** [apply_move(move)] *)
Definition apply_move (self : XiangqiBoard) (mv : XiangqiMove)
  : XiangqiBoard * res (Z * bool) :=
  let player_before := current_player self in
  if decide (mv ∈ get_legal_moves self None) then apply_move_body self mv
  else (self, raise ValueError).

(** [is_game_over]: a TODO in the source. *)
Definition is_game_over (self : XiangqiBoard) : bool := false.

(** The pairs [(r, c)] of the two nested [range] loops. *)
Definition cells : list (Z * Z) :=
  r ← seqZ 0 10; (fun c => (r, c)) <$> seqZ 0 9.

(** One turn of the inner loop of [to_observation]. *)
Definition observe_cell (self : XiangqiBoard) (acc : res (list Z)) (rc : Z * Z) : res (list Z) :=
  observation <- acc ;;
  let '(r, c) := rc in
  piece <- Np.get2 BOARD_HEIGHT BOARD_WIDTH (board self) r c ;;
  if decide (piece <> 0) then
    let piece_type := Z.abs piece in
    let color := 0 <? piece in
    let plane_idx := if color then piece_type - 1 else piece_type + 6 in
    Np.set3 NUM_PLANES BOARD_HEIGHT BOARD_WIDTH observation plane_idx r c 1
  else ret observation.

(** [to_observation]: shape [(14, 10, 9)], flattened. *)
Definition to_observation (self : XiangqiBoard) : res (list Z) :=
  foldl (observe_cell self) (ret (Np.zeros (NUM_PLANES * BOARD_HEIGHT * BOARD_WIDTH))) cells.

(** [str(l)] for a list of [int]s *)
Definition str_of_int_list (l : list Z) : string :=
  "[" ++ String.concat ", " (str_of_int <$> l) ++ "]".

(** [get_state_hash] *)
Definition get_state_hash (self : XiangqiBoard) : string :=
  ("[" ++ String.concat ", " (str_of_int_list <$> Np.tolist2 BOARD_HEIGHT BOARD_WIDTH (board self)) ++ "]")
  ++ "|" ++ str_of_bool (current_player self).

(** [get_result] *)
Definition get_result (self : XiangqiBoard) : option ResultDict :=
  if negb (is_game_over self) then None
  else Some (mkResultDict None "UNKNOWN" (Z.of_nat (length (move_history self)))).

(** [piece_symbols] of [__str__] *)
Definition piece_symbols : gmap Z string :=
  list_to_map
    [ (0, "."); (GENERAL, "G"); (- GENERAL, "g"); (ADVISOR, "A"); (- ADVISOR, "a");
      (ELEPHANT, "E"); (- ELEPHANT, "e"); (HORSE, "H"); (- HORSE, "h");
      (CHARIOT, "R"); (- CHARIOT, "r"); (CANNON, "C"); (- CANNON, "c");
      (SOLDIER, "S"); (- SOLDIER, "s") ].

Definition newline : string := String (ascii_of_nat 10) EmptyString.

(** One printed row of [__str__]. *)
Definition str_row (self : XiangqiBoard) (r : Z) : res string :=
  foldl (fun acc c =>
           line <- acc ;;
           piece <- Np.get2 BOARD_HEIGHT BOARD_WIDTH (board self) r c ;;
           ret (line ++ default "?" (piece_symbols !! piece) ++ " "))
        (ret (str_of_int r ++ " ")) (seqZ 0 9).

(** [__str__] *)
Definition to_str (self : XiangqiBoard) : res string :=
  let header :=
    foldl (fun acc c => acc ++ str_of_int c ++ " ") "  " (seqZ 0 9) ++ newline in
  body <- foldl (fun acc r =>
                   text <- acc ;;
                   row <- str_row self r ;;
                   ret (text ++ row ++ newline))
                (ret header) (reverse (seqZ 0 10)) ;;
  ret (body ++ newline ++ "Turn: " ++ (if decide (current_player self = RED) then "Red" else "Black")).

(** The number of occupied points. *)
Definition piece_count (self : XiangqiBoard) : Z :=
  Z.of_nat (length (filter (fun v => v <> 0) (board self))).

(** A well-formed grid: 90 points, each empty or one of the seven kinds
    in either colour. *)
Definition grid_ok (b : list Z) : Prop :=
  length b = 90%nat /\ Forall (fun v => -7 <= v <= 7) b.

(** The loops over [range(10)] and [range(9)] reach the point in row [r],
    column [c] at time [r * 9 + c]. *)
Definition time (r c : nat) : Z := Z.of_nat r * 9 + Z.of_nat c.

(** The pair the two loops hold at their [i]-th turn. *)
Definition cell_of (i : nat) : Z * Z := (Z.of_nat (i / 9), Z.of_nat (i mod 9)).

End Xiangqi.

(** ** The FEN-to-tensor loop of the two oracle-backed boards

    [XiangqiPyffishBoard.to_observation] and
    [SimpleXiangqiBoard.get_observation] are the same loop; they differ in
    what is added to [piece_type] for a black piece ([NUM_PIECE_TYPES]
    against [NUM_PIECE_TYPES // 2]), which is the parameter [offset]. *)

Module FenTensor.

Definition BOARD_SIZE_X : nat := 9.
Definition BOARD_SIZE_Y : nat := 10.
Definition NUM_PIECE_TYPES : Z := 7.
Definition NUM_PLANES : nat := 14.

(** [PIECE_MAPPING] *)
Definition PIECE_MAPPING : gmap ascii (Z * bool) :=
  list_to_map
    [ ("P"%char, (0, true)); ("N"%char, (1, true)); ("B"%char, (2, true));
      ("A"%char, (3, true)); ("R"%char, (4, true)); ("C"%char, (5, true));
      ("K"%char, (6, true));
      ("p"%char, (0, false)); ("n"%char, (1, false)); ("b"%char, (2, false));
      ("a"%char, (3, false)); ("r"%char, (4, false)); ("c"%char, (5, false));
      ("k"%char, (6, false)) ].

(** [enumerate(l)] *)
Definition enumerate {A : Type} (l : list A) : list (Z * A) :=
  zip (seqZ 0 (Z.of_nat (length l))) l.

(** The body of [for char in rank], on the pair [(file_idx, observation)]. *)
Definition place_char (offset rank_idx : Z) (acc : res (Z * list Z)) (char : ascii)
  : res (Z * list Z) :=
  st <- acc ;;
  let '(file_idx, observation) := st in
  if isdigit char then
    d <- int_of_char char ;;
    ret (file_idx + d, observation)
  else
    match PIECE_MAPPING !! char with
    | Some (piece_type, is_red) =>
        let plane_idx := if (is_red : bool) then piece_type else piece_type + offset in
        observation' <-
          Np.set3 NUM_PLANES BOARD_SIZE_Y BOARD_SIZE_X observation plane_idx rank_idx file_idx 1 ;;
        ret (file_idx + 1, observation')
    | None => ret (file_idx + 1, observation)
    end.

(** The body of [for rank_idx, rank in enumerate(ranks)]. *)
Definition place_rank (offset : Z) (acc : res (list Z)) (item : Z * string) : res (list Z) :=
  observation <- acc ;;
  st <- foldl (place_char offset (fst item)) (ret (0, observation))
              (list_ascii_of_string (snd item)) ;;
  ret (snd st).

(** [current_fen.split(' ')[0]]: [split] never returns an empty list. *)
Definition board_part (fen : string) : string :=
  default "" (head (split " " fen)).

(** The whole loop, from the FEN to the flattened [(14, 10, 9)] tensor. *)
Definition observe (offset : Z) (fen : string) : res (list Z) :=
  let ranks := split "/" (board_part fen) in
  foldl (place_rank offset)
        (ret (Np.zeros (NUM_PLANES * BOARD_SIZE_Y * BOARD_SIZE_X)))
        (enumerate ranks).

(** The pieces a FEN puts on the board: the characters of its placement
    field that are neither rank separators nor empty-point counts. *)
Definition is_piece_char (c : ascii) : bool :=
  negb (isdigit c) && negb (bool_decide (c = "/"%char)).

Definition piece_count (fen : string) : Z :=
  Z.of_nat (length (filter (fun c => is_piece_char c = true)
                           (list_ascii_of_string (board_part fen)))).

(** The width a rank describes: one file per piece, [d] files per digit. *)
Definition rank_width (rank : list ascii) : Z :=
  foldr (fun c w => (if is_decimal c then ord c - 48 else 1) + w) 0 rank.

(** A rank of a Xiangqi FEN: decimal counts and the fourteen piece
    letters, at most nine files wide. *)
Definition rank_ok (rank : string) : Prop :=
  Forall (fun c => is_decimal c = true \/ is_Some (PIECE_MAPPING !! c))
         (list_ascii_of_string rank)
  /\ rank_width (list_ascii_of_string rank) <= 9.

(** A Xiangqi placement: at most ten such ranks. *)
Definition placement_ok (fen : string) : Prop :=
  (length (split "/" (board_part fen)) <= 10)%nat
  /\ Forall rank_ok (split "/" (board_part fen)).

(** The loops reach the point of rank [r], file [c] at time [r * 9 + c]. *)
Definition time (r c : nat) : Z := Z.of_nat r * 9 + Z.of_nat c.

(** The piece letters among the characters of a rank. *)
Definition letters (chars : list ascii) : nat :=
  length (filter (fun c => is_piece_char c = true) chars).

(** A character a rank may hold. *)
Definition char_ok (c : ascii) : Prop :=
  is_decimal c = true \/ is_Some (PIECE_MAPPING !! c).

(** The letters of a list of ranks. *)
Definition letters_of_ranks (ranks : list string) : nat :=
  foldr (fun rank acc => (letters (list_ascii_of_string rank) + acc)%nat) 0%nat ranks.

#[global] Instance rank_ok_dec (rank : string) : Decision (rank_ok rank).
Proof. unfold rank_ok. apply _. Defined.

#[global] Instance placement_ok_dec (fen : string) : Decision (placement_ok fen).
Proof. unfold placement_ok. apply _. Defined.

End FenTensor.

(** ** [game/xiangqi_pyffish_board.py] *)

Module Pyffish.

(** What the boards use of pyffish, which is not part of the repository:
    [sf.start_fen(variant)], [sf.legal_moves(variant, fen, moves)], the
    same called with two arguments, and [sf.get_fen(variant, fen, moves)].
    Each call may raise. *)
Record Oracle : Type := mkOracle {
  start_fen : string -> string;
  legal_moves3 : string -> string -> list string -> res (list string);
  legal_moves2 : string -> string -> res (list string);
  get_fen : string -> string -> list string -> res string
}.

(** [class XiangqiPyffishMove]; [__eq__] compares [move_str]. *)
Record XiangqiPyffishMove : Type := mkXiangqiPyffishMove { move_str : string }.

#[global] Instance XiangqiPyffishMove_eq_dec : EqDecision XiangqiPyffishMove.
Proof. solve_decision. Defined.

(** The result dictionaries, [{'winner': ..., 'termination': ...}]. *)
Record ResultDict : Type := mkResultDict {
  rd_winner : option string;
  rd_termination : option string
}.

(** The attributes of a [XiangqiPyffishBoard]. *)
Record XiangqiPyffishBoard : Type := mkXiangqiPyffishBoard {
  variant : string;
  current_fen : string;
  move_history : list string;
  result : option ResultDict
}.

Section WithOracle.

Context (O : Oracle).

(** [XiangqiPyffishBoard(fen)]; an empty [fen] is falsy like [None]. *)
Definition init (fen_arg : option string) : XiangqiPyffishBoard :=
  let variant := "xiangqi" in
  let fen := match fen_arg with
             | Some (String c s) => String c s
             | _ => start_fen O variant
             end in
  mkXiangqiPyffishBoard variant fen [] None.

(** [reset] *)
Definition reset (self : XiangqiPyffishBoard) : XiangqiPyffishBoard :=
  mkXiangqiPyffishBoard (variant self) (start_fen O (variant self)) [] None.

(** The recurring [try: sf.legal_moves(v, fen, []) except: sf.legal_moves(v, fen)]. *)
Definition legal_moves_compat (variant fen : string) : res (list string) :=
  match legal_moves3 O variant fen [] with
  | inr l => ret l
  | inl _ => legal_moves2 O variant fen
  end.

(** [current_fen.split(' ')[1]] *)
Definition side_field (fen : string) : res string :=
  getitem (split " " fen) 1.

(** [get_legal_moves(player)] *)
Definition get_legal_moves (self : XiangqiPyffishBoard) (player : option bool)
  : res (list XiangqiPyffishMove) :=
  current_player_char <- side_field (current_fen self) ;;
  let current_player := bool_decide (current_player_char = "w") in
  match player with
  | Some p =>
      if decide (p <> current_player) then ret []
      else
        move_strs <- legal_moves_compat (variant self) (current_fen self) ;;
        ret (mkXiangqiPyffishMove <$> move_strs)
  | None =>
      move_strs <- legal_moves_compat (variant self) (current_fen self) ;;
      ret (mkXiangqiPyffishMove <$> move_strs)
  end.

(** The termination check at the end of [apply_move], on the board whose
    FEN and history are already updated. *)
Definition check_termination (self : XiangqiPyffishBoard) : XiangqiPyffishBoard * (Z * bool) :=
  match legal_moves_compat (variant self) (current_fen self) with
  | inl _ => (self, (0, false))
  | inr next_legal_moves =>
      let done := bool_decide (length next_legal_moves = 0%nat) in
      if done then
        match side_field (current_fen self) with
        | inl _ => (self, (0, done))
        | inr current_player_char =>
            let prev_player := bool_decide (current_player_char <> "w") in
            let reward := if prev_player then 1 else -1 in
            (mkXiangqiPyffishBoard (variant self) (current_fen self) (move_history self)
               (Some (mkResultDict (Some (if prev_player then "red" else "black"))
                                   (Some "checkmate"))),
             (reward, done))
        end
      else (self, (0, done))
  end.

(** [apply_move(move)] *)
Definition apply_move (self : XiangqiPyffishBoard) (mv : XiangqiPyffishMove)
  : XiangqiPyffishBoard * res (Z * bool) :=
  match legal_moves_compat (variant self) (current_fen self) with
  | inl e => (self, inl e)
  | inr legal_moves =>
      if decide (move_str mv ∈ legal_moves) then
        let history := (move_history self ++ [move_str mv])%list in
        match get_fen O (variant self) (current_fen self) [move_str mv] with
        | inl e =>
            (mkXiangqiPyffishBoard (variant self) (current_fen self) (removelast history)
               (result self),
             raise ValueError)
        | inr new_fen =>
            let '(b, r) :=
              check_termination
                (mkXiangqiPyffishBoard (variant self) new_fen history (result self)) in
            (b, ret r)
        end
      else (self, raise ValueError)
  end.

(** [is_game_over] *)
Definition is_game_over (self : XiangqiPyffishBoard) : bool :=
  match legal_moves3 O (variant self) (current_fen self) [] with
  | inr legal_moves => bool_decide (length legal_moves = 0%nat)
  | inl _ => false
  end.

(** [to_observation] *)
Definition to_observation (self : XiangqiPyffishBoard) : res (list Z) :=
  FenTensor.observe FenTensor.NUM_PIECE_TYPES (current_fen self).

(** [get_state_hash] *)
Definition get_state_hash (self : XiangqiPyffishBoard) : string := current_fen self.

(** [get_result]: it stores the result it derives. *)
Definition get_result (self : XiangqiPyffishBoard) : XiangqiPyffishBoard * ResultDict :=
  if negb (is_game_over self) then (self, mkResultDict None None)
  else
    match result self with
    | Some r => (self, r)
    | None =>
        let r := match side_field (current_fen self) with
                 | inr current_player_char =>
                     let current_player := bool_decide (current_player_char = "w") in
                     mkResultDict (Some (if current_player then "black" else "red"))
                                  (Some "checkmate")
                 | inl _ => mkResultDict (Some "draw") (Some "unknown")
                 end in
        (mkXiangqiPyffishBoard (variant self) (current_fen self) (move_history self) (Some r), r)
    end.

End WithOracle.

End Pyffish.

(** ** [game/simple_xiangqi_board.py] *)

Module SimpleXiangqi.

Import Pyffish.

(** The attributes of a [SimpleXiangqiBoard]. *)
Record SimpleXiangqiBoard : Type := mkSimpleXiangqiBoard {
  variant : string;
  current_fen : string;
  move_history : list string;
  result : option ResultDict
}.

Section WithOracle.

Context (O : Oracle).

(** [SimpleXiangqiBoard()] *)
Definition init : SimpleXiangqiBoard :=
  mkSimpleXiangqiBoard "xiangqi" (start_fen O "xiangqi") [] None.

(** [reset] *)
Definition reset (self : SimpleXiangqiBoard) : SimpleXiangqiBoard :=
  mkSimpleXiangqiBoard (variant self) (start_fen O (variant self)) [] None.

(** [get_legal_moves]: an oracle exception is printed and becomes [[]]. *)
Definition get_legal_moves (self : SimpleXiangqiBoard) : list string :=
  match legal_moves3 O (variant self) (current_fen self) [] with
  | inr l => l
  | inl _ => []
  end.

(** [make_move(move_str)] *)
Definition make_move (self : SimpleXiangqiBoard) (move_str : string)
  : SimpleXiangqiBoard * res (Z * bool) :=
  let legal_moves := get_legal_moves self in
  if decide (move_str ∈ legal_moves) then
    let history := (move_history self ++ [move_str])%list in
    match get_fen O (variant self) (current_fen self) [move_str] with
    | inl e =>
        (mkSimpleXiangqiBoard (variant self) (current_fen self) (removelast history)
           (result self),
         raise ValueError)
    | inr new_fen =>
        let is_done :=
          match legal_moves3 O (variant self) new_fen [] with
          | inr opponent_moves => bool_decide (length opponent_moves = 0%nat)
          | inl _ => false
          end in
        let reward := if is_done then 1 else 0 in
        (mkSimpleXiangqiBoard (variant self) new_fen history (result self),
         ret (reward, is_done))
    end
  else (self, raise ValueError).

(** [is_game_over] *)
Definition is_game_over (self : SimpleXiangqiBoard) : bool :=
  match legal_moves3 O (variant self) (current_fen self) [] with
  | inr l => bool_decide (length l = 0%nat)
  | inl _ => false
  end.

(** [get_observation] *)
Definition get_observation (self : SimpleXiangqiBoard) : res (list Z) :=
  FenTensor.observe (FenTensor.NUM_PIECE_TYPES / 2) (current_fen self).

(** [get_state_hash] *)
Definition get_state_hash (self : SimpleXiangqiBoard) : string := current_fen self.

(** [get_result] *)
Definition get_result (self : SimpleXiangqiBoard) : res ResultDict :=
  if negb (is_game_over self) then ret (mkResultDict None None)
  else
    current_player_char <- side_field (current_fen self) ;;
    let current_player := bool_decide (current_player_char = "w") in
    ret (mkResultDict (Some (if current_player then "black" else "red")) (Some "checkmate")).

End WithOracle.

End SimpleXiangqi.

(** ** [environments/chess_env.py] *)

Module ChessEnvPy.

Import Chess.

(** The [info] dictionary; the key ["result"] is present only after a
    terminating step. *)
Record Info : Type := mkInfo {
  info_legal_moves : list Z;
  info_action_mask : list Z;
  info_turn : string;
  info_fen : string;
  info_result : option (option ResultDict)
}.

(** What [step] returns: observation, reward, terminated, truncated, info. *)
Definition StepResult : Type := list Z * Z * bool * bool * Info.

Definition DEFAULT_MAX_STEPS : Z := 400.

Section WithLib.

Context (L : Lib).

(** The attributes of a [ChessEnv]; [rng] is the seed of its generator,
    [None] when it was seeded by the system. *)
Record ChessEnv : Type := mkChessEnv {
  board : ChessBoard L;
  max_steps : Z;
  steps : Z;
  current_player : bool;
  rng : option Z
}.

(** [ChessEnv(max_steps)] *)
Definition init (max_steps_arg : option Z) : ChessEnv :=
  mkChessEnv (mkChessBoard (initial L) [] None)
             (default DEFAULT_MAX_STEPS max_steps_arg) 0 WHITE None.

(** [seed(seed)] *)
Definition seed (self : ChessEnv) (s : option Z) : ChessEnv :=
  mkChessEnv (board self) (max_steps self) (steps self) (current_player self) s.

(** [_get_legal_move_indices] *)
Definition _get_legal_move_indices (self : ChessEnv) : list Z :=
  seqZ 0 (Z.of_nat (length (get_legal_moves L (board self) None))).

(** [_get_action_mask] *)
Definition _get_action_mask (self : ChessEnv) : res (list Z) :=
  foldl (fun acc mv =>
           mask <- acc ;;
           let move_idx := from_square L mv * 64 + to_square L mv in
           Np.set1 4096 mask move_idx 1)
        (ret (Np.zeros 4096))
        (get_legal_moves L (board self) None).

(** [reset(seed)] *)
Definition reset (self : ChessEnv) (seed_arg : option Z) : ChessEnv * res (list Z * Info) :=
  let self1 := match seed_arg with Some s => seed self (Some s) | None => self end in
  let self2 := mkChessEnv (Chess.reset L (board self1)) (max_steps self1) 0 WHITE (rng self1) in
  (self2,
   mask <- _get_action_mask self2 ;;
   let info := mkInfo (_get_legal_move_indices self2) mask "white"
                      (fen L (Chess.board (board self2))) None in
   obs <- to_observation L (board self2) ;;
   ret (obs, info)).

(** [step(action)] *)
Definition step (self : ChessEnv) (action : Z) : ChessEnv * res StepResult :=
  let legal_moves := get_legal_moves L (board self) None in
  if decide (action >= Z.of_nat (length legal_moves)) then (self, raise ValueError)
  else
    match getitem legal_moves action with
    | inl e => (self, inl e)
    | inr mv =>
        match apply_move L (board self) mv with
        | (b, inl e) =>
            (mkChessEnv b (max_steps self) (steps self) (current_player self) (rng self), inl e)
        | (b, inr (reward, game_over)) =>
            let self1 := mkChessEnv b (max_steps self) (steps self + 1)
                                    (negb (current_player self)) (rng self) in
            let terminated := game_over in
            let truncated := bool_decide (steps self1 >= max_steps self1) in
            (self1,
             mask <- _get_action_mask self1 ;;
             let info := mkInfo (_get_legal_move_indices self1) mask
                                (if turn L (Chess.board b) then "white" else "black")
                                (fen L (Chess.board b))
                                (if terminated then Some (get_result L b) else None) in
             obs <- to_observation L b ;;
             ret (obs, reward, terminated, truncated, info))
        end
    end.

(** [action_to_move(action)] *)
Definition action_to_move (self : ChessEnv) (action : Z) : res (move L) :=
  let legal_moves := get_legal_moves L (board self) None in
  if decide (action >= Z.of_nat (length legal_moves)) then raise ValueError
  else getitem legal_moves action.

End WithLib.

Arguments board {L} _.
Arguments max_steps {L} _.
Arguments steps {L} _.
Arguments current_player {L} _.
Arguments rng {L} _.
Arguments mkChessEnv {L} _ _ _ _ _.

End ChessEnvPy.

(** ** [environments/xiangqi_env.py] *)

Module XiangqiEnvPy.

Import Xiangqi.

(** The [info] dictionary of the Xiangqi environment. *)
Record Info : Type := mkInfo {
  info_legal_moves : list Z;
  info_action_mask : list Z;
  info_turn : string;
  info_board_str : string;
  info_result : option (option ResultDict)
}.

Definition StepResult : Type := list Z * Z * bool * bool * Info.

Definition DEFAULT_MAX_STEPS : Z := 400.

(** The attributes of a [XiangqiEnv]: its board is the native
    [XiangqiBoard]. *)
Record XiangqiEnv : Type := mkXiangqiEnv {
  board : XiangqiBoard;
  max_steps : Z;
  steps : Z;
  current_player : bool;
  rng : option Z
}.

(** [XiangqiEnv(max_steps)] *)
Definition init (max_steps_arg : option Z) : XiangqiEnv :=
  mkXiangqiEnv Xiangqi.init (default DEFAULT_MAX_STEPS max_steps_arg) 0 RED None.

(** [seed(seed)] *)
Definition seed (self : XiangqiEnv) (s : option Z) : XiangqiEnv :=
  mkXiangqiEnv (board self) (max_steps self) (steps self) (current_player self) s.

(** [_get_legal_move_indices] *)
Definition _get_legal_move_indices (self : XiangqiEnv) : list Z :=
  seqZ 0 (Z.of_nat (length (get_legal_moves (board self) None))).

(** [_get_action_mask] *)
Definition _get_action_mask (self : XiangqiEnv) : res (list Z) :=
  foldl (fun acc mv =>
           mask <- acc ;;
           let from_idx := fst (from_pos mv) * Z.of_nat BOARD_WIDTH + snd (from_pos mv) in
           let to_idx := fst (to_pos mv) * Z.of_nat BOARD_WIDTH + snd (to_pos mv) in
           let move_idx := from_idx * 90 + to_idx in
           Np.set1 (90 * 90) mask move_idx 1)
        (ret (Np.zeros (90 * 90)))
        (get_legal_moves (board self) None).

(** [reset(seed)] *)
Definition reset (self : XiangqiEnv) (seed_arg : option Z) : XiangqiEnv * res (list Z * Info) :=
  let self1 := match seed_arg with Some s => seed self (Some s) | None => self end in
  let self2 := mkXiangqiEnv (Xiangqi.reset (board self1)) (max_steps self1) 0 RED (rng self1) in
  (self2,
   mask <- _get_action_mask self2 ;;
   board_str <- to_str (board self2) ;;
   let info := mkInfo (_get_legal_move_indices self2) mask "red" board_str None in
   obs <- to_observation (board self2) ;;
   ret (obs, info)).

(** [step(action)] *)
Definition step (self : XiangqiEnv) (action : Z) : XiangqiEnv * res StepResult :=
  let legal_moves := get_legal_moves (board self) None in
  if decide (action >= Z.of_nat (length legal_moves)) then (self, raise ValueError)
  else
    match getitem legal_moves action with
    | inl e => (self, inl e)
    | inr mv =>
        match apply_move (board self) mv with
        | (b, inl e) =>
            (mkXiangqiEnv b (max_steps self) (steps self) (current_player self) (rng self), inl e)
        | (b, inr (reward, game_over)) =>
            let self1 := mkXiangqiEnv b (max_steps self) (steps self + 1)
                                      (negb (current_player self)) (rng self) in
            let terminated := game_over in
            let truncated := bool_decide (steps self1 >= max_steps self1) in
            (self1,
             mask <- _get_action_mask self1 ;;
             board_str <- to_str b ;;
             let info := mkInfo (_get_legal_move_indices self1) mask
                                (if decide (Xiangqi.current_player b = RED) then "red" else "black")
                                board_str
                                (if terminated then Some (get_result b) else None) in
             obs <- to_observation b ;;
             ret (obs, reward, terminated, truncated, info))
        end
    end.

(** A run of [step] calls: the environment afterwards and how many of
    the calls returned rather than raised. *)
Fixpoint run_steps (self : XiangqiEnv) (actions : list Z) : XiangqiEnv * nat :=
  match actions with
  | [] => (self, 0%nat)
  | a :: rest =>
      match step self a with
      | (e, inr _) => let '(e', n) := run_steps e rest in (e', S n)
      | (e, inl _) => run_steps e rest
      end
  end.

End XiangqiEnvPy.

(** ** [game/game_factory.py] *)

Module GameFactory.

Definition CHESS : string := "chess".
Definition XIANGQI : string := "xiangqi".
Definition XIANGQI_PYFFISH : string := "xiangqi_pyffish".
Definition XIANGQI_SIMPLE : string := "xiangqi_simple".

(** [s.lower()] *)
Definition str_lower (s : string) : string :=
  string_of_list_ascii (lower <$> list_ascii_of_string s).

(** The environments [create_environment] can return. *)
Inductive Env (L : Chess.Lib) : Type :=
| EnvChess (e : ChessEnvPy.ChessEnv L)
| EnvXiangqi (e : XiangqiEnvPy.XiangqiEnv).

(** [GameFactory.create_environment(game_type, max_steps)] *)
Definition create_environment (L : Chess.Lib) (game_type : string) (max_steps : option Z)
  : res (Env L) :=
  if decide (str_lower game_type = CHESS) then
    ret (EnvChess L (ChessEnvPy.init L max_steps))
  else if decide (str_lower game_type = XIANGQI) then
    ret (EnvXiangqi L (XiangqiEnvPy.init max_steps))
  else raise ValueError.

End GameFactory.

(** ** Stand-ins for the two external rule libraries

    python-chess and pyffish are not part of the repository; the theorems
    below hold for every library.  The instances here are small scripted
    ones on which the definitions can be run. *)

Module Scripted.

Import Chess Pyffish.

(** A toy rule set in the shape of python-chess: a position is the number
    of plies played, each side has the same three moves, the side that
    makes the second ply wins.  Two kings stand on e1 and e8. *)
Definition toy_lib : Chess.Lib :=
  {| pos := nat;
     move := nat;
     move_eq_dec := _;
     initial := 0%nat;
     parse_fen := fun _ => raise ValueError;
     Chess.legal_moves := fun n => if (n <? 2)%nat then [0; 1; 2]%nat else [];
     is_legal := fun n m =>
       bool_decide (m ∈ if (n <? 2)%nat then [0; 1; 2]%nat else []);
     push := fun n _ => S n;
     turn := fun n => Nat.even n;
     is_check := fun _ => false;
     lib_is_game_over := fun n => (2 <=? n)%nat;
     outcome := fun n =>
       if (2 <=? n)%nat then Some (mkOutcome (Some "CHECKMATE") (Some (Nat.odd n)))
       else None;
     piece_at := fun _ sq =>
       if decide (sq = 4) then Some (mkPiece KING WHITE)
       else if decide (sq = 60) then Some (mkPiece KING BLACK)
       else None;
     fen := fun n => str_of_int (Z.of_nat n);
     from_square := fun m => Z.of_nat m;
     to_square := fun m => Z.of_nat m + 8;
     legal_moves_legal := fun n m H => bool_decide_eq_true_2 _ H |}.

(** An oracle in the shape of pyffish that answers from two tables: the
    legal moves of the positions it knows and the position each of their
    moves leads to.  Anything else raises, and so does the two-argument
    call of [legal_moves], which pyffish does not have. *)
Definition table_oracle (start : string)
    (moves : list (string * list string))
    (next : list (string * string * string)) : Oracle :=
  {| start_fen := fun _ => start;
     legal_moves3 := fun _ fen _ =>
       match (list_to_map moves : gmap string (list string)) !! fen with
       | Some l => ret l
       | None => raise (OtherError "unknown position")
       end;
     legal_moves2 := fun _ _ => raise TypeError;
     get_fen := fun _ fen mvs =>
       match mvs with
       | [mv] =>
           match (list_to_map next : gmap (string * string) string) !! (fen, mv) with
           | Some fen' => ret fen'
           | None => raise (OtherError "unknown move")
           end
       | _ => raise (OtherError "unsupported")
       end |}.

(** The Xiangqi starting position. *)
Definition xiangqi_start : string :=
  "rnbakabnr/9/1c5c1/p1p1p1p1p/9/9/P1P1P1P1P/1C5C1/9/RNBAKABNR w - - 0 1".

(** A rook ending with Black to move: black king d10, black rooks b5 and
    a2, red king e1. *)
Definition ending_before : string := "3k5/9/9/9/9/1r7/9/9/r8/4K4 b - - 0 1".

(** The same after Black's b5b1: the red king is in check on the first
    rank, the second rank is covered from a2, and Red has no move. *)
Definition ending_after : string := "3k5/9/9/9/9/9/9/9/r8/1r2K4 w - - 1 2".

(** The oracle on these positions (for the two non-final ones a few of
    the legal moves are listed). *)
Definition ending_oracle : Oracle :=
  table_oracle xiangqi_start
    [ (xiangqi_start, ["h3h10"; "b3b10"; "a1a2"; "e4e5"]);
      (ending_before, ["b5b1"; "b5b4"; "a2a1"; "d10d9"]);
      (ending_after, []) ]
    [ (ending_before, "b5b1", ending_after) ].

(** The same oracle when it cannot evaluate the position after b5b1: the
    move is accepted and applied, the enumeration that follows raises. *)
Definition flaky_oracle : Oracle :=
  table_oracle xiangqi_start
    [ (ending_before, ["b5b1"; "b5b4"; "a2a1"; "d10d9"]) ]
    [ (ending_before, "b5b1", ending_after) ].

(** An oracle whose every call raises. *)
Definition failing_oracle : Oracle := table_oracle xiangqi_start [] [].

(** An oracle in the shape of an older pyffish, whose [legal_moves]
    takes two arguments: the three-argument call raises [TypeError], the
    two-argument call answers for the rook ending. *)
Definition old_api_oracle : Oracle :=
  {| start_fen := fun _ => xiangqi_start;
     legal_moves3 := fun _ _ _ => raise TypeError;
     legal_moves2 := fun _ fen =>
       if decide (fen = ending_before) then ret ["b5b1"; "b5b4"; "a2a1"; "d10d9"]
       else raise (OtherError "unknown position");
     get_fen := fun _ _ _ => raise (OtherError "unknown move") |}.

Definition ending_board : XiangqiPyffishBoard :=
  mkXiangqiPyffishBoard "xiangqi" ending_before [] None.

(** A rule set that imitates python-chess on one point: its legality
    test accepts castling written as king takes rook, ["e1h1"], which the
    enumeration of legal moves spells ["e1g1"] and does not list.  A
    position is the number of plies played. *)
Definition castling_lib : Chess.Lib :=
  {| pos := nat;
     move := string;
     move_eq_dec := _;
     initial := 0%nat;
     parse_fen := fun _ => raise ValueError;
     Chess.legal_moves := fun n => if (n <? 4)%nat then ["e1g1"; "a2a3"] else [];
     is_legal := fun n m =>
       bool_decide (m ∈ if (n <? 4)%nat then ["e1g1"; "a2a3"] else [])
       || ((n <? 4)%nat && bool_decide (m = "e1h1"));
     push := fun n _ => S n;
     turn := fun n => Nat.even n;
     is_check := fun _ => false;
     lib_is_game_over := fun n => (4 <=? n)%nat;
     outcome := fun n =>
       if (4 <=? n)%nat then Some (mkOutcome (Some "STALEMATE") None) else None;
     piece_at := fun _ sq =>
       if decide (sq = 4) then Some (mkPiece KING WHITE)
       else if decide (sq = 60) then Some (mkPiece KING BLACK)
       else None;
     fen := fun n => str_of_int (Z.of_nat n);
     from_square := fun m => 4;
     to_square := fun m => if decide (m = "e1h1") then 7 else 6;
     legal_moves_legal := fun n m H =>
       orb_true_intro _ _ (or_introl (bool_decide_eq_true_2 _ H)) |}.

(** The first two plies of a game: Red's cannon b3e3, Black's cannon
    b8e8. *)
Definition after_b3e3 : string :=
  "rnbakabnr/9/1c5c1/p1p1p1p1p/9/9/P1P1P1P1P/4C2C1/9/RNBAKABNR b - - 1 1".

Definition after_b8e8 : string :=
  "rnbakabnr/9/4c2c1/p1p1p1p1p/9/9/P1P1P1P1P/4C2C1/9/RNBAKABNR w - - 2 2".

(** The oracle on these positions (a few of the legal moves are
    listed). *)
Definition opening_oracle : Oracle :=
  table_oracle xiangqi_start
    [ (xiangqi_start, ["b3e3"; "h3e3"; "a1a2"]);
      (after_b3e3, ["b8e8"; "h8e8"; "a10a9"]);
      (after_b8e8, ["b1c3"; "h1g3"]) ]
    [ (xiangqi_start, "b3e3", after_b3e3);
      (after_b3e3, "b8e8", after_b8e8) ].

Definition ending_board_simple : SimpleXiangqi.SimpleXiangqiBoard :=
  SimpleXiangqi.mkSimpleXiangqiBoard "xiangqi" ending_before [] None.

End Scripted.

(** ** [game/board_base.py]: the interface the boards share

    [BoardBase] is the abstract class of the three [Board] classes;
    [SimpleXiangqiBoard] offers the same operations under its own names
    ([make_move], [get_observation]).  Next to the methods the record
    carries the attributes the properties speak about. *)

Module Boards.

Record BoardBase : Type := mkBoardBase {
  state : Type;
  move : Type;
  position : Type;
  (** the position attribute ([board] or [current_fen]) *)
  get_position : state -> position;
  reset : state -> state;
  (** [get_legal_moves()] *)
  get_legal_moves : state -> res (list move);
  apply_move : state -> move -> state * res (Z * bool);
  is_game_over : state -> bool;
  to_observation : state -> res (list Z);
  get_state_hash : state -> string;
  (** the board a call of [get_result()] leaves *)
  after_get_result : state -> state;
  (** [len(move_history)] *)
  history_length : state -> nat;
  (** [result is not None] *)
  result_is_set : state -> bool;
  (** the side to move: [True] for the first player *)
  side_to_move : state -> res bool;
  (** the number of pieces of the position *)
  piece_count : state -> Z;
  (** the position is one the variant's rules can produce *)
  well_formed : state -> Prop
}.

Definition chess_board (L : Chess.Lib) : BoardBase :=
  {| state := Chess.ChessBoard L;
     move := Chess.move L;
     position := Chess.pos L;
     get_position := Chess.board;
     reset := Chess.reset L;
     get_legal_moves := fun b => ret (Chess.get_legal_moves L b None);
     apply_move := Chess.apply_move L;
     is_game_over := Chess.is_game_over L;
     to_observation := Chess.to_observation L;
     get_state_hash := Chess.get_state_hash L;
     after_get_result := fun b => b;
     history_length := fun b => length (Chess.move_history b);
     result_is_set := fun b => bool_decide (Chess.result b <> None);
     side_to_move := fun b => ret (Chess.turn L (Chess.board b));
     piece_count := Chess.piece_count L;
     well_formed := fun b =>
       forall sq pc, Chess.piece_at L (Chess.board b) sq = Some pc ->
                     1 <= Chess.piece_type pc <= 6 |}.

Definition xiangqi_board : BoardBase :=
  {| state := Xiangqi.XiangqiBoard;
     move := Xiangqi.XiangqiMove;
     position := list Z;
     get_position := Xiangqi.board;
     reset := Xiangqi.reset;
     get_legal_moves := fun b => ret (Xiangqi.get_legal_moves b None);
     apply_move := Xiangqi.apply_move;
     is_game_over := Xiangqi.is_game_over;
     to_observation := Xiangqi.to_observation;
     get_state_hash := Xiangqi.get_state_hash;
     after_get_result := fun b => b;
     history_length := fun b => length (Xiangqi.move_history b);
     result_is_set := fun b => bool_decide (Xiangqi.result b <> None);
     side_to_move := fun b => ret (Xiangqi.current_player b);
     piece_count := Xiangqi.piece_count;
     well_formed := fun b => Xiangqi.grid_ok (Xiangqi.board b) |}.

Definition pyffish_board (O : Pyffish.Oracle) : BoardBase :=
  {| state := Pyffish.XiangqiPyffishBoard;
     move := Pyffish.XiangqiPyffishMove;
     position := string;
     get_position := Pyffish.current_fen;
     reset := Pyffish.reset O;
     get_legal_moves := fun b => Pyffish.get_legal_moves O b None;
     apply_move := Pyffish.apply_move O;
     is_game_over := Pyffish.is_game_over O;
     to_observation := Pyffish.to_observation;
     get_state_hash := Pyffish.get_state_hash;
     after_get_result := fun b => fst (Pyffish.get_result O b);
     history_length := fun b => length (Pyffish.move_history b);
     result_is_set := fun b => bool_decide (Pyffish.result b <> None);
     side_to_move := fun b =>
       c <- Pyffish.side_field (Pyffish.current_fen b) ;;
       ret (bool_decide (c = "w"));
     piece_count := fun b => FenTensor.piece_count (Pyffish.current_fen b);
     well_formed := fun b => FenTensor.placement_ok (Pyffish.current_fen b) |}.

Definition simple_board (O : Pyffish.Oracle) : BoardBase :=
  {| state := SimpleXiangqi.SimpleXiangqiBoard;
     move := string;
     position := string;
     get_position := SimpleXiangqi.current_fen;
     reset := SimpleXiangqi.reset O;
     get_legal_moves := fun b => ret (SimpleXiangqi.get_legal_moves O b);
     apply_move := SimpleXiangqi.make_move O;
     is_game_over := SimpleXiangqi.is_game_over O;
     to_observation := SimpleXiangqi.get_observation;
     get_state_hash := SimpleXiangqi.get_state_hash;
     after_get_result := fun b => b;
     history_length := fun b => length (SimpleXiangqi.move_history b);
     result_is_set := fun b => bool_decide (SimpleXiangqi.result b <> None);
     side_to_move := fun b =>
       c <- Pyffish.side_field (SimpleXiangqi.current_fen b) ;;
       ret (bool_decide (c = "w"));
     piece_count := fun b => FenTensor.piece_count (SimpleXiangqi.current_fen b);
     well_formed := fun b => FenTensor.placement_ok (SimpleXiangqi.current_fen b) |}.

(** The four board classes of the repository. *)
Inductive Variant : Type :=
| ChessV
| XiangqiV
| PyffishV
| SimpleV.

Definition board_of (L : Chess.Lib) (O : Pyffish.Oracle) (v : Variant) : BoardBase :=
  match v with
  | ChessV => chess_board L
  | XiangqiV => xiangqi_board
  | PyffishV => pyffish_board O
  | SimpleV => simple_board O
  end.

(** Apply the moves of a list in turn; stop at the first that raises. *)
Fixpoint apply_moves (B : BoardBase) (b : state B) (mvs : list (move B))
  : state B * res unit :=
  match mvs with
  | [] => (b, ret tt)
  | mv :: rest =>
      match apply_move B b mv with
      | (b', inr _) => apply_moves B b' rest
      | (b', inl e) => (b', inl e)
      end
  end.

(** The boards a game reaches: from a reset board, by moves made while
    the game is not over, and by calls of [get_result]. *)
Inductive reachable (B : BoardBase) : state B -> Prop :=
| reach_reset : forall b0, reachable B (reset B b0)
| reach_apply : forall b mv b' r,
    reachable B b -> is_game_over B b = false ->
    apply_move B b mv = (b', inr r) -> reachable B b'
| reach_get_result : forall b, reachable B b -> reachable B (after_get_result B b).


(** What the boards rely on from python-chess: the starting position is
    not finished, a finished position has an outcome, a position without
    legal moves is finished (checkmate or stalemate), a move passes the
    turn, and pieces have one of the six types. *)
Record chess_contract (L : Chess.Lib) : Prop := mkChessContract {
  initial_live : Chess.lib_is_game_over L (Chess.initial L) = false;
  over_has_outcome : forall p,
    Chess.lib_is_game_over L p = true -> Chess.outcome L p <> None;
  no_moves_over : forall p,
    Chess.legal_moves L p = [] -> Chess.lib_is_game_over L p = true;
  push_passes_turn : forall p mv,
    mv ∈ Chess.legal_moves L p ->
    Chess.turn L (Chess.push L p mv) = negb (Chess.turn L p);
  piece_types : forall p sq pc,
    Chess.piece_at L p sq = Some pc -> 1 <= Chess.piece_type pc <= 6
}.

(** What the boards rely on from pyffish: the starting position has a
    side field, a well-formed placement and is not finished; the position
    it returns for a legal move has a well-formed placement and the other
    side to move; and only the three-argument call of [legal_moves] ever reports
    an empty list. *)
Record oracle_contract (O : Pyffish.Oracle) : Prop := mkOracleContract {
  start_side : forall v, Pyffish.side_field (Pyffish.start_fen O v) = inr "w";
  start_placement : forall v, FenTensor.placement_ok (Pyffish.start_fen O v);
  start_live : forall v, Pyffish.legal_moves3 O v (Pyffish.start_fen O v) [] <> inr [];
  next_side : forall v fen lm mv fen',
    Pyffish.legal_moves_compat O v fen = inr lm -> mv ∈ lm ->
    Pyffish.get_fen O v fen [mv] = inr fen' ->
    exists c c', Pyffish.side_field fen = inr c /\ Pyffish.side_field fen' = inr c' /\
                 bool_decide (c' = "w") = negb (bool_decide (c = "w"));
  next_placement : forall v fen lm mv fen',
    Pyffish.legal_moves_compat O v fen = inr lm -> mv ∈ lm ->
    Pyffish.get_fen O v fen [mv] = inr fen' -> FenTensor.placement_ok fen';
  fallback_nonempty : forall v fen, Pyffish.legal_moves2 O v fen <> inr []
}.

End Boards.

(** ** Notions for the further properties of the boards *)

Module BoardsMore.

Import Boards.

(** For the oracle-backed boards: the oracle returns a position for the
    move ([sf.get_fen] does not raise). *)
Definition fen_updates (L : Chess.Lib) (O : Pyffish.Oracle) (v : Variant)
  : state (board_of L O v) -> move (board_of L O v) -> Prop :=
  match v with
  | PyffishV => fun b mv =>
      is_ok (Pyffish.get_fen O (Pyffish.variant b) (Pyffish.current_fen b)
               [Pyffish.move_str mv]) = true
  | SimpleV => fun b mv =>
      is_ok (Pyffish.get_fen O (SimpleXiangqi.variant b) (SimpleXiangqi.current_fen b)
               [mv]) = true
  | _ => fun _ _ => True
  end.

(** [move_history], read as moves of the board ([XiangqiPyffishBoard]
    keeps the strings of its moves). *)
Definition applied_history (L : Chess.Lib) (O : Pyffish.Oracle) (v : Variant)
  : state (board_of L O v) -> list (move (board_of L O v)) :=
  match v with
  | ChessV => fun b => Chess.move_history b
  | XiangqiV => fun b => Xiangqi.move_history b
  | PyffishV => fun b => Pyffish.mkXiangqiPyffishMove <$> Pyffish.move_history b
  | SimpleV => fun b => SimpleXiangqi.move_history b
  end.

(** The [SimpleXiangqiBoard] with the position and history of a
    [XiangqiPyffishBoard]; its [result] attribute is never assigned. *)
Definition as_simple (b : Pyffish.XiangqiPyffishBoard) : SimpleXiangqi.SimpleXiangqiBoard :=
  SimpleXiangqi.mkSimpleXiangqiBoard (Pyffish.variant b) (Pyffish.current_fen b)
    (Pyffish.move_history b) None.

(** The name [ChessBoard.get_result] gives a colour. *)
Definition colour_name (c : bool) : string := if c then "white" else "black".

(** For [ChessBoard], whose legality test is python-chess's
    [move in board.legal_moves]: the test refuses the move. *)
Definition chess_refuses (L : Chess.Lib) (O : Pyffish.Oracle) (v : Variant)
  : state (board_of L O v) -> move (board_of L O v) -> Prop :=
  match v with
  | ChessV => fun b mv => Chess.is_legal L (Chess.board b) mv = false
  | _ => fun _ _ => True
  end.

(** The legality test of [apply_move]: python-chess's for [ChessBoard],
    membership in the enumerated list [lm] for the Xiangqi boards. *)
Definition passes_test (L : Chess.Lib) (O : Pyffish.Oracle) (v : Variant)
  : state (board_of L O v) -> move (board_of L O v) -> list (move (board_of L O v)) -> Prop :=
  match v with
  | ChessV => fun b mv _ => Chess.is_legal L (Chess.board b) mv = true
  | _ => fun _ mv lm => mv ∈ lm
  end.

(** python-chess passes the turn with every move it accepts. *)
Definition push_flips (L : Chess.Lib) : Prop :=
  forall p mv, Chess.is_legal L p mv = true ->
    Chess.turn L (Chess.push L p mv) = negb (Chess.turn L p).

(** The operations that write to a board after [reset]: [apply_move],
    which may return or raise, and [get_result]. *)
Inductive Op (B : BoardBase) : Type :=
| OpApply (mv : move B)
| OpGetResult.

Arguments OpApply {B} _.
Arguments OpGetResult {B}.

(** A run of such operations: the board it leaves and the number of
    moves that went through. *)
Fixpoint run (B : BoardBase) (b : state B) (ops : list (Op B)) : state B * nat :=
  match ops with
  | [] => (b, 0%nat)
  | OpApply mv :: rest =>
      match apply_move B b mv with
      | (b', inr _) => (fst (run B b' rest), S (snd (run B b' rest)))
      | (b', inl _) => run B b' rest
      end
  | OpGetResult :: rest => run B (after_get_result B b) rest
  end.

(** [sf.get_fen] called move by move. *)
Fixpoint replay_fen (O : Pyffish.Oracle) (variant fen : string) (mvs : list string)
  : res string :=
  match mvs with
  | [] => ret fen
  | mv :: rest =>
      fen' <- Pyffish.get_fen O variant fen [mv] ;;
      replay_fen O variant fen' rest
  end.

(** The position of a board is what the library makes of its history,
    one library call for each move of it: python-chess's [push] from the
    starting position, pyffish's [get_fen] from the starting FEN.  The
    native board, which lets no move through, is still at its start. *)
Definition replayed (L : Chess.Lib) (O : Pyffish.Oracle) (v : Variant)
  : state (board_of L O v) -> Prop :=
  match v with
  | ChessV => fun b =>
      Chess.board b = foldl (Chess.push L) (Chess.initial L) (Chess.move_history b)
  | XiangqiV => fun b =>
      Xiangqi.move_history b = [] /\ Xiangqi.current_player b = Xiangqi.RED
  | PyffishV => fun b =>
      replay_fen O (Pyffish.variant b) (Pyffish.start_fen O (Pyffish.variant b))
        (Pyffish.move_history b) = inr (Pyffish.current_fen b)
  | SimpleV => fun b =>
      replay_fen O (SimpleXiangqi.variant b) (Pyffish.start_fen O (SimpleXiangqi.variant b))
        (SimpleXiangqi.move_history b) = inr (SimpleXiangqi.current_fen b)
  end.

End BoardsMore.

(** ** [environments/chess_env.py]: the conversions between moves and
    actions, and runs of calls *)

Module ChessEnvMore.

Import Chess ChessEnvPy.

(** [l.index(x)]: the first position at which [x] occurs, [ValueError]
    when there is none. *)
Fixpoint list_index {A : Type} `{EqDecision A} (x : A) (l : list A) : res Z :=
  match l with
  | [] => raise ValueError
  | y :: l' =>
      if decide (y = x) then ret 0
      else
        i <- list_index x l' ;;
        ret (i + 1)
  end.

(** The argument of [move_to_action]: a [chess.Move], a [Move] or a UCI
    string. *)
Inductive MoveArg (L : Lib) : Type :=
| OfChessMove (mv : move L)
| OfMove (m : MovePy.Move)
| OfStr (s : string).

Arguments OfChessMove {L} _.
Arguments OfMove {L} _.
Arguments OfStr {L} _.

(** The calls that change a [ChessEnv]. *)
Inductive Call : Type :=
| CallReset (seed_arg : option Z)
| CallSeed (seed_arg : option Z)
| CallStep (action : Z).

Section WithLib.

Context (L : Lib).

(** [chess.Move.from_uci] and the constructor [chess.Move(from_square,
    to_square, promotion)] of python-chess. *)
Context (chess_from_uci : string -> res (move L)).
Context (chess_move : Z -> Z -> option Z -> move L).

(** The conversion at the head of [move_to_action]. *)
Definition as_chess_move (arg : MoveArg L) : res (move L) :=
  match arg with
  | OfStr s => chess_from_uci s
  | OfMove m => ret (chess_move (MovePy.from_sq m) (MovePy.to_sq m) (MovePy.promotion m))
  | OfChessMove mv => ret mv
  end.

(** [move_to_action(move)] *)
Definition move_to_action (self : ChessEnv L) (arg : MoveArg L) : res Z :=
  mv <- as_chess_move arg ;;
  let legal_moves := get_legal_moves L (board self) None in
  match list_index mv legal_moves with
  | inr i => ret i
  | inl _ => raise ValueError
  end.

(** The environment a call leaves, whether it returns or raises. *)
Definition call (self : ChessEnv L) (c : Call) : ChessEnv L :=
  match c with
  | CallReset s => fst (reset L self s)
  | CallSeed s => seed L self s
  | CallStep a => fst (step L self a)
  end.

(** A run of calls. *)
Definition calls (self : ChessEnv L) (cs : list Call) : ChessEnv L :=
  foldl call self cs.

(** The index [_get_action_mask] gives a move. *)
Definition mask_index (mv : move L) : Z := from_square L mv * 64 + to_square L mv.

(** The squares of python-chess are the numbers 0 to 63. *)
Definition squares_in_range : Prop :=
  forall p mv, mv ∈ legal_moves L p ->
    0 <= from_square L mv < 64 /\ 0 <= to_square L mv < 64.

(** The environment is in step with its board: [steps] counts the moves
    of the history and [current_player] is the side to move. *)
Definition in_step (self : ChessEnv L) : Prop :=
  steps self = Z.of_nat (length (move_history (board self))) /\
  current_player self = turn L (Chess.board (board self)) /\
  current_player self = Nat.even (length (move_history (board self))).

End WithLib.

End ChessEnvMore.

(** ** What the observation tensors show, cell by cell *)

Module Cells.

(** The square [ChessBoard.to_observation] shows in row [r], column [c]:
    rank 8 is row 0. *)
Definition square_at (r c : nat) : Z := (7 - Z.of_nat r) * 8 + Z.of_nat c.

(** The plane of the piece on a square of a [ChessBoard], [None] for an
    empty square. *)
Definition plane_at (L : Chess.Lib) (b : Chess.ChessBoard L) (sq : Z) : option Z :=
  Chess.piece_at L (Chess.board b) sq ≫=
    fun pc => Chess.PIECE_TO_PLANE !! (Chess.piece_type pc, Chess.color pc).

(** The plane [XiangqiBoard.to_observation] gives the piece code [v],
    [None] for the code 0 of an empty point. *)
Definition plane_of_code (v : Z) : option Z :=
  if decide (v <> 0) then Some (if 0 <? v then Z.abs v - 1 else Z.abs v + 6) else None.

(** The code on the point of row [r], column [c] of a [XiangqiBoard]. *)
Definition code_at (b : Xiangqi.XiangqiBoard) (r c : nat) : option Z :=
  Xiangqi.board b !! (r * 9 + c)%nat.

(** The points a FEN rank describes, from the left: a digit stands for
    that many empty points, any other character for itself. *)
Definition expand_rank (rank : list ascii) : list (option ascii) :=
  rank ≫= fun ch =>
    if is_decimal ch then replicate (Z.to_nat (ord ch - 48)) None else [Some ch].

(** The character a rank puts on file [c], [None] for an empty point and
    beyond the rank's end. *)
Definition char_on_rank (rank : list ascii) (c : nat) : option ascii :=
  mjoin (expand_rank rank !! c).

(** The character a FEN puts on the point of rank [r], file [c]. *)
Definition char_at (fen : string) (r c : nat) : option ascii :=
  split "/" (FenTensor.board_part fen) !! r ≫=
    fun rank => char_on_rank (list_ascii_of_string rank) c.

(** The plane the FEN boards give a character: the piece type for a Red
    letter, the piece type plus [offset] for a Black one, none for a
    character that is no piece letter. *)
Definition plane_of_char (offset : Z) (ch : ascii) : option Z :=
  FenTensor.PIECE_MAPPING !! ch ≫=
    fun tr => Some (if (snd tr : bool) then fst tr else fst tr + offset).

End Cells.

(** ** [game/game_factory.py]: the boards *)

Module GameFactoryMore.

Import GameFactory.

(** The boards [create_board] can return. *)
Inductive Board (L : Chess.Lib) : Type :=
| BoardChess (b : Chess.ChessBoard L)
| BoardXiangqi (b : Xiangqi.XiangqiBoard)
| BoardPyffish (b : Pyffish.XiangqiPyffishBoard)
| BoardSimple (b : SimpleXiangqi.SimpleXiangqiBoard).

(** [GameFactory.create_board(game_type)] *)
Definition create_board (L : Chess.Lib) (O : Pyffish.Oracle) (game_type : string)
  : res (Board L) :=
  if decide (str_lower game_type = CHESS) then
    b <- Chess.init L None ;;
    ret (BoardChess L b)
  else if decide (str_lower game_type = XIANGQI) then
    ret (BoardXiangqi L Xiangqi.init)
  else if decide (str_lower game_type = XIANGQI_PYFFISH) then
    ret (BoardPyffish L (Pyffish.init O None))
  else if decide (str_lower game_type = XIANGQI_SIMPLE) then
    ret (BoardSimple L (SimpleXiangqi.init O))
  else raise ValueError.

(** The [board] attribute of an environment. *)
Definition board_of_env {L : Chess.Lib} (env : Env L) : Board L :=
  match env with
  | EnvChess _ e => BoardChess L (ChessEnvPy.board e)
  | EnvXiangqi _ e => BoardXiangqi L (XiangqiEnvPy.board e)
  end.

(** The [max_steps] attribute of an environment. *)
Definition max_steps_of {L : Chess.Lib} (env : Env L) : Z :=
  match env with
  | EnvChess _ e => ChessEnvPy.max_steps e
  | EnvXiangqi _ e => XiangqiEnvPy.max_steps e
  end.

End GameFactoryMore.

(** * Properties *)

(** ** Python primitives *)

Section PyFacts.

Context {A : Type}.

Lemma norm_index_nat (n k : nat) : (k < n)%nat -> norm_index n (Z.of_nat k) = inr k.
Proof.
  intros Hk. unfold norm_index.
  destruct (decide _) as [_|Hn]; [|lia].
  unfold ret. f_equal. lia.
Qed.

Lemma norm_index_bound (n : nat) (i : Z) (k : nat) :
  norm_index n i = inr k -> (k < n)%nat.
Proof.
  unfold norm_index, ret, raise.
  repeat destruct (decide _); intros [= <-]; lia.
Qed.

Lemma norm_index_nonneg (n : nat) (i : Z) (k : nat) :
  0 <= i -> norm_index n i = inr k -> i = Z.of_nat k.
Proof.
  unfold norm_index, ret, raise.
  repeat destruct (decide _); intros ? [= <-]; lia.
Qed.

Lemma getitem_lookup (l : list A) (k : nat) (a : A) :
  l !! k = Some a -> getitem l (Z.of_nat k) = inr a.
Proof.
  intros Hl. unfold getitem.
  rewrite norm_index_nat by (eapply lookup_lt_Some; eauto).
  simpl. by rewrite Hl.
Qed.

Lemma getitem_last (l : list A) (a : A) :
  last l = Some a -> getitem l (-1) = inr a.
Proof.
  intros Hl. unfold getitem, norm_index.
  assert (length l <> 0%nat) by (destruct l; simpl in *; [discriminate|lia]).
  destruct (decide _) as [|_]; [lia|].
  destruct (decide _) as [_|]; [|lia].
  simpl. rewrite last_lookup in Hl.
  replace (Z.to_nat (-1 + Z.of_nat (length l))) with (Nat.pred (length l)) by lia.
  by rewrite Hl.
Qed.

Lemma getitem_nil (i : Z) : getitem (@nil A) i = inl IndexError.
Proof.
  unfold getitem, norm_index. simpl.
  repeat destruct (decide _); try lia; reflexivity.
Qed.

Lemma removelast_snoc (l : list A) (a : A) : removelast (l ++ [a]) = l.
Proof. apply removelast_last. Qed.

End PyFacts.

(** ** [Move]: notation and parsing *)

Module MoveFacts.

Import MovePy.

Lemma all_squares_roundtrip : forallb square_roundtrips (seqZ 0 64) = true.
Proof. vm_compute. reflexivity. Qed.

Lemma index_to_square_inv (i : Z) :
  0 <= i < 64 ->
  exists f r, index_to_square i = inr (f, String r EmptyString)
              /\ square_to_index f r = inr i.
Proof.
  intros Hi.
  pose proof all_squares_roundtrip as Hall.
  rewrite forallb_forall in Hall.
  specialize (Hall i).
  assert (Hin : In i (seqZ 0 64)) by (apply list_elem_of_In, elem_of_seqZ; lia).
  specialize (Hall Hin). unfold square_roundtrips in Hall.
  destruct (index_to_square i) as [|[f [|r [|]]]]; try discriminate.
  exists f, r. split; [reflexivity|].
  by apply bool_decide_eq_true in Hall.
Qed.

Lemma str_getitem_0 c s : str_getitem (String c s) 0 = inr c.
Proof. apply (getitem_lookup _ 0%nat). reflexivity. Qed.

Lemma str_getitem_1 c0 c s : str_getitem (String c0 (String c s)) 1 = inr c.
Proof. apply (getitem_lookup _ 1%nat). reflexivity. Qed.

Lemma str_getitem_2 c0 c1 c s :
  str_getitem (String c0 (String c1 (String c s))) 2 = inr c.
Proof. apply (getitem_lookup _ 2%nat). reflexivity. Qed.

Lemma str_getitem_3 c0 c1 c2 c s :
  str_getitem (String c0 (String c1 (String c2 (String c s)))) 3 = inr c.
Proof. apply (getitem_lookup _ 3%nat). reflexivity. Qed.

Lemma str_getitem_4 c0 c1 c2 c3 c s :
  str_getitem (String c0 (String c1 (String c2 (String c3 (String c s))))) 4 = inr c.
Proof. apply (getitem_lookup _ 4%nat). reflexivity. Qed.

(** [from_uci] on a string of at least four characters. *)
Lemma from_uci_four f1 r1 f2 r2 rest :
  from_uci (String f1 (String r1 (String f2 (String r2 rest)))) =
  (a <- square_to_index f1 r1 ;;
   b <- square_to_index f2 r2 ;;
   ret (mkMove a b (promotion_suffix rest) None)).
Proof.
  unfold from_uci.
  rewrite str_getitem_0, str_getitem_1, str_getitem_2, str_getitem_3.
  cbn [bind].
  destruct (square_to_index f1 r1) as [e|a]; [reflexivity|].
  destruct (square_to_index f2 r2) as [e|b]; [reflexivity|].
  cbn [bind].
  destruct rest as [|c [|c' rest]].
  - reflexivity.
  - rewrite str_getitem_4.
    destruct (decide _) as [_|Hn]; [reflexivity|]. exfalso. apply Hn. reflexivity.
  - destruct (decide _) as [Hlen|_]; [|reflexivity].
    cbn in Hlen. lia.
Qed.

Lemma from_uci_short s : (String.length s < 4)%nat -> from_uci s = inl IndexError.
Proof.
  intros Hlen.
  destruct s as [|c0 [|c1 [|c2 [|c3 s]]]]; try reflexivity.
  cbn in Hlen. lia.
Qed.

Lemma square_to_index_decimal f r :
  square_to_index f r =
  if is_decimal r then inr ((ord r - 48 - 1) * 8 + (ord f - ord "a")) else inl ValueError.
Proof. unfold square_to_index, int_of_char. by destruct (is_decimal r). Qed.

End MoveFacts.

Module MoveClaims.

Import MovePy MoveFacts.

Lemma to_uci_squares (m : Move) :
  0 <= from_sq m < 64 -> 0 <= to_sq m < 64 ->
  exists f1 r1 f2 r2,
    square_to_index f1 r1 = inr (from_sq m) /\
    square_to_index f2 r2 = inr (to_sq m) /\
    to_uci m =
    inr (String f1 (String r1 (String f2 (String r2
           (if promotion_truthy (promotion m)
            then default "" (promotion m ≫= fun p => char_of_promotion !! p)
            else ""))))).
Proof.
  intros Hf Ht.
  destruct (index_to_square_inv _ Hf) as (f1 & r1 & Hi1 & Hs1).
  destruct (index_to_square_inv _ Ht) as (f2 & r2 & Hi2 & Hs2).
  exists f1, r1, f2, r2. split; [done|]. split; [done|].
  unfold to_uci. rewrite Hi1, Hi2. cbn [bind].
  by destruct (promotion_truthy (promotion m)).
Qed.

Lemma promotion_suffix_roundtrip (p : option Z) :
  (p = None \/ exists q, p = Some q /\ 2 <= q <= 5) ->
  promotion_suffix
    (if promotion_truthy p
     then default "" (p ≫= fun q => char_of_promotion !! q)
     else "") = p.
Proof.
  intros [-> | (q & -> & Hq)]; [reflexivity|].
  assert (q = 2 \/ q = 3 \/ q = 4 \/ q = 5) as [-> | [-> | [-> | ->]]] by lia;
    vm_compute; reflexivity.
Qed.

(** C4, as amended: for every move whose squares are on the board, whose
    promotion is [None] or one of the four promotion codes, and whose
    [metadata] is [None], parsing the notation the move prints gives the
    move back: [Move.from_uci(m.to_uci()) == m]. *)
Theorem from_uci_to_uci (m : Move) :
  valid_move m -> metadata m = None -> roundtrip m = inr m.
Proof.
  intros (Hf & Ht & Hp) Hmeta.
  destruct (to_uci_squares m Hf Ht) as (f1 & r1 & f2 & r2 & Hs1 & Hs2 & Huci).
  unfold roundtrip. rewrite Huci. cbn [bind].
  rewrite from_uci_four, Hs1, Hs2. cbn [bind].
  rewrite (promotion_suffix_roundtrip _ Hp).
  destruct m as [a b p md]; simpl in *. by subst md.
Qed.

Lemma from_uci_to_uci_witness :
  roundtrip (mkMove 52 60 (Some 5) None) = inr (mkMove 52 60 (Some 5) None).
Proof.
  apply (from_uci_to_uci (mkMove 52 60 (Some 5) None)); [|reflexivity].
  unfold valid_move; simpl.
  split; [lia|]. split; [lia|]. right. exists 5. split; [reflexivity|lia].
Defined.

(** C4, as stated, fails: a move that carries metadata has valid squares
    and a valid promotion, prints as ["e2e4"], and parses back to a move
    whose metadata is [None], which is a different move. *)
Lemma from_uci_to_uci_drops_metadata :
  let m := mkMove 12 28 None (Some ∅) in
  valid_move m /\ to_uci m = inr "e2e4" /\
  roundtrip m = inr (mkMove 12 28 None None) /\ roundtrip m <> inr m.
Proof.
  split; [|split; [|split]].
  - unfold valid_move; simpl. split; [lia|]. split; [lia|]. by left.
  - reflexivity.
  - reflexivity.
  - intros H. vm_compute in H. discriminate H.
Qed.

Lemma get_is_lookup (n : nat) (s : string) :
  String.get n s = list_ascii_of_string s !! n.
Proof.
  revert n. induction s as [|c s IH]; intros [|n]; simpl; auto.
Qed.

(** C5, as amended (strings of characters below U+0100, where [int]
    accepts exactly the digits 0 to 9): [from_uci] raises [IndexError]
    exactly on the strings shorter than four characters and [ValueError]
    exactly on the longer ones whose character at index 1 or 3 is not a
    decimal digit; every other string is accepted without validation.
    The move it returns has the squares [(int(rank) - 1) * 8 + ord(file)
    - ord('a')], with no check of file or rank, no metadata, and a
    promotion read from the fifth character only when the string has
    exactly five: in a longer string everything after the fourth
    character is ignored. *)
Theorem from_uci_raises_exactly (s : string) :
  (from_uci s = inl IndexError <-> (String.length s < 4)%nat) /\
  (from_uci s = inl ValueError <->
     (4 <= String.length s)%nat /\ ~ (digit_at 1 s /\ digit_at 3 s)) /\
  (is_ok (from_uci s) = true <->
     (4 <= String.length s)%nat /\ digit_at 1 s /\ digit_at 3 s) /\
  (forall f1 r1 f2 r2 rest,
     s = String f1 (String r1 (String f2 (String r2 rest))) ->
     is_decimal r1 = true -> is_decimal r2 = true ->
     from_uci s =
       inr (mkMove ((ord r1 - ord "0" - 1) * 8 + (ord f1 - ord "a"))
                   ((ord r2 - ord "0" - 1) * 8 + (ord f2 - ord "a"))
                   (match rest with
                    | String c EmptyString => promotion_of_char !! lower c
                    | _ => None
                    end)
                   None)).
Proof.
  assert (Hvalue : forall f1 r1 f2 r2 rest,
            s = String f1 (String r1 (String f2 (String r2 rest))) ->
            is_decimal r1 = true -> is_decimal r2 = true ->
            from_uci s =
              inr (mkMove ((ord r1 - ord "0" - 1) * 8 + (ord f1 - ord "a"))
                          ((ord r2 - ord "0" - 1) * 8 + (ord f2 - ord "a"))
                          (match rest with
                           | String c EmptyString => promotion_of_char !! lower c
                           | _ => None
                           end)
                          None)).
  { intros f1 r1 f2 r2 rest -> H1 H2.
    rewrite from_uci_four, !square_to_index_decimal, H1, H2. reflexivity. }
  assert (Hraise :
    (from_uci s = inl IndexError <-> (String.length s < 4)%nat) /\
    (from_uci s = inl ValueError <->
       (4 <= String.length s)%nat /\ ~ (digit_at 1 s /\ digit_at 3 s)) /\
    (is_ok (from_uci s) = true <->
       (4 <= String.length s)%nat /\ digit_at 1 s /\ digit_at 3 s)).
  { clear Hvalue. destruct (decide (String.length s < 4)%nat) as [Hlt|Hge].
    - rewrite (from_uci_short s Hlt). simpl.
      split; [tauto|]. split; (split; [discriminate|intros [? _]; lia]).
    - destruct s as [|f1 [|r1 [|f2 [|r2 rest]]]]; try (cbn in Hge; lia).
      assert (Hlen : (4 <= String.length (String f1 (String r1 (String f2 (String r2 rest)))))%nat)
        by (cbn; lia).
      assert (Hd1 : digit_at 1 (String f1 (String r1 (String f2 (String r2 rest))))
                    <-> is_decimal r1 = true).
      { unfold digit_at. simpl. split; [intros (c & [= <-] & H); done|eauto]. }
      assert (Hd3 : digit_at 3 (String f1 (String r1 (String f2 (String r2 rest))))
                    <-> is_decimal r2 = true).
      { unfold digit_at. simpl. split; [intros (c & [= <-] & H); done|eauto]. }
      rewrite Hd1, Hd3, from_uci_four, !square_to_index_decimal.
      destruct (is_decimal r1), (is_decimal r2); simpl; unfold ret;
        intuition (try discriminate; try lia; try congruence). }
  destruct Hraise as (H1 & H2 & H3).
  split; [exact H1|]. split; [exact H2|]. split; [exact H3|exact Hvalue].
Qed.

(** C5, as stated, fails: a seven-character string and strings whose
    file or rank characters lie off the board are accepted; one gets
    square indices outside 0..63, another the squares of a different,
    well-formed move. *)
Lemma from_uci_accepts_malformed :
  ~ uci_shaped "e2e4qqq" /\ from_uci "e2e4qqq" = inr (mkMove 12 28 None None) /\
  ~ uci_shaped "z9a0" /\ from_uci "z9a0" = inr (mkMove 89 (-8) None None) /\
  ~ uci_shaped "i1a1" /\ from_uci "i1a1" = inr (mkMove 8 0 None None) /\
  from_uci "i1a1" = from_uci "a2a1".
Proof.
  split; [|split; [|split; [|split; [|split; [|split]]]]].
  - intros [[H|H] _]; cbn in H; lia.
  - reflexivity.
  - intros [_ (f1 & r1 & f2 & r2 & H0 & H1 & H2 & H3 & Hf1 & _)].
    cbn in H0. injection H0 as <-. vm_compute in Hf1. discriminate.
  - reflexivity.
  - intros [_ (f1 & r1 & f2 & r2 & H0 & H1 & H2 & H3 & Hf1 & _)].
    cbn in H0. injection H0 as <-. vm_compute in Hf1. discriminate.
  - reflexivity.
  - reflexivity.
Qed.

End MoveClaims.

(** ** Rejected moves *)

Module RejectClaims.

Import Boards.

Lemma not_elem_of_fmap_mk (s : list string) (mv : Pyffish.XiangqiPyffishMove) :
  mv ∉ Pyffish.mkXiangqiPyffishMove <$> s -> Pyffish.move_str mv ∉ s.
Proof.
  intros Hn Hin. apply Hn.
  destruct mv as [m]. simpl in Hin.
  by apply list_elem_of_fmap_2.
Qed.

(** C2, as stated, fails on [ChessBoard], whose test is python-chess's
    [move in board.legal_moves] and not membership in the list
    [get_legal_moves()] returns: castling written as king takes rook is
    not in that list, and yet [apply_move] applies it, with a longer
    history and another state hash. *)
Lemma unlisted_castling_applied :
  let b := Chess.mkChessBoard (L := Scripted.castling_lib) 0%nat [] None in
  ("e1h1" ∉ Chess.get_legal_moves Scripted.castling_lib b None) /\
  exists b',
    Chess.apply_move Scripted.castling_lib b "e1h1" = (b', inr (0, false)) /\
    Chess.move_history b' = ["e1h1"] /\
    Chess.get_state_hash Scripted.castling_lib b'
      <> Chess.get_state_hash Scripted.castling_lib b.
Proof.
  split.
  - intros Hin. simpl in Hin.
    repeat (apply elem_of_cons in Hin as [Hin|Hin]; [discriminate Hin|]).
    by apply elem_of_nil in Hin.
  - eexists. split; [reflexivity|]. split; [reflexivity|].
    intros H. vm_compute in H. discriminate H.
Qed.

(** C2, as amended: on each of the four boards, a move that the board's
    legality test refuses makes [apply_move] raise [ValueError] and
    leaves the board as it was: same state hash, same move history.  On
    the three Xiangqi boards the test is membership in the list
    [get_legal_moves()] returns; on [ChessBoard] it is python-chess's
    own test, which a move outside that list can pass. *)
Theorem illegal_move_rejected (L : Chess.Lib) (O : Pyffish.Oracle) (v : Variant)
    (b : state (board_of L O v)) (mv : move (board_of L O v))
    (lm : list (move (board_of L O v))) :
  get_legal_moves _ b = inr lm ->
  mv ∉ lm ->
  BoardsMore.chess_refuses L O v b mv ->
  exists b',
    apply_move _ b mv = (b', inl ValueError) /\ b' = b /\
    get_state_hash _ b' = get_state_hash _ b /\
    history_length _ b' = history_length _ b.
Proof.
  intros Hlm Hmv Hrefuse. exists b.
  split; [|done].
  destruct v; simpl in *.
  - unfold Chess.apply_move. by rewrite Hrefuse.
  - injection Hlm as <-.
    unfold Xiangqi.apply_move. by destruct (decide _).
  - unfold Pyffish.get_legal_moves in Hlm.
    destruct (Pyffish.side_field _) as [e|c]; [discriminate|]. simpl in Hlm.
    unfold Pyffish.apply_move.
    destruct (Pyffish.legal_moves_compat _ _ _) as [e|strs]; [discriminate|].
    simpl in Hlm. injection Hlm as <-.
    apply not_elem_of_fmap_mk in Hmv.
    by destruct (decide _).
  - injection Hlm as <-.
    unfold SimpleXiangqi.make_move. by destruct (decide _).
Qed.

Lemma illegal_move_rejected_witness :
  (exists b',
     Pyffish.apply_move Scripted.ending_oracle Scripted.ending_board
       (Pyffish.mkXiangqiPyffishMove "b5c6") = (b', inl ValueError) /\
     b' = Scripted.ending_board /\
     Pyffish.get_state_hash b' = Pyffish.get_state_hash Scripted.ending_board /\
     length (Pyffish.move_history b') = length (Pyffish.move_history Scripted.ending_board)) /\
  (let b := Chess.mkChessBoard (L := Scripted.castling_lib) 0%nat [] None in
   exists b',
     Chess.apply_move Scripted.castling_lib b "e1e2" = (b', inl ValueError) /\
     b' = b /\
     Chess.get_state_hash Scripted.castling_lib b' = Chess.get_state_hash Scripted.castling_lib b /\
     length (Chess.move_history b') = length (Chess.move_history b)).
Proof.
  split.
  - apply (illegal_move_rejected Scripted.toy_lib Scripted.ending_oracle PyffishV
             Scripted.ending_board (Pyffish.mkXiangqiPyffishMove "b5c6")
             (Pyffish.mkXiangqiPyffishMove <$> ["b5b1"; "b5b4"; "a2a1"; "d10d9"])).
    + reflexivity.
    + intros Hin. apply list_elem_of_fmap in Hin as (s & Heq & Hs).
      injection Heq as <-.
      repeat (apply elem_of_cons in Hs as [Hs|Hs]; [discriminate Hs|]).
      by apply elem_of_nil in Hs.
    + exact I.
  - apply (illegal_move_rejected Scripted.castling_lib Scripted.ending_oracle ChessV
             (Chess.mkChessBoard (L := Scripted.castling_lib) 0%nat [] None) "e1e2"
             ["e1g1"; "a2a3"]).
    + reflexivity.
    + intros Hin.
      repeat (apply elem_of_cons in Hin as [Hin|Hin]; [discriminate Hin|]).
      by apply elem_of_nil in Hin.
    + reflexivity.
Defined.

(** Whatever makes [apply_move] raise, the board is left as it was (the
    oracle-backed boards undo the one change they had made). *)
Lemma apply_move_raise_keeps_board (L : Chess.Lib) (O : Pyffish.Oracle) (v : Variant)
    (b b' : state (board_of L O v)) (mv : move (board_of L O v)) (e : exn) :
  v <> XiangqiV ->
  apply_move _ b mv = (b', inl e) -> b' = b.
Proof.
  intros Hv. destruct v; simpl in *; try done.
  - unfold Chess.apply_move.
    destruct (Chess.is_legal _ _ _); [|by intros [= <- _]].
    destruct (Chess.lib_is_game_over _ _); discriminate.
  - unfold Pyffish.apply_move.
    destruct (Pyffish.legal_moves_compat _ _ _); [by intros [= <- _]|].
    destruct (decide _); [|by intros [= <- _]].
    destruct (Pyffish.get_fen _ _ _ _).
    + rewrite removelast_snoc. intros [= <- _]. by destruct b.
    + destruct (Pyffish.check_termination _ _). discriminate.
  - unfold SimpleXiangqi.make_move.
    destruct (decide _); [|by intros [= <- _]].
    destruct (Pyffish.get_fen _ _ _ _).
    + rewrite removelast_snoc. intros [= <- _]. by destruct b.
    + discriminate.
Qed.

End RejectClaims.

(** ** The environments' action index *)

Module EnvClaims.

Import ChessEnvPy.

(** C3 fails in [ChessEnv.step] for a negative index: whenever the board
    has a legal move, [step(-1)] does not raise at the index test; it
    applies the last move of the enumeration and counts a step. *)
Theorem step_minus_one_applies_last_move (L : Chess.Lib) (env : ChessEnv L)
    (mv : Chess.move L) :
  last (Chess.get_legal_moves L (board env) None) = Some mv ->
  exists b r,
    Chess.apply_move L (board env) mv = (b, inr r) /\
    Chess.move_history b = (Chess.move_history (board env) ++ [mv])%list /\
    fst (step L env (-1)) =
      mkChessEnv b (max_steps env) (steps env + 1) (negb (current_player env)) (rng env).
Proof.
  intros Hlast.
  assert (Hin : mv ∈ Chess.legal_moves L (Chess.board (board env))).
  { simpl in Hlast. rewrite last_lookup in Hlast.
    eapply list_elem_of_lookup_2; eauto. }
  unfold step.
  destruct (decide _) as [Hge|_]; [lia|].
  rewrite (getitem_last _ _ Hlast).
  unfold Chess.apply_move.
  rewrite (Chess.legal_moves_legal L _ _ Hin).
  destruct (Chess.lib_is_game_over _ _); eexists _, _; split; try reflexivity;
    split; reflexivity.
Qed.

Lemma step_minus_one_applies_last_move_witness :
  exists b r,
    Chess.apply_move Scripted.toy_lib (board (init Scripted.toy_lib None)) 2%nat = (b, inr r) /\
    Chess.move_history b = [2%nat] /\
    fst (step Scripted.toy_lib (init Scripted.toy_lib None) (-1)) =
      mkChessEnv b 400 1 false None.
Proof.
  apply (step_minus_one_applies_last_move Scripted.toy_lib
           (init Scripted.toy_lib None) 2%nat).
  reflexivity.
Defined.

(** The two cases of C3 that [ChessEnv.step] does handle: an index that
    is too large raises [ValueError], one below [-len] raises
    [IndexError], and neither touches the environment. *)
Lemma chess_step_out_of_range (L : Chess.Lib) (env : ChessEnv L) (action : Z) :
  let n := Z.of_nat (length (Chess.get_legal_moves L (board env) None)) in
  (n <= action -> step L env action = (env, inl ValueError)) /\
  (action < - n -> step L env action = (env, inl IndexError)).
Proof.
  intros n. subst n. unfold step. split; intros H.
  - destruct (decide _); [done|lia].
  - destruct (decide _); [lia|].
    unfold getitem, norm_index.
    destruct (decide _); [lia|]. destruct (decide _); [lia|]. done.
Qed.

Import XiangqiEnvPy.

Lemma xiangqi_no_legal_moves (b : Xiangqi.XiangqiBoard) (player : option bool) :
  Xiangqi.get_legal_moves b player = [].
Proof.
  unfold Xiangqi.get_legal_moves.
  destruct player; [destruct (decide _)|]; reflexivity.
Qed.

Lemma xiangqi_step_raises (env : XiangqiEnv) (action : Z) :
  XiangqiEnvPy.step env action =
  (env, inl (if decide (0 <= action) then ValueError else IndexError)).
Proof.
  unfold XiangqiEnvPy.step. rewrite xiangqi_no_legal_moves. simpl length.
  destruct (decide (action >= _)), (decide (0 <= action)); try lia; [done|].
  by rewrite getitem_nil.
Qed.

Lemma xiangqi_run_steps (env : XiangqiEnv) (actions : list Z) :
  run_steps env actions = (env, 0%nat).
Proof.
  induction actions as [|a rest IH]; [done|].
  simpl. by rewrite xiangqi_step_raises.
Qed.

(** C10: the environment the factory builds for ["xiangqi"] wraps the
    native stub board; after [reset] its legal-move list is empty, so
    [step(action)] raises [ValueError] for every [action >= 0] without
    touching the environment, and no run of [step] calls ever counts a
    step. *)
Theorem xiangqi_env_cannot_step (L : Chess.Lib) (ms seed_arg : option Z) (action : Z) :
  0 <= action ->
  let env := fst (XiangqiEnvPy.reset (XiangqiEnvPy.init ms) seed_arg) in
  GameFactory.create_environment L "xiangqi" ms
    = inr (GameFactory.EnvXiangqi L (XiangqiEnvPy.init ms)) /\
  XiangqiEnvPy.board (XiangqiEnvPy.init ms) = Xiangqi.init /\
  Xiangqi.get_legal_moves (XiangqiEnvPy.board env) None = [] /\
  XiangqiEnvPy.step env action = (env, inl ValueError) /\
  (forall actions, run_steps env actions = (env, 0%nat)) /\
  XiangqiEnvPy.steps env = 0.
Proof.
  intros Ha env.
  split; [reflexivity|]. split; [reflexivity|].
  split; [apply xiangqi_no_legal_moves|].
  split; [|split; [apply xiangqi_run_steps|by destruct seed_arg]].
  rewrite xiangqi_step_raises. by destruct (decide _).
Qed.

Lemma xiangqi_env_cannot_step_witness :
  let env := fst (XiangqiEnvPy.reset (XiangqiEnvPy.init None) None) in
  GameFactory.create_environment Scripted.toy_lib "xiangqi" None
    = inr (GameFactory.EnvXiangqi Scripted.toy_lib (XiangqiEnvPy.init None)) /\
  XiangqiEnvPy.board (XiangqiEnvPy.init None) = Xiangqi.init /\
  Xiangqi.get_legal_moves (XiangqiEnvPy.board env) None = [] /\
  XiangqiEnvPy.step env 0 = (env, inl ValueError) /\
  (forall actions, run_steps env actions = (env, 0%nat)) /\
  XiangqiEnvPy.steps env = 0.
Proof.
  apply (xiangqi_env_cannot_step Scripted.toy_lib None None 0). lia.
Defined.

End EnvClaims.

(** ** The scripted libraries keep the contracts *)

Module ScriptedFacts.

Import Boards Scripted.

Lemma even_succ_negb (n : nat) : Nat.even (S n) = negb (Nat.even n).
Proof.
  induction n as [|n IH]; [reflexivity|].
  rewrite IH. simpl. by destruct (Nat.even n).
Qed.

Lemma toy_lib_contract : chess_contract toy_lib.
Proof.
  split; simpl.
  - reflexivity.
  - intros p Hp. by rewrite Hp.
  - intros [|[|p]] Hp; simpl in *; try discriminate; reflexivity.
  - intros p mv _. exact (even_succ_negb p).
  - intros p sq pc. repeat destruct (decide _); intros [= <-]; simpl;
      unfold Chess.KING; lia.
Qed.

Lemma table_oracle_get_fen start moves next v fen mv fen' :
  Pyffish.get_fen (table_oracle start moves next) v fen [mv] = inr fen' ->
  (fen, mv, fen') ∈ next.
Proof.
  simpl. destruct (_ !! _) as [x|] eqn:Hx; [|discriminate].
  intros [= ->]. by apply elem_of_list_to_map_2 in Hx.
Qed.

Lemma ending_oracle_contract : oracle_contract ending_oracle.
Proof.
  split.
  - intros v. reflexivity.
  - intros v. apply (bool_decide_eq_true_1 _). vm_compute. reflexivity.
  - intros v. vm_compute. discriminate.
  - intros v fen lm mv fen' _ _ H. apply table_oracle_get_fen in H.
    apply list_elem_of_singleton in H. injection H as -> -> ->.
    exists "b", "w". repeat split; reflexivity.
  - intros v fen lm mv fen' _ _ H. apply table_oracle_get_fen in H.
    apply list_elem_of_singleton in H. injection H as -> -> ->.
    apply (bool_decide_eq_true_1 _). vm_compute. reflexivity.
  - intros v fen. simpl. discriminate.
Qed.

Lemma opening_oracle_contract : oracle_contract opening_oracle.
Proof.
  split.
  - intros v. reflexivity.
  - intros v. apply (bool_decide_eq_true_1 _). vm_compute. reflexivity.
  - intros v. vm_compute. discriminate.
  - intros v fen lm mv fen' _ _ H. apply table_oracle_get_fen in H.
    apply elem_of_cons in H as [H|H].
    + injection H as -> -> ->. exists "w", "b". repeat split; reflexivity.
    + apply list_elem_of_singleton in H. injection H as -> -> ->.
      exists "b", "w". repeat split; reflexivity.
  - intros v fen lm mv fen' _ _ H. apply table_oracle_get_fen in H.
    apply elem_of_cons in H as [H|H].
    + injection H as -> -> ->. apply (bool_decide_eq_true_1 _). vm_compute. reflexivity.
    + apply list_elem_of_singleton in H. injection H as -> -> ->.
      apply (bool_decide_eq_true_1 _). vm_compute. reflexivity.
  - intros v fen. simpl. discriminate.
Qed.

Lemma toy_lib_flips : BoardsMore.push_flips toy_lib.
Proof. intros p mv _. exact (even_succ_negb p). Qed.

End ScriptedFacts.

(** ** Rewards *)

Module RewardClaims.

Import Pyffish.

(** C1 fails in [XiangqiPyffishBoard.apply_move]: when a move of the
    second player (Black) leaves the first player (side field ["w"])
    without a legal move, the board records Black as the winner and yet
    returns the reward [-1] to Black, the side that just moved and won. *)
Theorem pyffish_reward_follows_colour (O : Oracle) (b : XiangqiPyffishBoard)
    (mv : XiangqiPyffishMove) (lm : list string) (fen' : string) :
  legal_moves_compat O (variant b) (current_fen b) = inr lm ->
  move_str mv ∈ lm ->
  get_fen O (variant b) (current_fen b) [move_str mv] = inr fen' ->
  legal_moves_compat O (variant b) fen' = inr [] ->
  side_field fen' = inr "w" ->
  exists b',
    apply_move O b mv = (b', inr (-1, true)) /\
    result b' = Some (mkResultDict (Some "black") (Some "checkmate")) /\
    current_fen b' = fen'.
Proof.
  intros Hlm Hin Hfen Hnext Hside.
  unfold apply_move. rewrite Hlm.
  destruct (decide _) as [_|Hn]; [|done].
  rewrite Hfen. unfold check_termination. simpl.
  rewrite Hnext. simpl. rewrite Hside. simpl.
  eexists. repeat split.
Qed.

Lemma pyffish_reward_follows_colour_witness :
  exists b',
    apply_move Scripted.ending_oracle Scripted.ending_board (mkXiangqiPyffishMove "b5b1")
      = (b', inr (-1, true)) /\
    result b' = Some (mkResultDict (Some "black") (Some "checkmate")) /\
    current_fen b' = Scripted.ending_after.
Proof.
  apply (pyffish_reward_follows_colour Scripted.ending_oracle Scripted.ending_board
           (mkXiangqiPyffishMove "b5b1") ["b5b1"; "b5b4"; "a2a1"; "d10d9"]
           Scripted.ending_after).
  - reflexivity.
  - apply list_elem_of_here.
  - reflexivity.
  - reflexivity.
  - reflexivity.
Defined.

(** The mover in that position is Black: the side field of the position
    the move is made in is ["b"]. *)
Lemma ending_mover_is_black :
  side_field (current_fen Scripted.ending_board) = inr "b".
Proof. reflexivity. Qed.

(** The sibling paths are relative to the mover.  [ChessBoard]: a
    finished game won by the player who moved pays [1], one won by the
    other player [-1], a draw [0]. *)
Lemma chess_reward_relative_to_mover (L : Chess.Lib) (b b' : Chess.ChessBoard L)
    (mv : Chess.move L) (reward : Z) (done : bool) :
  Chess.apply_move L b mv = (b', inr (reward, done)) ->
  let mover := Chess.turn L (Chess.board b) in
  (done = false -> reward = 0) /\
  (done = true ->
   match Chess.outcome L (Chess.board b') with
   | Some o =>
       match Chess.winner o with
       | Some w => reward = if decide (w = mover) then 1 else -1
       | None => reward = 0
       end
   | None => reward = 0
   end).
Proof.
  unfold Chess.apply_move.
  destruct (Chess.is_legal _ _ _); [|discriminate].
  destruct (Chess.lib_is_game_over _ _).
  - intros [= <- <- <-]. simpl. split; [discriminate|intros _].
    unfold Chess.reward_of.
    destruct (Chess.outcome _ _) as [[t [w|]]|]; reflexivity.
  - intros [= <- <- <-]. split; [reflexivity|discriminate].
Qed.

(** [SimpleXiangqiBoard.make_move]: the move that ends the game pays [1]
    to whoever made it. *)
Lemma simple_reward_relative_to_mover (O : Oracle)
    (b b' : SimpleXiangqi.SimpleXiangqiBoard) (mv : string) (reward : Z) (done : bool) :
  SimpleXiangqi.make_move O b mv = (b', inr (reward, done)) ->
  reward = if done then 1 else 0.
Proof.
  unfold SimpleXiangqi.make_move.
  destruct (decide _); [|discriminate].
  destruct (get_fen _ _ _ _); [discriminate|].
  by intros [= <- <- <-].
Qed.

Lemma simple_reward_black_mates :
  snd (SimpleXiangqi.make_move Scripted.ending_oracle Scripted.ending_board_simple "b5b1")
  = inr (1, true).
Proof. reflexivity. Qed.

End RewardClaims.

(** ** Turn alternation *)

Module TurnClaims.

Import Boards.

Lemma check_termination_keeps (O : Pyffish.Oracle) (b : Pyffish.XiangqiPyffishBoard) :
  let b' := fst (Pyffish.check_termination O b) in
  Pyffish.current_fen b' = Pyffish.current_fen b /\
  Pyffish.move_history b' = Pyffish.move_history b /\
  Pyffish.variant b' = Pyffish.variant b.
Proof.
  unfold Pyffish.check_termination.
  destruct (Pyffish.legal_moves_compat _ _ _) as [e|next]; [done|].
  destruct (bool_decide _); [|done].
  by destruct (Pyffish.side_field _).
Qed.

(** The native board never lets a move through. *)
Lemma xiangqi_apply_move_raises (b : Xiangqi.XiangqiBoard) (mv : Xiangqi.XiangqiMove) :
  Xiangqi.apply_move b mv = (b, inl ValueError).
Proof.
  unfold Xiangqi.apply_move. rewrite EnvClaims.xiangqi_no_legal_moves.
  destruct (decide _) as [Hin|_]; [|done]. by apply elem_of_nil in Hin.
Qed.

(** What the native board's [apply_move] does behind its legality test:
    it passes the turn and appends the move. *)
Lemma xiangqi_apply_move_body_passes_turn (b b' : Xiangqi.XiangqiBoard)
    (mv : Xiangqi.XiangqiMove) (r : Z * bool) :
  Xiangqi.apply_move_body b mv = (b', inr r) ->
  Xiangqi.current_player b' = negb (Xiangqi.current_player b) /\
  Xiangqi.move_history b' = (Xiangqi.move_history b ++ [mv])%list /\
  r = (0, false).
Proof.
  unfold Xiangqi.apply_move_body.
  destruct (Xiangqi.from_pos mv) as [fr fc], (Xiangqi.to_pos mv) as [tr tc].
  repeat (match goal with
          | |- context [match ?x with inl _ => _ | inr _ => _ end] => destruct x
          end; try discriminate).
  by intros [= <- <-].
Qed.

Lemma simple_legal_compat (O : Pyffish.Oracle) (b : SimpleXiangqi.SimpleXiangqiBoard)
    (mv : string) :
  mv ∈ SimpleXiangqi.get_legal_moves O b ->
  exists lm,
    Pyffish.legal_moves_compat O (SimpleXiangqi.variant b) (SimpleXiangqi.current_fen b)
      = inr lm /\ mv ∈ lm.
Proof.
  unfold SimpleXiangqi.get_legal_moves, Pyffish.legal_moves_compat.
  destruct (Pyffish.legal_moves3 _ _ _ _) as [e|lm]; intros Hin.
  - by apply elem_of_nil in Hin.
  - by exists lm.
Qed.

(** One move that goes through passes the turn and lengthens the history
    by one. *)
Lemma apply_move_passes_turn (L : Chess.Lib) (O : Pyffish.Oracle) (v : Variant)
    (b b' : state (board_of L O v)) (mv : move (board_of L O v)) (r : Z * bool) (s : bool) :
  BoardsMore.push_flips L -> oracle_contract O ->
  apply_move _ b mv = (b', inr r) ->
  side_to_move _ b = inr s ->
  side_to_move _ b' = inr (negb s).
Proof.
  intros HL HO Happ Hs. destruct v; simpl in *.
  - unfold Chess.apply_move in Happ.
    destruct (Chess.is_legal _ _ _) eqn:Hleg; [|discriminate].
    injection Hs as <-.
    destruct (Chess.lib_is_game_over _ _); injection Happ as <- _; simpl;
      by rewrite (HL _ _ Hleg).
  - rewrite xiangqi_apply_move_raises in Happ. discriminate.
  - unfold Pyffish.apply_move in Happ.
    destruct (Pyffish.legal_moves_compat _ _ _) as [|lm] eqn:Hlm; [discriminate|].
    destruct (decide _) as [Hin|]; [|discriminate].
    destruct (Pyffish.get_fen _ _ _ _) as [|fen'] eqn:Hfen; [discriminate|].
    pose proof (check_termination_keeps O
      (Pyffish.mkXiangqiPyffishBoard (Pyffish.variant b) fen'
         (Pyffish.move_history b ++ [Pyffish.move_str mv]) (Pyffish.result b)))
      as (Hk1 & _ & _).
    destruct (Pyffish.check_termination _ _) as [b'' r'']. injection Happ as <- _.
    simpl in Hk1. rewrite Hk1.
    destruct (next_side O HO _ _ _ _ _ Hlm Hin Hfen) as (c & c' & Hc & Hc' & Hflip).
    rewrite Hc in Hs. injection Hs as <-.
    rewrite Hc'. simpl. by rewrite Hflip.
  - unfold SimpleXiangqi.make_move in Happ.
    destruct (decide _) as [Hin|]; [|discriminate].
    destruct (simple_legal_compat O b mv Hin) as (lm & Hlm & Hin').
    destruct (Pyffish.get_fen _ _ _ _) as [|fen'] eqn:Hfen; [discriminate|].
    injection Happ as <- _. simpl.
    destruct (next_side O HO _ _ _ _ _ Hlm Hin' Hfen) as (c & c' & Hc & Hc' & Hflip).
    rewrite Hc in Hs. injection Hs as <-.
    rewrite Hc'. simpl. by rewrite Hflip.
Qed.

(** A move that is refused leaves the board as it was. *)
Lemma apply_move_refused_keeps (L : Chess.Lib) (O : Pyffish.Oracle) (v : Variant)
    (b b' : state (board_of L O v)) (mv : move (board_of L O v)) (e : exn) :
  apply_move _ b mv = (b', inl e) -> b' = b.
Proof.
  intros H. destruct v.
  - by apply (RejectClaims.apply_move_raise_keeps_board L O ChessV b b' mv e).
  - simpl in H. rewrite xiangqi_apply_move_raises in H. by injection H as <- _.
  - by apply (RejectClaims.apply_move_raise_keeps_board L O PyffishV b b' mv e).
  - by apply (RejectClaims.apply_move_raise_keeps_board L O SimpleV b b' mv e).
Qed.

Lemma replay_fen_snoc (O : Pyffish.Oracle) (variant : string) (mvs : list string) :
  forall (fen0 fen : string) (mv : string),
    BoardsMore.replay_fen O variant fen0 mvs = inr fen ->
    BoardsMore.replay_fen O variant fen0 (mvs ++ [mv])
      = Pyffish.get_fen O variant fen [mv].
Proof.
  induction mvs as [|m rest IH]; intros fen0 fen mv; simpl.
  - intros [= ->]. by destruct (Pyffish.get_fen _ _ _ _).
  - destruct (Pyffish.get_fen O variant fen0 [m]) as [e|fen1]; [discriminate|].
    simpl. apply IH.
Qed.

(** The board after [reset] is the library's starting position with an
    empty history. *)
Lemma reset_replayed (L : Chess.Lib) (O : Pyffish.Oracle) (v : Variant)
    (b0 : state (board_of L O v)) :
  BoardsMore.replayed L O v (reset _ b0) /\ history_length _ (reset _ b0) = 0%nat.
Proof. by destruct v. Qed.

(** A move that goes through makes one library call and appends itself. *)
Lemma apply_move_replayed (L : Chess.Lib) (O : Pyffish.Oracle) (v : Variant)
    (b b' : state (board_of L O v)) (mv : move (board_of L O v)) (r : Z * bool) :
  apply_move _ b mv = (b', inr r) ->
  BoardsMore.replayed L O v b ->
  BoardsMore.replayed L O v b' /\ history_length _ b' = S (history_length _ b).
Proof.
  intros Happ Hrep. destruct v; simpl in *.
  - unfold Chess.apply_move in Happ.
    destruct (Chess.is_legal _ _ _); [|discriminate].
    destruct (Chess.lib_is_game_over _ _); injection Happ as <- _; simpl;
      rewrite foldl_app, <- Hrep, length_app; simpl; (split; [done|lia]).
  - rewrite xiangqi_apply_move_raises in Happ. discriminate.
  - unfold Pyffish.apply_move in Happ.
    destruct (Pyffish.legal_moves_compat _ _ _) as [|lm]; [discriminate|].
    destruct (decide _); [|discriminate].
    destruct (Pyffish.get_fen _ _ _ _) as [|fen'] eqn:Hfen; [discriminate|].
    pose proof (check_termination_keeps O
      (Pyffish.mkXiangqiPyffishBoard (Pyffish.variant b) fen'
         (Pyffish.move_history b ++ [Pyffish.move_str mv]) (Pyffish.result b)))
      as (Hk1 & Hk2 & Hk3).
    destruct (Pyffish.check_termination _ _) as [b'' r'']. injection Happ as <- _.
    simpl in Hk1, Hk2, Hk3. rewrite Hk1, Hk2, Hk3, length_app.
    rewrite (replay_fen_snoc O _ _ _ _ _ Hrep), Hfen. simpl. split; [done|lia].
  - unfold SimpleXiangqi.make_move in Happ.
    destruct (decide _); [|discriminate].
    destruct (Pyffish.get_fen _ _ _ _) as [|fen'] eqn:Hfen; [discriminate|].
    injection Happ as <- _. simpl. rewrite length_app.
    rewrite (replay_fen_snoc O _ _ _ _ _ Hrep), Hfen. simpl. split; [done|lia].
Qed.

(** [get_result] touches neither the position nor the history. *)
Lemma get_result_keeps (L : Chess.Lib) (O : Pyffish.Oracle) (v : Variant)
    (b : state (board_of L O v)) :
  side_to_move _ (after_get_result _ b) = side_to_move _ b /\
  history_length _ (after_get_result _ b) = history_length _ b /\
  (BoardsMore.replayed L O v b -> BoardsMore.replayed L O v (after_get_result _ b)).
Proof.
  destruct v; simpl; try done.
  unfold Pyffish.get_result.
  destruct (negb _); [done|]. by destruct (Pyffish.result b).
Qed.

Lemma run_replayed (L : Chess.Lib) (O : Pyffish.Oracle) (v : Variant)
    (ops : list (BoardsMore.Op (board_of L O v))) :
  forall b : state (board_of L O v),
    BoardsMore.replayed L O v b ->
    BoardsMore.replayed L O v (fst (BoardsMore.run _ b ops)) /\
    history_length _ (fst (BoardsMore.run _ b ops))
      = (history_length _ b + snd (BoardsMore.run _ b ops))%nat.
Proof.
  induction ops as [|[mv|] rest IH]; intros b Hrep; simpl.
  - split; [done|lia].
  - destruct (apply_move _ b mv) as [b1 [e|r]] eqn:Happ.
    + apply apply_move_refused_keeps in Happ as ->. by apply IH.
    + destruct (apply_move_replayed L O v b b1 mv r Happ Hrep) as [Hrep1 Hh1].
      destruct (IH b1 Hrep1) as [Hrep' Hh']. simpl.
      split; [done|]. rewrite Hh', Hh1. lia.
  - destruct (get_result_keeps L O v b) as (_ & Hh & Hrep').
    destruct (IH _ (Hrep' Hrep)) as [Hrep'' Hh'']. split; [done|].
    by rewrite Hh'', Hh.
Qed.

Lemma run_parity (L : Chess.Lib) (O : Pyffish.Oracle) (v : Variant)
    (ops : list (BoardsMore.Op (board_of L O v))) :
  BoardsMore.push_flips L -> oracle_contract O ->
  forall (b : state (board_of L O v)) (s : bool),
    side_to_move _ b = inr s ->
    side_to_move _ (fst (BoardsMore.run _ b ops))
      = inr (xorb s (Nat.odd (snd (BoardsMore.run _ b ops)))).
Proof.
  intros HL HO. induction ops as [|[mv|] rest IH]; intros b s Hs; simpl.
  - by rewrite xorb_false_r.
  - destruct (apply_move _ b mv) as [b1 [e|r]] eqn:Happ.
    + apply apply_move_refused_keeps in Happ as ->. by apply IH.
    + pose proof (apply_move_passes_turn L O v b b1 mv r s HL HO Happ Hs) as Hs1.
      simpl. rewrite (IH b1 (negb s) Hs1). f_equal.
      rewrite Nat.odd_succ, <- Nat.negb_odd.
      by destruct s, (Nat.odd _).
  - destruct (get_result_keeps L O v b) as (Hside & _ & _).
    apply IH. by rewrite Hside.
Qed.

Lemma reset_side (L : Chess.Lib) (O : Pyffish.Oracle) (v : Variant)
    (b0 : state (board_of L O v)) :
  oracle_contract O ->
  side_to_move _ (reset _ b0)
    = inr (match v with ChessV => Chess.turn L (Chess.initial L) | _ => true end).
Proof.
  intros HO. destruct v; simpl; try done.
  - by rewrite (start_side O HO).
  - by rewrite (start_side O HO).
Qed.

(** C6: take any board after [reset] and any run of [apply_move] and
    [get_result] calls, with moves that go through and moves that are
    refused.  What the repository's code does: the board's position is
    the library's replay of its history, one [push] or [get_fen] call
    for each move that went through and none for any other call, and the
    history holds exactly those [N] moves; the native board's own flip
    of [current_player], which sits behind a legality test that no move
    passes, negates the side.  What follows once python-chess and pyffish
    pass the turn with every move they accept: the side to move is the
    side after [reset] XOR [(N mod 2)]. *)
Theorem side_to_move_alternates (L : Chess.Lib) (O : Pyffish.Oracle) (v : Variant)
    (b0 : state (board_of L O v)) (ops : list (BoardsMore.Op (board_of L O v))) :
  let b := fst (BoardsMore.run _ (reset _ b0) ops) in
  let N := snd (BoardsMore.run _ (reset _ b0) ops) in
  BoardsMore.replayed L O v b /\
  history_length _ b = N /\
  (forall nb mv nb' r,
     Xiangqi.apply_move_body nb mv = (nb', inr r) ->
     Xiangqi.current_player nb' = negb (Xiangqi.current_player nb)) /\
  (BoardsMore.push_flips L -> oracle_contract O ->
   exists s0,
     side_to_move _ (reset _ b0) = inr s0 /\
     side_to_move _ b = inr (xorb s0 (Nat.odd N))).
Proof.
  intros b N. subst b N.
  destruct (reset_replayed L O v b0) as [Hrep0 Hh0].
  destruct (run_replayed L O v ops _ Hrep0) as [Hrep Hh].
  split; [exact Hrep|]. split; [by rewrite Hh, Hh0|].
  split.
  - intros nb mv nb' r Hbody.
    by destruct (xiangqi_apply_move_body_passes_turn nb nb' mv r Hbody) as [? _].
  - intros HL HO. eexists. split; [exact (reset_side L O v b0 HO)|].
    apply (run_parity L O v ops HL HO). exact (reset_side L O v b0 HO).
Qed.

Lemma side_to_move_alternates_witness :
  (let B := chess_board Scripted.toy_lib in
   let b0 := Chess.mkChessBoard (L := Scripted.toy_lib) 1%nat [2%nat] None in
   let r := BoardsMore.run B (reset B b0)
              [@BoardsMore.OpApply (chess_board Scripted.toy_lib) 0%nat; @BoardsMore.OpApply (chess_board Scripted.toy_lib) 7%nat;
               @BoardsMore.OpGetResult (chess_board Scripted.toy_lib); @BoardsMore.OpApply (chess_board Scripted.toy_lib) 2%nat] in
   snd r = 2%nat /\
   Chess.move_history (fst r) = [0%nat; 2%nat] /\
   history_length B (fst r) = snd r /\
   side_to_move B (fst r) = inr (xorb true (Nat.odd (snd r)))) /\
  (let B := pyffish_board Scripted.opening_oracle in
   let r := BoardsMore.run B (reset B Scripted.ending_board)
              [@BoardsMore.OpApply (pyffish_board Scripted.opening_oracle) (Pyffish.mkXiangqiPyffishMove "b3e3");
               @BoardsMore.OpApply (pyffish_board Scripted.opening_oracle) (Pyffish.mkXiangqiPyffishMove "b3e3");
               @BoardsMore.OpGetResult (pyffish_board Scripted.opening_oracle)] in
   snd r = 1%nat /\
   Pyffish.move_history (fst r) = ["b3e3"] /\
   history_length B (fst r) = snd r /\
   side_to_move B (fst r) = inr (xorb true (Nat.odd (snd r)))).
Proof.
  split.
  - destruct (side_to_move_alternates Scripted.toy_lib Scripted.ending_oracle ChessV
                (Chess.mkChessBoard (L := Scripted.toy_lib) 1%nat [2%nat] None)
                [@BoardsMore.OpApply (chess_board Scripted.toy_lib) 0%nat; @BoardsMore.OpApply (chess_board Scripted.toy_lib) 7%nat;
                 @BoardsMore.OpGetResult (chess_board Scripted.toy_lib); @BoardsMore.OpApply (chess_board Scripted.toy_lib) 2%nat])
      as (_ & Hh & _ & Hside).
    destruct (Hside ScriptedFacts.toy_lib_flips ScriptedFacts.ending_oracle_contract)
      as (s0 & Hs0 & Hs).
    injection Hs0 as <-.
    split; [reflexivity|]. split; [reflexivity|]. split; [exact Hh|exact Hs].
  - destruct (side_to_move_alternates Scripted.toy_lib Scripted.opening_oracle PyffishV
                Scripted.ending_board
                [@BoardsMore.OpApply (pyffish_board Scripted.opening_oracle) (Pyffish.mkXiangqiPyffishMove "b3e3");
                 @BoardsMore.OpApply (pyffish_board Scripted.opening_oracle) (Pyffish.mkXiangqiPyffishMove "b3e3");
                 @BoardsMore.OpGetResult (pyffish_board Scripted.opening_oracle)])
      as (_ & Hh & _ & Hside).
    destruct (Hside ScriptedFacts.toy_lib_flips ScriptedFacts.opening_oracle_contract)
      as (s0 & Hs0 & Hs).
    injection Hs0 as <-.
    split; [reflexivity|]. split; [reflexivity|]. split; [exact Hh|exact Hs].
Defined.

End TurnClaims.

(** ** Game over and the legal-move list *)

Module GameOverClaims.

Import Boards.



Lemma compat_nonempty (O : Pyffish.Oracle) (v fen : string) (l : list string) :
  Pyffish.legal_moves_compat O v fen = inr l -> l <> [] ->
  Pyffish.legal_moves3 O v fen [] <> inr [].
Proof.
  unfold Pyffish.legal_moves_compat.
  destruct (Pyffish.legal_moves3 O v fen []) as [e|l']; [discriminate|].
  intros [= ->] Hl [= ->]. done.
Qed.






End GameOverClaims.

(** ** Oracle exceptions *)

Module OracleClaims.

Import Pyffish.

(** C8, as stated, fails.  With an oracle that raises on every
    enumeration, [is_game_over()] of both oracle-backed boards answers
    false (the game is not treated as finished) and
    [XiangqiPyffishBoard.get_legal_moves()] raises instead of returning an
    empty list; with an oracle that raises at the enumeration after a
    move, [apply_move] reports [done = False]. *)
Lemma oracle_exception_not_terminal :
  raises (legal_moves3 Scripted.failing_oracle "xiangqi" Scripted.ending_before []) /\
  is_game_over Scripted.failing_oracle Scripted.ending_board = false /\
  SimpleXiangqi.is_game_over Scripted.failing_oracle Scripted.ending_board_simple = false /\
  get_legal_moves Scripted.failing_oracle Scripted.ending_board None = inl TypeError /\
  raises (legal_moves3 Scripted.flaky_oracle "xiangqi" Scripted.ending_after []) /\
  snd (apply_move Scripted.flaky_oracle Scripted.ending_board (mkXiangqiPyffishMove "b5b1"))
    = inr (0, false) /\
  snd (SimpleXiangqi.make_move Scripted.flaky_oracle Scripted.ending_board_simple "b5b1")
    = inr (0, false).
Proof.
  split; [by eexists|]. split; [reflexivity|]. split; [reflexivity|].
  split; [reflexivity|]. split; [by eexists|]. split; reflexivity.
Qed.

(** Read paths: what an exception of the three-argument enumeration
    becomes. *)
Lemma enumeration_exception_read (O : Oracle) (b : XiangqiPyffishBoard)
    (sb : SimpleXiangqi.SimpleXiangqiBoard) (e : exn) :
  (legal_moves3 O (variant b) (current_fen b) [] = inl e ->
   is_game_over O b = false /\
   legal_moves_compat O (variant b) (current_fen b)
     = legal_moves2 O (variant b) (current_fen b)) /\
  (legal_moves3 O (SimpleXiangqi.variant sb) (SimpleXiangqi.current_fen sb) [] = inl e ->
   SimpleXiangqi.is_game_over O sb = false /\ SimpleXiangqi.get_legal_moves O sb = []).
Proof.
  split; intros H.
  - unfold is_game_over, legal_moves_compat. by rewrite H.
  - unfold SimpleXiangqi.is_game_over, SimpleXiangqi.get_legal_moves. by rewrite H.
Qed.

(** The termination check after a move: an enumeration that raises
    (both calls, for [XiangqiPyffishBoard]) leaves the move applied and
    reports a game that continues. *)
Lemma enumeration_exception_after_move (O : Oracle) (b : XiangqiPyffishBoard)
    (sb : SimpleXiangqi.SimpleXiangqiBoard) (mv fen' : string) (lm : list string) :
  (legal_moves_compat O (variant b) (current_fen b) = inr lm -> mv ∈ lm ->
   get_fen O (variant b) (current_fen b) [mv] = inr fen' ->
   raises (legal_moves_compat O (variant b) fen') ->
   apply_move O b (mkXiangqiPyffishMove mv) =
     (mkXiangqiPyffishBoard (variant b) fen' (move_history b ++ [mv])%list (result b),
      inr (0, false))) /\
  (mv ∈ SimpleXiangqi.get_legal_moves O sb ->
   get_fen O (SimpleXiangqi.variant sb) (SimpleXiangqi.current_fen sb) [mv] = inr fen' ->
   raises (legal_moves3 O (SimpleXiangqi.variant sb) fen' []) ->
   SimpleXiangqi.make_move O sb mv =
     (SimpleXiangqi.mkSimpleXiangqiBoard (SimpleXiangqi.variant sb) fen'
        (SimpleXiangqi.move_history sb ++ [mv])%list (SimpleXiangqi.result sb),
      inr (0, false))).
Proof.
  split.
  - intros Hlm Hin Hfen [e He].
    unfold apply_move. rewrite Hlm. simpl.
    destruct (decide _) as [_|Hn]; [|done].
    rewrite Hfen. unfold check_termination. simpl. by rewrite He.
  - intros Hin Hfen [e He].
    unfold SimpleXiangqi.make_move.
    destruct (decide _) as [_|Hn]; [|done].
    by rewrite Hfen, He.
Qed.

(** Write path: an exception of [sf.get_fen] is never swallowed. *)
Lemma get_fen_exception_propagates (O : Oracle) (b : XiangqiPyffishBoard)
    (sb : SimpleXiangqi.SimpleXiangqiBoard) (mv : string) (lm : list string) (e : exn) :
  (legal_moves_compat O (variant b) (current_fen b) = inr lm -> mv ∈ lm ->
   get_fen O (variant b) (current_fen b) [mv] = inl e ->
   apply_move O b (mkXiangqiPyffishMove mv) = (b, inl ValueError)) /\
  (mv ∈ SimpleXiangqi.get_legal_moves O sb ->
   get_fen O (SimpleXiangqi.variant sb) (SimpleXiangqi.current_fen sb) [mv] = inl e ->
   SimpleXiangqi.make_move O sb mv = (sb, inl ValueError)).
Proof.
  split.
  - intros Hlm Hin Hfen.
    unfold apply_move. rewrite Hlm. simpl.
    destruct (decide _) as [_|Hn]; [|done].
    rewrite Hfen, removelast_snoc. by destruct b.
  - intros Hin Hfen.
    unfold SimpleXiangqi.make_move.
    destruct (decide _) as [_|Hn]; [|done].
    rewrite Hfen, removelast_snoc. by destruct sb.
Qed.

(** [XiangqiPyffishBoard], when the three-argument enumeration raises:
    the two-argument call decides. *)
Lemma enumeration_exception_retry (O : Oracle) (b : XiangqiPyffishBoard) (mv : string)
    (e : exn) :
  legal_moves3 O (variant b) (current_fen b) [] = inl e ->
  (forall e2, legal_moves2 O (variant b) (current_fen b) = inl e2 ->
     apply_move O b (mkXiangqiPyffishMove mv) = (b, inl e2) /\
     forall c, side_field (current_fen b) = inr c -> get_legal_moves O b None = inl e2) /\
  (forall l c, legal_moves2 O (variant b) (current_fen b) = inr l ->
     side_field (current_fen b) = inr c ->
     get_legal_moves O b None = inr (mkXiangqiPyffishMove <$> l)).
Proof.
  intros H3. split.
  - intros e2 H2. split.
    + unfold apply_move, legal_moves_compat. by rewrite H3, H2.
    + intros c Hc. unfold get_legal_moves, legal_moves_compat.
      by rewrite Hc, H3, H2.
  - intros l c H2 Hc. unfold get_legal_moves, legal_moves_compat.
    by rewrite Hc, H3, H2.
Qed.

(** C8, as amended: on the oracle-backed boards an exception of the
    oracle's enumeration never makes a position terminal.
    [is_game_over()] answers false.  [SimpleXiangqiBoard.get_legal_moves]
    turns the exception into the empty list, and [make_move] then
    refuses every move; [XiangqiPyffishBoard] retries with the
    two-argument call, uses its answer, and lets its exception through,
    from [get_legal_moves] and from [apply_move], with the board as it
    was.  In the termination check after a move, an enumeration that
    raises leaves the move applied and a game that continues, reward 0.
    An exception of the position update [sf.get_fen] during [apply_move]
    always reaches the caller, as [ValueError], with the board as it was
    before the call.  Every part carries its own premises. *)
Theorem oracle_exception_handling (O : Oracle) (b : XiangqiPyffishBoard)
    (sb : SimpleXiangqi.SimpleXiangqiBoard) (mv : string) (e : exn) :
  (legal_moves3 O (variant b) (current_fen b) [] = inl e ->
   is_game_over O b = false /\
   (forall e2, legal_moves2 O (variant b) (current_fen b) = inl e2 ->
      apply_move O b (mkXiangqiPyffishMove mv) = (b, inl e2) /\
      forall c, side_field (current_fen b) = inr c -> get_legal_moves O b None = inl e2) /\
   (forall l c, legal_moves2 O (variant b) (current_fen b) = inr l ->
      side_field (current_fen b) = inr c ->
      get_legal_moves O b None = inr (mkXiangqiPyffishMove <$> l))) /\
  (legal_moves3 O (SimpleXiangqi.variant sb) (SimpleXiangqi.current_fen sb) [] = inl e ->
   SimpleXiangqi.is_game_over O sb = false /\
   SimpleXiangqi.get_legal_moves O sb = [] /\
   SimpleXiangqi.make_move O sb mv = (sb, inl ValueError)) /\
  (forall lm fen',
     legal_moves_compat O (variant b) (current_fen b) = inr lm -> mv ∈ lm ->
     get_fen O (variant b) (current_fen b) [mv] = inr fen' ->
     raises (legal_moves_compat O (variant b) fen') ->
     apply_move O b (mkXiangqiPyffishMove mv) =
       (mkXiangqiPyffishBoard (variant b) fen' (move_history b ++ [mv])%list (result b),
        inr (0, false))) /\
  (forall fen',
     mv ∈ SimpleXiangqi.get_legal_moves O sb ->
     get_fen O (SimpleXiangqi.variant sb) (SimpleXiangqi.current_fen sb) [mv] = inr fen' ->
     raises (legal_moves3 O (SimpleXiangqi.variant sb) fen' []) ->
     SimpleXiangqi.make_move O sb mv =
       (SimpleXiangqi.mkSimpleXiangqiBoard (SimpleXiangqi.variant sb) fen'
          (SimpleXiangqi.move_history sb ++ [mv])%list (SimpleXiangqi.result sb),
        inr (0, false))) /\
  (forall lm,
     legal_moves_compat O (variant b) (current_fen b) = inr lm -> mv ∈ lm ->
     get_fen O (variant b) (current_fen b) [mv] = inl e ->
     apply_move O b (mkXiangqiPyffishMove mv) = (b, inl ValueError)) /\
  (mv ∈ SimpleXiangqi.get_legal_moves O sb ->
   get_fen O (SimpleXiangqi.variant sb) (SimpleXiangqi.current_fen sb) [mv] = inl e ->
   SimpleXiangqi.make_move O sb mv = (sb, inl ValueError)).
Proof.
  destruct (enumeration_exception_read O b sb e) as [Hr1 Hr2].
  split.
  { intros H3. split; [by apply Hr1|]. by apply enumeration_exception_retry with e. }
  split.
  { intros H3. destruct (Hr2 H3) as [Hover Hempty]. split; [done|]. split; [done|].
    unfold SimpleXiangqi.make_move. rewrite Hempty.
    destruct (decide _) as [Hin|_]; [|done]. by apply elem_of_nil in Hin. }
  split.
  { intros lm fen'. by apply (enumeration_exception_after_move O b sb mv fen' lm). }
  split.
  { intros fen'. by apply (enumeration_exception_after_move O b sb mv fen' []). }
  split.
  { intros lm. by apply (get_fen_exception_propagates O b sb mv lm e). }
  by apply (get_fen_exception_propagates O b sb mv [] e).
Qed.

Lemma oracle_exception_handling_witness :
  (is_game_over Scripted.failing_oracle Scripted.ending_board = false /\
   apply_move Scripted.failing_oracle Scripted.ending_board (mkXiangqiPyffishMove "b5b1")
     = (Scripted.ending_board, inl TypeError) /\
   get_legal_moves Scripted.failing_oracle Scripted.ending_board None = inl TypeError) /\
  get_legal_moves Scripted.old_api_oracle Scripted.ending_board None
    = inr (mkXiangqiPyffishMove <$> ["b5b1"; "b5b4"; "a2a1"; "d10d9"]) /\
  (SimpleXiangqi.is_game_over Scripted.failing_oracle Scripted.ending_board_simple = false /\
   SimpleXiangqi.get_legal_moves Scripted.failing_oracle Scripted.ending_board_simple = [] /\
   SimpleXiangqi.make_move Scripted.failing_oracle Scripted.ending_board_simple "b5b1"
     = (Scripted.ending_board_simple, inl ValueError)) /\
  apply_move Scripted.flaky_oracle Scripted.ending_board (mkXiangqiPyffishMove "b5b1")
    = (mkXiangqiPyffishBoard "xiangqi" Scripted.ending_after ["b5b1"] None, inr (0, false)) /\
  SimpleXiangqi.make_move Scripted.flaky_oracle Scripted.ending_board_simple "b5b1"
    = (SimpleXiangqi.mkSimpleXiangqiBoard "xiangqi" Scripted.ending_after ["b5b1"] None,
       inr (0, false)) /\
  apply_move Scripted.ending_oracle Scripted.ending_board (mkXiangqiPyffishMove "b5b4")
    = (Scripted.ending_board, inl ValueError) /\
  SimpleXiangqi.make_move Scripted.ending_oracle Scripted.ending_board_simple "b5b4"
    = (Scripted.ending_board_simple, inl ValueError).
Proof.
  destruct (oracle_exception_handling Scripted.failing_oracle Scripted.ending_board
              Scripted.ending_board_simple "b5b1" (OtherError "unknown position"))
    as (Hread & Hsimple & _).
  destruct (Hread eq_refl) as (Hover & Hraise & _).
  destruct (Hraise TypeError eq_refl) as [Happ Hget].
  destruct (oracle_exception_handling Scripted.old_api_oracle Scripted.ending_board
              Scripted.ending_board_simple "b5b1" TypeError)
    as (Hread' & _).
  destruct (Hread' eq_refl) as (_ & _ & Hretry).
  destruct (oracle_exception_handling Scripted.flaky_oracle Scripted.ending_board
              Scripted.ending_board_simple "b5b1" (OtherError "unknown position"))
    as (_ & _ & Hafter & Hafter' & _).
  destruct (oracle_exception_handling Scripted.ending_oracle Scripted.ending_board
              Scripted.ending_board_simple "b5b4" (OtherError "unknown move"))
    as (_ & _ & _ & _ & Hwrite & Hwrite').
  split; [split; [exact Hover|split; [exact Happ|exact (Hget "b" eq_refl)]]|].
  split; [exact (Hretry _ "b" eq_refl eq_refl)|].
  split; [exact (Hsimple eq_refl)|].
  split.
  { apply (Hafter ["b5b1"; "b5b4"; "a2a1"; "d10d9"] Scripted.ending_after);
      [reflexivity|apply list_elem_of_here|reflexivity|by eexists]. }
  split.
  { apply (Hafter' Scripted.ending_after);
      [apply list_elem_of_here|reflexivity|by eexists]. }
  split.
  { apply (Hwrite ["b5b1"; "b5b4"; "a2a1"; "d10d9"]);
      [reflexivity|apply list_elem_of_further, list_elem_of_here|reflexivity]. }
  apply Hwrite'; [apply list_elem_of_further, list_elem_of_here|reflexivity].
Defined.

End OracleClaims.

(** ** Observation tensors *)

Module TensorFacts.

Lemma sum_zeros (n : nat) : Np.sum (Np.zeros n) = 0.
Proof. induction n as [|n IH]; [reflexivity|]. exact IH. Qed.

Lemma binary_zeros (n : nat) : Np.binary (Np.zeros n).
Proof. apply Forall_replicate. by left. Qed.

Lemma lookup_zeros (n i : nat) : (i < n)%nat -> Np.zeros n !! i = Some 0.
Proof. intros Hi. by apply lookup_replicate_2. Qed.

Lemma sum_insert_one (l : list Z) (i : nat) :
  l !! i = Some 0 -> Np.sum (<[ i := 1 ]> l) = Np.sum l + 1.
Proof.
  revert i. induction l as [|x l IH]; intros [|i] Hl; simpl in *; try discriminate.
  - injection Hl as ->. lia.
  - rewrite (IH i Hl). lia.
Qed.

Lemma binary_insert_one (l : list Z) (i : nat) :
  Np.binary l -> Np.binary (<[ i := 1 ]> l).
Proof. intros Hl. apply Forall_insert; [done|by right]. Qed.

(** Writing into a cell whose indices are in range. *)
Lemma set3_in_range (P H W : nat) (obs : list Z) (p r c : nat) :
  (p < P)%nat -> (r < H)%nat -> (c < W)%nat ->
  Np.set3 P H W obs (Z.of_nat p) (Z.of_nat r) (Z.of_nat c) 1
  = inr (<[ Np.flat3 H W p r c := 1 ]> obs).
Proof.
  intros Hp Hr Hc. unfold Np.set3.
  by rewrite !norm_index_nat.
Qed.

Lemma get2_in_range (H W : nat) (a : list Z) (r c : nat) :
  (r < H)%nat -> (c < W)%nat -> length a = (H * W)%nat ->
  exists v, a !! (r * W + c)%nat = Some v /\
            Np.get2 H W a (Z.of_nat r) (Z.of_nat c) = inr v.
Proof.
  intros Hr Hc Hlen. unfold Np.get2. rewrite !norm_index_nat by done. simpl.
  destruct (lookup_lt_is_Some_2 a (r * W + c)) as [v Hv]; [nia|].
  exists v. by rewrite Hv.
Qed.

Section Invariant.

Context (P H W : nat) (time : nat -> nat -> Z).

Local Abbreviation inv := (Np.inv P H W time).

Lemma flat3_inj (p r c p' r' c' : nat) :
  (r < H)%nat -> (c < W)%nat -> (r' < H)%nat -> (c' < W)%nat ->
  Np.flat3 H W p r c = Np.flat3 H W p' r' c' -> p = p' /\ r = r' /\ c = c'.
Proof.
  unfold Np.flat3. intros Hr Hc Hr' Hc' Heq.
  assert (Hq : (p * H + r = p' * H + r')%nat /\ c = c').
  { destruct (Nat.lt_trichotomy (p * H + r) (p' * H + r')) as [Hlt|[Hmid|Hlt]]; [nia| |nia].
    rewrite Hmid in Heq. split; [done|lia]. }
  destruct Hq as [Hq Hcc].
  destruct (Nat.lt_trichotomy p p') as [Hlt|[Hpp|Hlt]]; [nia| |nia].
  rewrite Hpp in Hq. repeat split; [done|lia|done].
Qed.

Lemma flat3_lt (p r c : nat) :
  (p < P)%nat -> (r < H)%nat -> (c < W)%nat -> (Np.flat3 H W p r c < P * H * W)%nat.
Proof.
  unfold Np.flat3. intros Hp Hr Hc.
  assert (H1 : (p * H + r + 1 <= P * H)%nat) by nia.
  assert (H2 : ((p * H + r + 1) * W <= P * H * W)%nat)
    by (apply Nat.mul_le_mono_r; exact H1).
  rewrite Nat.mul_add_distr_r in H2. lia.
Qed.

Lemma inv_zeros (k : Z) : inv k (Np.zeros (P * H * W)) 0.
Proof.
  split; [apply length_replicate|]. split; [apply binary_zeros|].
  split; [apply sum_zeros|].
  intros p r c Hp Hr Hc _. apply lookup_zeros. by apply flat3_lt.
Qed.

Lemma inv_eq (k : Z) (obs : list Z) (n n' : Z) :
  inv k obs n -> n = n' -> inv k obs n'.
Proof. by intros Hinv <-. Qed.

Lemma inv_skip (k k' : Z) (obs : list Z) (n : Z) :
  inv k obs n -> k <= k' -> inv k' obs n.
Proof.
  intros (Hlen & Hbin & Hsum & Hzero) Hk.
  repeat split; try done.
  intros p r c Hp Hr Hc Ht. apply Hzero; try done. lia.
Qed.

Lemma inv_write (k : Z) (obs : list Z) (n : Z) (p r c : nat) :
  inv k obs n -> (p < P)%nat -> (r < H)%nat -> (c < W)%nat -> k <= time r c ->
  inv (time r c + 1) (<[ Np.flat3 H W p r c := 1 ]> obs) (n + 1).
Proof.
  intros (Hlen & Hbin & Hsum & Hzero) Hp Hr Hc Hk.
  split; [by rewrite length_insert|].
  split; [by apply binary_insert_one|].
  split; [rewrite sum_insert_one; [lia|by apply Hzero]|].
  intros p' r' c' Hp' Hr' Hc' Ht.
  rewrite list_lookup_insert_ne.
  - apply Hzero; try done. lia.
  - intros Heq. apply flat3_inj in Heq as (_ & -> & ->); try done. lia.
Qed.

End Invariant.

End TensorFacts.

Module ChessObservation.

Import Chess TensorFacts.

Lemma plane_in_range (t : Z) (col : bool) :
  1 <= t <= 6 ->
  exists p : nat, PIECE_TO_PLANE !! (t, col) = Some (Z.of_nat p) /\ (p < 12)%nat.
Proof.
  intros Ht.
  assert (t = 1 \/ t = 2 \/ t = 3 \/ t = 4 \/ t = 5 \/ t = 6)
    as [-> | [-> | [-> | [-> | [-> | ->]]]]] by lia;
    destruct col.
  - exists 0%nat. split; [reflexivity|lia].
  - exists 6%nat. split; [reflexivity|lia].
  - exists 1%nat. split; [reflexivity|lia].
  - exists 7%nat. split; [reflexivity|lia].
  - exists 2%nat. split; [reflexivity|lia].
  - exists 8%nat. split; [reflexivity|lia].
  - exists 3%nat. split; [reflexivity|lia].
  - exists 9%nat. split; [reflexivity|lia].
  - exists 4%nat. split; [reflexivity|lia].
  - exists 10%nat. split; [reflexivity|lia].
  - exists 5%nat. split; [reflexivity|lia].
  - exists 11%nat. split; [reflexivity|lia].
Qed.

Section WithLib.

Context (L : Lib) (b : ChessBoard L).

Hypothesis types_ok : forall sq pc,
  piece_at L (board b) sq = Some pc -> 1 <= piece_type pc <= 6.

Local Abbreviation occupied := (Chess.occupied L b).

Lemma observe_square_step (sq : Z) (obs : list Z) (n : Z) :
  0 <= sq < 64 ->
  Np.inv 12 8 8 time sq obs n ->
  exists obs',
    observe_square L b (inr obs) sq = inr obs' /\
    Np.inv 12 8 8 time (sq + 1) obs'
        (n + Z.of_nat (length (filter occupied [sq]))).
Proof.
  intros Hsq Hinv. unfold observe_square. cbn [bind].
  unfold Chess.occupied at 1. rewrite filter_cons, filter_nil.
  destruct (piece_at L (board b) sq) as [pc|] eqn:Hpc.
  - destruct (decide _) as [_|Hn]; [|exfalso; apply Hn; eauto].
    destruct (plane_in_range _ (color pc) (types_ok _ _ Hpc)) as (p & Hp & Hlt).
    rewrite Hp.
    assert (Hdiv : 0 <= sq / 8 < 8) by (split; [apply Z.div_pos|apply Z.div_lt_upper_bound]; lia).
    assert (Hmod : 0 <= sq mod 8 < 8) by (apply Z.mod_pos_bound; lia).
    replace (7 - sq / 8) with (Z.of_nat (Z.to_nat (7 - sq / 8))) by lia.
    replace (sq mod 8) with (Z.of_nat (Z.to_nat (sq mod 8))) by lia.
    unfold NUM_PLANES, BOARD_SIZE.
    rewrite set3_in_range by lia.
    eexists. split; [reflexivity|].
    assert (Htime : time (Z.to_nat (7 - sq / 8)) (Z.to_nat (sq mod 8)) = sq).
    { unfold time. pose proof (Z.div_mod sq 8). lia. }
    replace (sq + 1) with (time (Z.to_nat (7 - sq / 8)) (Z.to_nat (sq mod 8)) + 1) by lia.
    simpl length. apply (inv_write 12 8 8 time sq); try lia. exact Hinv.
  - destruct (decide _) as [[x Hx]|_]; [discriminate|].
    eexists. split; [reflexivity|].
    simpl. rewrite Z.add_0_r. eapply inv_skip; [exact Hinv|lia].
Qed.

Lemma observe_squares_loop (len : nat) :
  forall (k : Z) (obs : list Z) (n : Z),
    0 <= k -> k + Z.of_nat len <= 64 ->
    Np.inv 12 8 8 time k obs n ->
    exists obs',
      foldl (observe_square L b) (inr obs) (seqZ k (Z.of_nat len)) = inr obs' /\
      Np.inv 12 8 8 time (k + Z.of_nat len) obs'
          (n + Z.of_nat (length (filter occupied (seqZ k (Z.of_nat len))))).
Proof.
  induction len as [|len IH]; intros k obs n Hk Hlen Hinv.
  - exists obs. split; [reflexivity|]. simpl. by rewrite !Z.add_0_r.
  - rewrite seqZ_cons by lia.
    replace (Z.pred (Z.of_nat (S len))) with (Z.of_nat len) by lia.
    cbn [foldl].
    destruct (observe_square_step k obs n) as (obs1 & Hstep & Hinv1); [lia|done|].
    rewrite Hstep.
    destruct (IH (Z.succ k) obs1 _ ltac:(lia) ltac:(lia) Hinv1) as (obs' & Hloop & Hinv').
    exists obs'. split; [exact Hloop|].
    replace (k + Z.of_nat (S len)) with (Z.succ k + Z.of_nat len) by lia.
    eapply inv_eq; [exact Hinv'|].
    rewrite !filter_cons, filter_nil.
    destruct (decide (occupied k)); simpl length; lia.
Qed.

Lemma chess_observation :
  exists obs,
    to_observation L b = inr obs /\
    length obs = (12 * 8 * 8)%nat /\ Np.binary obs /\ Np.sum obs = piece_count L b.
Proof.
  destruct (observe_squares_loop 64 0 (Np.zeros (12 * 8 * 8)) 0)
    as (obs & Hloop & Hlen & Hbin & Hsum & _); [lia|lia|apply inv_zeros|].
  exists obs. split; [exact Hloop|]. split; [exact Hlen|]. split; [exact Hbin|].
  exact Hsum.
Qed.

End WithLib.

End ChessObservation.

Module XiangqiObservation.

Import Xiangqi TensorFacts.

Lemma cells_flat : cells = cell_of <$> seq 0 90.
Proof. vm_compute. reflexivity. Qed.

Section WithBoard.

Context (b : XiangqiBoard).

Hypothesis grid : grid_ok (board b).

Lemma observe_cell_step (i : nat) (obs : list Z) (n : Z) :
  (i < 90)%nat ->
  Np.inv 14 10 9 time (Z.of_nat i) obs n ->
  exists v obs',
    board b !! i = Some v /\
    observe_cell b (inr obs) (cell_of i) = inr obs' /\
    Np.inv 14 10 9 time (Z.of_nat i + 1) obs' (n + if decide (v <> 0) then 1 else 0).
Proof.
  intros Hi Hinv. destruct grid as [Hlen Hrange].
  assert (Hr : (i / 9 < 10)%nat) by (apply Nat.Div0.div_lt_upper_bound; lia).
  assert (Hc : (i mod 9 < 9)%nat) by (apply Nat.mod_upper_bound; lia).
  assert (Hflat : (i / 9 * 9 + i mod 9 = i)%nat) by (pose proof (Nat.div_mod_eq i 9); lia).
  destruct (get2_in_range 10 9 (board b) (i / 9) (i mod 9) Hr Hc Hlen) as (v & Hv & Hget).
  rewrite Hflat in Hv.
  exists v. unfold observe_cell, cell_of. cbn [bind].
  unfold BOARD_HEIGHT, BOARD_WIDTH. rewrite Hget. cbn [bind].
  assert (Hvr : -7 <= v <= 7).
  { rewrite Forall_forall in Hrange. apply Hrange.
    eapply list_elem_of_lookup_2; eauto. }
  assert (Htime : time (i / 9) (i mod 9) = Z.of_nat i) by (unfold time; lia).
  destruct (decide (v <> 0)) as [Hnz|Hz].
  - set (plane := if 0 <? v then Z.abs v - 1 else Z.abs v + 6).
    assert (Hplane : 0 <= plane < 14) by (unfold plane; destruct (Z.ltb_spec 0 v); lia).
    replace plane with (Z.of_nat (Z.to_nat plane)) by lia.
    unfold NUM_PLANES. rewrite set3_in_range by lia.
    eexists. split; [done|]. split; [reflexivity|].
    rewrite <- Htime. apply (inv_write 14 10 9 time (Z.of_nat i)); try lia. exact Hinv.
  - eexists. split; [done|]. split; [reflexivity|].
    rewrite Z.add_0_r. eapply inv_skip; [exact Hinv|lia].
Qed.

Lemma observe_cells_loop (len : nat) :
  forall (k : nat) (obs : list Z) (n : Z),
    (k + len <= 90)%nat ->
    Np.inv 14 10 9 time (Z.of_nat k) obs n ->
    exists obs',
      foldl (observe_cell b) (inr obs) (cell_of <$> seq k len) = inr obs' /\
      Np.inv 14 10 9 time (Z.of_nat (k + len)) obs'
          (n + Z.of_nat (length (filter (fun v => v <> 0) (take len (drop k (board b)))))).
Proof.
  induction len as [|len IH]; intros k obs n Hlen Hinv.
  - exists obs. split; [reflexivity|]. rewrite Nat.add_0_r, take_0. simpl.
    by rewrite Z.add_0_r.
  - cbn [seq fmap list_fmap foldl].
    destruct (observe_cell_step k obs n) as (v & obs1 & Hv & Hstep & Hinv1); [lia|done|].
    rewrite Hstep.
    replace (Z.of_nat k + 1) with (Z.of_nat (S k)) in Hinv1 by lia.
    destruct (IH (S k) obs1 _ ltac:(lia) Hinv1) as (obs' & Hloop & Hinv').
    exists obs'. split; [exact Hloop|].
    replace (k + S len)%nat with (S k + len)%nat by lia.
    eapply inv_eq; [exact Hinv'|].
    rewrite (drop_S _ _ _ Hv). cbn [take]. rewrite filter_cons.
    destruct (decide (v <> 0)); simpl length; lia.
Qed.

Lemma xiangqi_observation :
  exists obs,
    to_observation b = inr obs /\
    length obs = (14 * 10 * 9)%nat /\ Np.binary obs /\ Np.sum obs = piece_count b.
Proof.
  destruct (observe_cells_loop 90 0 (Np.zeros (14 * 10 * 9)) 0)
    as (obs & Hloop & Hlen & Hbin & Hsum & _); [lia|apply inv_zeros|].
  exists obs. unfold to_observation. rewrite cells_flat.
  split; [exact Hloop|]. split; [exact Hlen|]. split; [exact Hbin|].
  rewrite Hsum. unfold piece_count. destruct grid as [Hglen _].
  rewrite drop_0, take_ge by lia. lia.
Qed.

End WithBoard.

Lemma reset_grid_ok (b : XiangqiBoard) : grid_ok (board (reset b)).
Proof.
  split; [reflexivity|].
  apply Forall_forall. intros v Hv.
  vm_compute in Hv.
  repeat (apply elem_of_cons in Hv as [->|Hv]; [lia|]).
  by apply elem_of_nil in Hv.
Qed.

End XiangqiObservation.

Module FenObservation.

Import FenTensor TensorFacts.

Lemma decimal_char (c : ascii) :
  is_decimal c = true ->
  isdigit c = true /\ int_of_char c = inr (ord c - 48) /\ 0 <= ord c - 48 <= 9 /\
  is_piece_char c = false.
Proof.
  intros Hd. unfold isdigit, int_of_char, is_piece_char, isdigit. rewrite Hd. simpl.
  repeat split; unfold is_decimal in Hd; lia.
Qed.

Lemma letter_char (c : ascii) :
  is_Some (PIECE_MAPPING !! c) ->
  isdigit c = false /\ is_piece_char c = true /\
  exists t red, PIECE_MAPPING !! c = Some (t, red) /\ 0 <= t <= 6.
Proof.
  intros [[t red] Hc].
  pose proof Hc as Hin. unfold PIECE_MAPPING in Hin.
  apply elem_of_list_to_map_2 in Hin.
  repeat (apply elem_of_cons in Hin as [[= -> -> ->]|Hin];
          [split; [reflexivity|]; split; [reflexivity|]; eexists _, _; split; [exact Hc|lia]|]).
  by apply elem_of_nil in Hin.
Qed.

Section WithOffset.

Context (offset : Z).

Hypothesis offset_range : 0 <= offset <= 7.

Lemma place_char_step (r : nat) (file : nat) (obs : list Z) (n : Z) (c : ascii) :
  (r < 10)%nat -> char_ok c ->
  Z.of_nat file + rank_width [c] <= 9 ->
  Np.inv 14 10 9 time (time r file) obs n ->
  exists file' obs',
    place_char offset (Z.of_nat r) (inr (Z.of_nat file, obs)) c = inr (Z.of_nat file', obs') /\
    Z.of_nat file' = Z.of_nat file + rank_width [c] /\
    Np.inv 14 10 9 time (time r file') obs' (n + Z.of_nat (letters [c])).
Proof.
  intros Hr Hok Hw Hinv. unfold place_char. cbn [bind].
  unfold letters. rewrite filter_cons, filter_nil.
  unfold rank_width in *. cbn [foldr] in *.
  destruct Hok as [Hd|Hl].
  - destruct (decimal_char c Hd) as (Hdig & Hint & Hrange & Hnp).
    rewrite Hdig, Hint, Hnp. rewrite Hd in Hw. cbn [bind].
    exists (Z.to_nat (Z.of_nat file + (ord c - 48))), obs.
    rewrite Hd. destruct (decide _) as [|_]; [discriminate|].
    split; [unfold ret; repeat f_equal; lia|]. split; [lia|].
    simpl length. rewrite Z.add_0_r.
    eapply inv_skip; [exact Hinv|]. unfold time. lia.
  - destruct (letter_char c Hl) as (Hdig & Hp & t & red & Hmap & Ht).
    assert (Hnd : is_decimal c = false).
    { unfold isdigit in Hdig. by destruct (is_decimal c). }
    rewrite Hdig, Hmap, Hp. rewrite Hnd in Hw.
    set (plane := if red then t else t + offset).
    assert (Hplane : 0 <= plane < 14) by (unfold plane; destruct red; lia).
    replace plane with (Z.of_nat (Z.to_nat plane)) by lia.
    unfold NUM_PLANES, BOARD_SIZE_Y, BOARD_SIZE_X.
    rewrite set3_in_range by lia. cbn [bind].
    exists (S file). eexists.
    rewrite Hnd. destruct (decide _) as [_|Hn]; [|done].
    split; [unfold ret; repeat f_equal; lia|]. split; [lia|].
    simpl length.
    replace (time r (S file)) with (time r file + 1) by (unfold time; lia).
    apply (inv_write 14 10 9 time (time r file)); try lia. exact Hinv.
Qed.

Lemma rank_width_cons (c : ascii) (chars : list ascii) :
  rank_width (c :: chars) = rank_width [c] + rank_width chars.
Proof. unfold rank_width. simpl. lia. Qed.

Lemma rank_width_nonneg (chars : list ascii) : 0 <= rank_width chars.
Proof.
  induction chars as [|c chars IH]; [done|].
  rewrite rank_width_cons. unfold rank_width at 1. cbn [foldr].
  destruct (is_decimal c) eqn:Hd; [|lia]. unfold is_decimal in Hd. lia.
Qed.

Lemma letters_cons (c : ascii) (chars : list ascii) :
  letters (c :: chars) = (letters [c] + letters chars)%nat.
Proof.
  unfold letters. rewrite !filter_cons, filter_nil.
  by destruct (decide _).
Qed.

Lemma place_chars_loop (r : nat) (chars : list ascii) :
  forall (file : nat) (obs : list Z) (n : Z),
    (r < 10)%nat -> Forall char_ok chars ->
    Z.of_nat file + rank_width chars <= 9 ->
    Np.inv 14 10 9 time (time r file) obs n ->
    exists file' obs',
      foldl (place_char offset (Z.of_nat r)) (inr (Z.of_nat file, obs)) chars
        = inr (Z.of_nat file', obs') /\
      (file' <= 9)%nat /\
      Np.inv 14 10 9 time (time r file') obs' (n + Z.of_nat (letters chars)).
Proof.
  induction chars as [|c chars IH]; intros file obs n Hr Hok Hw Hinv.
  - exists file, obs. split; [reflexivity|]. unfold rank_width in Hw. simpl in Hw.
    split; [lia|]. by rewrite Z.add_0_r.
  - apply Forall_cons in Hok as [Hc Hok].
    rewrite rank_width_cons in Hw.
    pose proof (rank_width_nonneg chars) as Hnn.
    destruct (place_char_step r file obs n c Hr Hc ltac:(lia) Hinv)
      as (file1 & obs1 & Hstep & Hfile1 & Hinv1).
    cbn [foldl]. rewrite Hstep.
    destruct (IH file1 obs1 _ Hr Hok ltac:(lia) Hinv1) as (file' & obs' & Hloop & Hle & Hinv').
    exists file', obs'. split; [exact Hloop|]. split; [exact Hle|].
    eapply inv_eq; [exact Hinv'|]. rewrite (letters_cons c chars). lia.
Qed.

Lemma place_rank_step (r : nat) (rank : string) (obs : list Z) (n : Z) :
  (r < 10)%nat -> rank_ok rank ->
  Np.inv 14 10 9 time (time r 0) obs n ->
  exists obs',
    place_rank offset (inr obs) (Z.of_nat r, rank) = inr obs' /\
    Np.inv 14 10 9 time (time (S r) 0) obs'
        (n + Z.of_nat (letters (list_ascii_of_string rank))).
Proof.
  intros Hr [Hchars Hw] Hinv. unfold place_rank. cbn [bind fst snd].
  destruct (place_chars_loop r (list_ascii_of_string rank) 0 obs n Hr Hchars ltac:(lia) Hinv)
    as (file' & obs' & Hloop & Hle & Hinv').
  change (Z.of_nat 0) with 0 in Hloop. unfold ret at 1. rewrite Hloop. cbn [bind snd].
  exists obs'. split; [reflexivity|].
  eapply inv_skip; [exact Hinv'|]. unfold time. lia.
Qed.

Lemma place_ranks_loop (ranks : list string) :
  forall (k : nat) (obs : list Z) (n : Z),
    (k + length ranks <= 10)%nat -> Forall rank_ok ranks ->
    Np.inv 14 10 9 time (time k 0) obs n ->
    exists obs',
      foldl (place_rank offset) (inr obs)
            (zip (seqZ (Z.of_nat k) (Z.of_nat (length ranks))) ranks) = inr obs' /\
      Np.inv 14 10 9 time (time (k + length ranks) 0) obs'
          (n + Z.of_nat (letters_of_ranks ranks)).
Proof.
  induction ranks as [|rank ranks IH]; intros k obs n Hlen Hok Hinv.
  - exists obs. split; [reflexivity|]. simpl. by rewrite Nat.add_0_r, Z.add_0_r.
  - apply Forall_cons in Hok as [Hrank Hok].
    simpl length in *. rewrite seqZ_cons by lia.
    replace (Z.pred (Z.of_nat (S (length ranks)))) with (Z.of_nat (length ranks)) by lia.
    replace (Z.succ (Z.of_nat k)) with (Z.of_nat (S k)) by lia.
    cbn [zip zip_with foldl].
    destruct (place_rank_step k rank obs n ltac:(lia) Hrank Hinv) as (obs1 & Hstep & Hinv1).
    rewrite Hstep.
    destruct (IH (S k) obs1 _ ltac:(lia) Hok Hinv1) as (obs' & Hloop & Hinv').
    exists obs'. split; [exact Hloop|].
    replace (k + S (length ranks))%nat with (S k + length ranks)%nat by lia.
    eapply inv_eq; [exact Hinv'|]. simpl. lia.
Qed.

End WithOffset.

End FenObservation.

Module ObservationClaims.

Import Boards TensorFacts.

Lemma letters_rev_app (s1 s2 : string) :
  FenTensor.letters (list_ascii_of_string (String.rev_app s1 s2)) =
  (FenTensor.letters (list_ascii_of_string s1)
   + FenTensor.letters (list_ascii_of_string s2))%nat.
Proof.
  revert s2. induction s1 as [|c s1 IH]; intros s2; [reflexivity|].
  cbn [String.rev_app]. rewrite IH. cbn [list_ascii_of_string].
  rewrite (FenObservation.letters_cons c (list_ascii_of_string s1)).
  rewrite (FenObservation.letters_cons c (list_ascii_of_string s2)). lia.
Qed.

(** Splitting at the rank separator loses no piece letter. *)
Lemma letters_split_aux (s cur : string) :
  FenTensor.letters_of_ranks (split_aux "/" cur s) =
  (FenTensor.letters (list_ascii_of_string cur)
   + FenTensor.letters (list_ascii_of_string s))%nat.
Proof.
  revert cur. induction s as [|c s IH]; intros cur.
  - cbn [split_aux FenTensor.letters_of_ranks foldr].
    unfold String.rev. rewrite letters_rev_app. lia.
  - cbn [split_aux]. destruct (decide (c = "/"%char)) as [->|Hc].
    + cbn [FenTensor.letters_of_ranks foldr].
      fold (FenTensor.letters_of_ranks (split_aux "/" "" s)).
      rewrite IH. unfold String.rev. rewrite letters_rev_app.
      cbn [list_ascii_of_string].
      rewrite (FenObservation.letters_cons "/" (list_ascii_of_string s)).
      change (FenTensor.letters ["/"%char]) with 0%nat.
      change (FenTensor.letters []) with 0%nat. lia.
    + rewrite IH. cbn [list_ascii_of_string].
      rewrite (FenObservation.letters_cons c (list_ascii_of_string cur)).
      rewrite (FenObservation.letters_cons c (list_ascii_of_string s)). lia.
Qed.

Lemma fen_observation (offset : Z) (fen : string) :
  0 <= offset <= 7 -> FenTensor.placement_ok fen ->
  exists obs,
    FenTensor.observe offset fen = inr obs /\
    length obs = (14 * 10 * 9)%nat /\ Np.binary obs /\
    Np.sum obs = FenTensor.piece_count fen.
Proof.
  intros Hoff [Hlen Hranks].
  destruct (FenObservation.place_ranks_loop offset Hoff
              (split "/" (FenTensor.board_part fen)) 0 (Np.zeros (14 * 10 * 9)) 0)
    as (obs & Hloop & Hl & Hbin & Hsum & _); [lia|done|apply inv_zeros|].
  exists obs. split; [exact Hloop|]. split; [exact Hl|]. split; [exact Hbin|].
  rewrite Hsum. unfold split. rewrite letters_split_aux. reflexivity.
Qed.

(** Every board a game reaches holds a position of its variant. *)
Lemma reachable_well_formed (L : Chess.Lib) (O : Pyffish.Oracle) (v : Variant)
    (b : state (board_of L O v)) :
  chess_contract L -> oracle_contract O ->
  reachable _ b -> well_formed _ b.
Proof.
  intros HL HO Hreach.
  induction Hreach as [b0|b mv b' r Hreach IH Hlive Happ|b Hreach IH].
  - destruct v; simpl.
    + intros sq pc. apply (piece_types L HL).
    + apply (XiangqiObservation.reset_grid_ok b0).
    + apply (start_placement O HO).
    + apply (start_placement O HO).
  - destruct v; simpl in *.
    + intros sq pc. apply (piece_types L HL).
    + change (Xiangqi.apply_move b mv = (b', inr r)) in Happ.
      rewrite TurnClaims.xiangqi_apply_move_raises in Happ. discriminate.
    + unfold Pyffish.apply_move in Happ.
      destruct (Pyffish.legal_moves_compat _ _ _) as [|lm] eqn:Hlm; [discriminate|].
      destruct (decide _) as [Hin|]; [|discriminate].
      destruct (Pyffish.get_fen _ _ _ _) as [|fen'] eqn:Hfen; [discriminate|].
      pose proof (TurnClaims.check_termination_keeps O
        (Pyffish.mkXiangqiPyffishBoard (Pyffish.variant b) fen'
           (Pyffish.move_history b ++ [Pyffish.move_str mv]) (Pyffish.result b)))
        as (Hk & _).
      destruct (Pyffish.check_termination _ _) as [b'' r'']. injection Happ as <- _.
      simpl in Hk. rewrite Hk. apply (next_placement O HO _ _ _ _ _ Hlm Hin Hfen).
    + unfold SimpleXiangqi.make_move in Happ.
      destruct (decide _) as [Hin|]; [|discriminate].
      destruct (TurnClaims.simple_legal_compat O b mv Hin) as (lm & Hlm & Hin').
      destruct (Pyffish.get_fen _ _ _ _) as [|fen'] eqn:Hfen; [discriminate|].
      injection Happ as <- _. simpl. apply (next_placement O HO _ _ _ _ _ Hlm Hin' Hfen).
  - destruct v; simpl in *; try done.
    unfold Pyffish.get_result.
    destruct (negb _); [done|]. by destruct (Pyffish.result b).
Qed.

Lemma observation_of_position (L : Chess.Lib) (O : Pyffish.Oracle) (v : Variant)
    (b b' : state (board_of L O v)) :
  get_position _ b' = get_position _ b ->
  to_observation _ b' = to_observation _ b.
Proof.
  destruct v; simpl; destruct b, b'; simpl; intros ->; reflexivity.
Qed.

(** C9: on every board a game reaches, [to_observation()] returns a
    tensor of the variant's shape that is a function of the position
    alone (two calls on an unmutated board, or on boards that differ only
    in history and stored result, give the same tensor), whose entries
    are all 0 or 1 and sum to the number of pieces on the board. *)
Theorem observation_counts_pieces (L : Chess.Lib) (O : Pyffish.Oracle) (v : Variant)
    (b : state (board_of L O v)) :
  chess_contract L -> oracle_contract O ->
  reachable _ b ->
  exists obs,
    to_observation _ b = inr obs /\
    Np.binary obs /\
    Np.sum obs = piece_count _ b /\
    length obs = match v with ChessV => (12 * 8 * 8)%nat | _ => (14 * 10 * 9)%nat end /\
    (forall b', get_position _ b' = get_position _ b ->
                to_observation _ b' = inr obs).
Proof.
  intros HL HO Hreach.
  pose proof (reachable_well_formed L O v b HL HO Hreach) as Hwf.
  assert (Hobs : exists obs,
             to_observation _ b = inr obs /\
             length obs = match v with ChessV => (12 * 8 * 8)%nat | _ => (14 * 10 * 9)%nat end /\
             Np.binary obs /\ Np.sum obs = piece_count _ b).
  { destruct v; simpl in *.
    - by apply ChessObservation.chess_observation.
    - by apply XiangqiObservation.xiangqi_observation.
    - apply fen_observation; [unfold FenTensor.NUM_PIECE_TYPES; lia|done].
    - apply fen_observation; [by vm_compute|done]. }
  destruct Hobs as (obs & Hobs & Hlen & Hbin & Hsum).
  exists obs. repeat split; try done.
  intros b' Hpos. by rewrite (observation_of_position L O v b b' Hpos).
Qed.

Lemma observation_counts_pieces_witness :
  let B := pyffish_board Scripted.ending_oracle in
  let b := reset B Scripted.ending_board in
  exists obs,
    to_observation B b = inr obs /\
    Np.binary obs /\
    Np.sum obs = piece_count B b /\
    length obs = (14 * 10 * 9)%nat /\
    (forall b', get_position B b' = get_position B b -> to_observation B b' = inr obs).
Proof.
  apply (observation_counts_pieces Scripted.toy_lib Scripted.ending_oracle PyffishV
           (reset (pyffish_board Scripted.ending_oracle) Scripted.ending_board)).
  - exact ScriptedFacts.toy_lib_contract.
  - exact ScriptedFacts.ending_oracle_contract.
  - apply (reach_reset (pyffish_board Scripted.ending_oracle)).
Defined.

(** The starting position of Xiangqi has 32 pieces. *)
Lemma start_piece_count :
  piece_count (pyffish_board Scripted.ending_oracle)
    (reset (pyffish_board Scripted.ending_oracle) Scripted.ending_board) = 32.
Proof. vm_compute. reflexivity. Qed.

End ObservationClaims.

(** * Further properties of the same code *)

(** ** [Move]: what the notation keeps and what it drops *)

Module MoveMore.

Import MovePy MoveFacts.

Lemma promotion_letter_none (p : Z) :
  ~ 2 <= p <= 5 -> char_of_promotion !! p = None.
Proof.
  intros Hp. unfold char_of_promotion.
  rewrite !lookup_insert_ne by lia. apply lookup_singleton_ne. lia.
Qed.

(** The promotion [from_uci] reads back from what [to_uci] appended. *)
Lemma promotion_suffix_normalises (p : option Z) :
  promotion_suffix
    (if promotion_truthy p
     then default "" (p ≫= fun q => char_of_promotion !! q)
     else "")
  = match p with
    | Some q => if decide (2 <= q <= 5) then Some q else None
    | None => None
    end.
Proof.
  destruct p as [q|]; [|reflexivity].
  destruct (decide (2 <= q <= 5)) as [Hq|Hq].
  - assert (q = 2 \/ q = 3 \/ q = 4 \/ q = 5) as [-> | [-> | [-> | ->]]] by lia;
      vm_compute; reflexivity.
  - simpl. rewrite (promotion_letter_none q Hq). simpl.
    by destruct (negb (q =? 0)).
Qed.

(** X1: For every move whose squares are on the board, whatever its promotion
    and metadata, [from_uci(m.to_uci())] is the move with the metadata
    dropped and with every promotion other than 2, 3, 4, 5 (so also 0,
    the pawn 1 and the king 6) replaced by [None]. *)
Theorem roundtrip_normalises (m : Move) :
  0 <= from_sq m < 64 -> 0 <= to_sq m < 64 ->
  roundtrip m =
  inr (mkMove (from_sq m) (to_sq m)
         (match promotion m with
          | Some q => if decide (2 <= q <= 5) then Some q else None
          | None => None
          end) None).
Proof.
  intros Hf Ht.
  destruct (MoveClaims.to_uci_squares m Hf Ht) as (f1 & r1 & f2 & r2 & Hs1 & Hs2 & Huci).
  unfold roundtrip. rewrite Huci. cbn [bind].
  rewrite from_uci_four, Hs1, Hs2. cbn [bind].
  by rewrite promotion_suffix_normalises.
Qed.

Lemma roundtrip_normalises_witness :
  roundtrip (mkMove 8 0 (Some 6) (Some ∅)) = inr (mkMove 8 0 None None).
Proof.
  apply (roundtrip_normalises (mkMove 8 0 (Some 6) (Some ∅))); simpl; lia.
Defined.

Lemma file_letters (f : ascii) :
  is_file f = true -> f ∈ list_ascii_of_string "abcdefgh".
Proof.
  destruct f as [[] [] [] [] [] [] [] []]; intros H; try discriminate H;
    simpl; set_solver.
Qed.

Lemma rank_digits (r : ascii) :
  is_rank r = true -> r ∈ list_ascii_of_string "12345678".
Proof.
  destruct r as [[] [] [] [] [] [] [] []]; intros H; try discriminate H;
    simpl; set_solver.
Qed.

(** A file letter and a rank digit name a square of the board, and that
    square prints as the same two characters. *)
Lemma square_to_index_inv (f r : ascii) :
  is_file f = true -> is_rank r = true ->
  exists i, square_to_index f r = inr i /\ 0 <= i < 64 /\
            index_to_square i = inr (f, String r EmptyString).
Proof.
  intros Hf Hr. apply file_letters in Hf. apply rank_digits in Hr.
  simpl in Hf, Hr.
  repeat (apply elem_of_cons in Hf as [->|Hf]);
    try (by apply elem_of_nil in Hf);
    repeat (apply elem_of_cons in Hr as [->|Hr]);
    try (by apply elem_of_nil in Hr);
    eexists; (split; [vm_compute; reflexivity|]); (split; [lia|reflexivity]).
Qed.

Lemma promotion_of_char_range (c : ascii) (p : Z) :
  promotion_of_char !! c = Some p -> 2 <= p <= 5.
Proof.
  unfold promotion_of_char.
  rewrite !lookup_insert_Some, lookup_singleton_Some. intuition lia.
Qed.

Lemma promotion_suffix_range (rest : string) :
  promotion_suffix rest = None \/
  exists p, promotion_suffix rest = Some p /\ 2 <= p <= 5.
Proof.
  destruct rest as [|c [|c' rest]]; try (by left).
  simpl. destruct (promotion_of_char !! lower c) as [p|] eqn:Hp; [right|by left].
  exists p. split; [done|]. by apply (promotion_of_char_range (lower c)).
Qed.

(** X2: A string shaped like a UCI move parses, and to a move of the board:
    both squares in 0..63, the promotion [None] or one of 2, 3, 4, 5, no
    metadata. *)
Theorem from_uci_of_shaped (s : string) :
  uci_shaped s ->
  exists m, from_uci s = inr m /\ valid_move m /\ metadata m = None.
Proof.
  intros [_ (f1 & r1 & f2 & r2 & H0 & H1 & H2 & H3 & Hf1 & Hr1 & Hf2 & Hr2)].
  destruct s as [|c0 [|c1 [|c2 [|c3 rest]]]]; try discriminate.
  cbn in H0, H1, H2, H3.
  injection H0 as ->. injection H1 as ->. injection H2 as ->. injection H3 as ->.
  destruct (square_to_index_inv f1 r1 Hf1 Hr1) as (i1 & Hs1 & Hi1 & _).
  destruct (square_to_index_inv f2 r2 Hf2 Hr2) as (i2 & Hs2 & Hi2 & _).
  rewrite from_uci_four, Hs1, Hs2. cbn [bind].
  eexists. split; [reflexivity|]. split; [|reflexivity].
  unfold valid_move. simpl. split; [lia|]. split; [lia|].
  apply promotion_suffix_range.
Qed.

Lemma from_uci_of_shaped_witness :
  exists m, from_uci "g7g8N" = inr m /\ valid_move m /\ metadata m = None.
Proof.
  apply (from_uci_of_shaped "g7g8N").
  split; [by right|].
  exists "g"%char, "7"%char, "g"%char, "8"%char. repeat split.
Defined.

(** X3: A four-character UCI move, and a five-character one whose last
    character is one of the lower-case promotion letters, is printed
    back unchanged after parsing. *)
Theorem reprint_canonical (s : string) :
  uci_shaped s ->
  String.length s = 4%nat \/
    (exists c, String.get 4 s = Some c /\ c ∈ list_ascii_of_string "qrbn") ->
  reprint s = inr s.
Proof.
  intros [Hlen (f1 & r1 & f2 & r2 & H0 & H1 & H2 & H3 & Hf1 & Hr1 & Hf2 & Hr2)] Hpromo.
  destruct s as [|c0 [|c1 [|c2 [|c3 rest]]]]; try discriminate.
  cbn in H0, H1, H2, H3.
  injection H0 as ->. injection H1 as ->. injection H2 as ->. injection H3 as ->.
  destruct (square_to_index_inv f1 r1 Hf1 Hr1) as (i1 & Hs1 & Hi1 & Hp1).
  destruct (square_to_index_inv f2 r2 Hf2 Hr2) as (i2 & Hs2 & Hi2 & Hp2).
  unfold reprint. rewrite from_uci_four, Hs1, Hs2. cbn [bind ret].
  unfold to_uci. cbn [from_sq to_sq promotion]. rewrite Hp1, Hp2. cbn [bind ret].
  assert (Hrest : rest = "" \/
                  exists c, rest = String c "" /\ c ∈ list_ascii_of_string "qrbn").
  { destruct Hpromo as [H4|(c & Hc & Hin)].
    - left. cbn in H4. by destruct rest.
    - right. cbn in Hc. destruct rest as [|c' rest]; [discriminate|].
      cbn in Hc. injection Hc as ->.
      destruct Hlen as [Hl|Hl]; cbn in Hl; [lia|].
      destruct rest; [|cbn in Hl; lia]. by exists c. }
  destruct Hrest as [->|(c & -> & Hin)]; [reflexivity|].
  simpl in Hin.
  repeat (apply elem_of_cons in Hin as [->|Hin]); try (by apply elem_of_nil in Hin);
    reflexivity.
Qed.

Lemma reprint_canonical_witness : reprint "a7a8r" = inr "a7a8r".
Proof.
  apply (reprint_canonical "a7a8r").
  - split; [by right|].
    exists "a"%char, "7"%char, "a"%char, "8"%char. repeat split.
  - right. exists "r"%char. split; [reflexivity|]. simpl. set_solver.
Defined.

(** An upper-case promotion letter is accepted and printed back in lower
    case; any other fifth character is dropped. *)
Lemma reprint_not_canonical :
  reprint "e7e8Q" = inr "e7e8q" /\ reprint "e7e8k" = inr "e7e8".
Proof. split; reflexivity. Qed.

Lemma index_to_square_shape (i : Z) :
  0 <= i < 64 ->
  exists f r, index_to_square i = inr (f, String r EmptyString) /\
              is_file f = true /\ is_rank r = true.
Proof.
  intros Hi.
  assert (Hin : i ∈ seqZ 0 64) by (apply elem_of_seqZ; lia).
  vm_compute in Hin.
  repeat (apply elem_of_cons in Hin as [->|Hin];
          [eexists _, _; split; [vm_compute; reflexivity|split; reflexivity]|]).
  by apply elem_of_nil in Hin.
Qed.

(** X4: [to_uci] of a move of the board never raises and prints a string
    shaped like a UCI move: four characters without a promotion, five
    with one. *)
Theorem to_uci_shaped (m : Move) :
  valid_move m ->
  exists s, to_uci m = inr s /\ uci_shaped s /\
            String.length s = (match promotion m with Some _ => 5 | None => 4 end)%nat.
Proof.
  intros (Hf & Ht & Hp).
  destruct (index_to_square_shape _ Hf) as (f1 & r1 & Hi1 & Hf1 & Hr1).
  destruct (index_to_square_shape _ Ht) as (f2 & r2 & Hi2 & Hf2 & Hr2).
  unfold to_uci. rewrite Hi1, Hi2. cbn [bind ret].
  assert (Hshape : forall rest,
             (String.length rest = 0 \/ String.length rest = 1)%nat ->
             uci_shaped (String f1 (String r1 (String f2 (String r2 rest))))).
  { intros rest Hrest. split; [cbn; lia|]. exists f1, r1, f2, r2. by repeat split. }
  destruct Hp as [Hp|(p & Hp & Hrange)]; rewrite Hp.
  - eexists. split; [reflexivity|]. split; [apply Hshape; by left|reflexivity].
  - assert (p = 2 \/ p = 3 \/ p = 4 \/ p = 5) as [-> | [-> | [-> | ->]]] by lia;
      (eexists; split; [reflexivity|]; split; [apply Hshape; by right|reflexivity]).
Qed.

Lemma to_uci_shaped_witness :
  exists s, to_uci (mkMove 48 56 (Some 4) None) = inr s /\ uci_shaped s /\
            String.length s = 5%nat.
Proof.
  apply (to_uci_shaped (mkMove 48 56 (Some 4) None)).
  unfold valid_move. simpl. split; [lia|]. split; [lia|].
  right. exists 4. split; [reflexivity|lia].
Defined.

End MoveMore.

(** ** The boards: accepted moves, outcomes, histories *)

Module BoardMore.

Import Boards BoardsMore.

Lemma elem_of_fmap_mk (strs : list string) (mv : Pyffish.XiangqiPyffishMove) :
  mv ∈ Pyffish.mkXiangqiPyffishMove <$> strs <-> Pyffish.move_str mv ∈ strs.
Proof.
  split.
  - intros Hin. apply list_elem_of_fmap in Hin as (s & -> & Hs). exact Hs.
  - intros Hin. destruct mv as [m]. by apply list_elem_of_fmap_2.
Qed.

(** X5: On every board, [apply_move] returns exactly for the moves that
    pass its legality test (and for which, on the oracle-backed boards,
    the oracle returns the next position); every other move raises.  The
    test is membership in the list of [get_legal_moves()] on the three
    Xiangqi boards and python-chess's own test on [ChessBoard]; every
    move of the list passes it. *)
Theorem apply_move_accepts_exactly (L : Chess.Lib) (O : Pyffish.Oracle) (v : Variant)
    (b : state (board_of L O v)) (mv : move (board_of L O v))
    (lm : list (move (board_of L O v))) :
  get_legal_moves _ b = inr lm ->
  ((exists b' r, apply_move _ b mv = (b', inr r))
   <-> (passes_test L O v b mv lm /\ fen_updates L O v b mv)) /\
  (mv ∈ lm -> passes_test L O v b mv lm).
Proof.
  intros Hlm. destruct v; simpl in *.
  - injection Hlm as <-. split; [|apply Chess.legal_moves_legal].
    unfold Chess.apply_move.
    destruct (Chess.is_legal _ _ _).
    + split; [done|intros _].
      destruct (Chess.lib_is_game_over _ _); by eexists _, _.
    + split; [intros (b' & r & [=])|by intros [? _]].
  - injection Hlm as <-. split; [|done]. rewrite TurnClaims.xiangqi_apply_move_raises.
    split; [intros (b' & r & [=])|].
    intros [Hin _]. by apply elem_of_nil in Hin.
  - split; [|done]. unfold Pyffish.get_legal_moves in Hlm.
    destruct (Pyffish.side_field _) as [e|c]; [discriminate|]. simpl in Hlm.
    unfold Pyffish.apply_move.
    destruct (Pyffish.legal_moves_compat _ _ _) as [e|strs]; [discriminate|].
    simpl in Hlm. injection Hlm as <-. rewrite elem_of_fmap_mk.
    destruct (decide _) as [Hin|Hn]; [|split; [intros (b' & r & [=])|tauto]].
    destruct (Pyffish.get_fen _ _ _ _) as [e|fen']; simpl.
    + split; [intros (b' & r & [=])|]. intros [_ [=]].
    + split; [done|intros _].
      destruct (Pyffish.check_termination _ _). by eexists _, _.
  - split; [|done]. injection Hlm as <-. unfold SimpleXiangqi.make_move.
    destruct (decide _) as [Hin|Hn]; [|split; [intros (b' & r & [=])|tauto]].
    destruct (Pyffish.get_fen _ _ _ _) as [e|fen']; simpl.
    + split; [intros (b' & r & [=])|]. intros [_ [=]].
    + split; [done|intros _]. by eexists _, _.
Qed.

Lemma apply_move_accepts_exactly_witness :
  (((exists b' r,
       Pyffish.apply_move Scripted.ending_oracle Scripted.ending_board
         (Pyffish.mkXiangqiPyffishMove "b5b1") = (b', inr r))
    <-> (Pyffish.mkXiangqiPyffishMove "b5b1"
           ∈ Pyffish.mkXiangqiPyffishMove <$> ["b5b1"; "b5b4"; "a2a1"; "d10d9"]
         /\ is_ok (Pyffish.get_fen Scripted.ending_oracle "xiangqi" Scripted.ending_before
                     ["b5b1"]) = true)) /\
   (Pyffish.mkXiangqiPyffishMove "b5b1"
      ∈ Pyffish.mkXiangqiPyffishMove <$> ["b5b1"; "b5b4"; "a2a1"; "d10d9"] ->
    Pyffish.mkXiangqiPyffishMove "b5b1"
      ∈ Pyffish.mkXiangqiPyffishMove <$> ["b5b1"; "b5b4"; "a2a1"; "d10d9"])) /\
  (let b := Chess.mkChessBoard (L := Scripted.castling_lib) 0%nat [] None in
   ((exists b' r, Chess.apply_move Scripted.castling_lib b "e1h1" = (b', inr r))
    <-> (Chess.is_legal Scripted.castling_lib 0%nat "e1h1" = true /\ True)) /\
   ("e1h1" ∈ ["e1g1"; "a2a3"] -> Chess.is_legal Scripted.castling_lib 0%nat "e1h1" = true)).
Proof.
  split.
  - apply (apply_move_accepts_exactly Scripted.toy_lib Scripted.ending_oracle PyffishV
             Scripted.ending_board (Pyffish.mkXiangqiPyffishMove "b5b1")
             (Pyffish.mkXiangqiPyffishMove <$> ["b5b1"; "b5b4"; "a2a1"; "d10d9"])).
    reflexivity.
  - apply (apply_move_accepts_exactly Scripted.castling_lib Scripted.ending_oracle ChessV
             (Chess.mkChessBoard (L := Scripted.castling_lib) 0%nat [] None) "e1h1"
             ["e1g1"; "a2a3"]).
    reflexivity.
Defined.

Lemma compat_empty_of_fallback (O : Pyffish.Oracle) (var fen : string) :
  (forall var fen, Pyffish.legal_moves2 O var fen <> inr []) ->
  Pyffish.legal_moves_compat O var fen = inr [] ->
  Pyffish.legal_moves3 O var fen [] = inr [].
Proof.
  intros Hfb. unfold Pyffish.legal_moves_compat.
  destruct (Pyffish.legal_moves3 O var fen []) as [e|l]; [|done].
  intros H. by apply Hfb in H.
Qed.

(** X6: What a move that went through returns, on every board: [done] is
    what [is_game_over()] answers afterwards, the reward is -1, 0 or 1
    and is 0 while the game goes on, and the history is one move longer.
    (Of pyffish only this is used: the two-argument call of
    [legal_moves], the fallback, never returns an empty list.) *)
Theorem apply_move_outcome (L : Chess.Lib) (O : Pyffish.Oracle) (v : Variant)
    (b b' : state (board_of L O v)) (mv : move (board_of L O v))
    (reward : Z) (done : bool) :
  (forall var fen, Pyffish.legal_moves2 O var fen <> inr []) ->
  apply_move _ b mv = (b', inr (reward, done)) ->
  is_game_over _ b' = done /\
  (reward = -1 \/ reward = 0 \/ reward = 1) /\
  (done = false -> reward = 0) /\
  history_length _ b' = S (history_length _ b).
Proof.
  intros Hfb Happ.
  assert (Hsnoc : forall (A : Type) (l : list A) (x : A), length (l ++ [x]) = S (length l))
    by (intros A l x; rewrite length_app; simpl; lia).
  destruct v; simpl in *.
  - unfold Chess.apply_move in Happ.
    destruct (Chess.is_legal _ _ _); [|discriminate].
    destruct (Chess.lib_is_game_over L (Chess.push L _ mv)) eqn:Hover;
      injection Happ as <- <- <-; unfold Chess.is_game_over; simpl; rewrite Hover, Hsnoc.
    + split; [done|]. split; [|done]. unfold Chess.reward_of.
      destruct (Chess.outcome _ _) as [[t [w|]]|]; [destruct (decide _)| |]; lia.
    + split; [done|]. split; [lia|done].
  - rewrite TurnClaims.xiangqi_apply_move_raises in Happ. discriminate.
  - unfold Pyffish.apply_move in Happ.
    destruct (Pyffish.legal_moves_compat _ _ (Pyffish.current_fen b)); [discriminate|].
    destruct (decide _); [|discriminate].
    destruct (Pyffish.get_fen _ _ _ _) as [|fen']; [discriminate|].
    unfold Pyffish.check_termination in Happ. simpl in Happ.
    unfold Pyffish.is_game_over.
    destruct (Pyffish.legal_moves_compat _ _ fen') as [e'|next] eqn:Hnext.
    + injection Happ as <- <- <-. simpl. rewrite Hsnoc.
      unfold Pyffish.legal_moves_compat in Hnext.
      destruct (Pyffish.legal_moves3 _ _ _ _); [|discriminate].
      split; [done|]. split; [lia|done].
    + destruct next as [|m next]; simpl in Happ.
      * pose proof (compat_empty_of_fallback O _ _ Hfb Hnext) as H3.
        destruct (Pyffish.side_field fen') as [e'|c];
          injection Happ as <- <- <-; simpl; rewrite H3, Hsnoc; simpl.
        -- split; [done|]. split; [lia|done].
        -- split; [done|]. split; [destruct (bool_decide _); lia|done].
      * injection Happ as <- <- <-. simpl. rewrite Hsnoc.
        pose proof (GameOverClaims.compat_nonempty O _ _ _ Hnext) as Hne.
        split; [|split; [lia|done]].
        destruct (Pyffish.legal_moves3 _ _ _ _) as [|[|m' l']]; try done.
        exfalso. by apply Hne.
  - unfold SimpleXiangqi.make_move in Happ.
    destruct (decide _); [|discriminate].
    destruct (Pyffish.get_fen _ _ _ _) as [|fen']; [discriminate|].
    injection Happ as <- <- <-. unfold SimpleXiangqi.is_game_over. simpl.
    rewrite Hsnoc. split; [done|].
    destruct (Pyffish.legal_moves3 _ _ _ _) as [|l]; [split; [lia|done]|].
    destruct (bool_decide _); split; try lia; done.
Qed.

Lemma apply_move_outcome_witness :
  let B := pyffish_board Scripted.ending_oracle in
  let b' := fst (apply_move B Scripted.ending_board (Pyffish.mkXiangqiPyffishMove "b5b1")) in
  is_game_over B b' = true /\
  (-1 = -1 \/ -1 = 0 \/ -1 = 1) /\
  (true = false -> -1 = 0) /\
  history_length B b' = S (history_length B Scripted.ending_board).
Proof.
  apply (apply_move_outcome Scripted.toy_lib Scripted.ending_oracle PyffishV
           Scripted.ending_board
           (fst (apply_move (pyffish_board Scripted.ending_oracle) Scripted.ending_board
                   (Pyffish.mkXiangqiPyffishMove "b5b1")))
           (Pyffish.mkXiangqiPyffishMove "b5b1") (-1) true).
  - intros var fen. discriminate.
  - reflexivity.
Defined.

Lemma apply_move_appends (L : Chess.Lib) (O : Pyffish.Oracle) (v : Variant)
    (b b' : state (board_of L O v)) (mv : move (board_of L O v)) (r : Z * bool) :
  apply_move _ b mv = (b', inr r) ->
  applied_history L O v b' = (applied_history L O v b ++ [mv])%list.
Proof.
  intros Happ. destruct v; simpl in *.
  - unfold Chess.apply_move in Happ.
    destruct (Chess.is_legal _ _ _); [|discriminate].
    by destruct (Chess.lib_is_game_over _ _); injection Happ as <- _.
  - rewrite TurnClaims.xiangqi_apply_move_raises in Happ. discriminate.
  - unfold Pyffish.apply_move in Happ.
    destruct (Pyffish.legal_moves_compat _ _ _); [discriminate|].
    destruct (decide _); [|discriminate].
    destruct (Pyffish.get_fen _ _ _ _) as [|fen']; [discriminate|].
    pose proof (TurnClaims.check_termination_keeps O
      (Pyffish.mkXiangqiPyffishBoard (Pyffish.variant b) fen'
         (Pyffish.move_history b ++ [Pyffish.move_str mv]) (Pyffish.result b)))
      as (_ & Hk & _).
    destruct (Pyffish.check_termination _ _) as [b'' r'']. injection Happ as <- _.
    simpl in Hk. rewrite Hk, fmap_app. by destruct mv.
  - unfold SimpleXiangqi.make_move in Happ.
    destruct (decide _); [|discriminate].
    destruct (Pyffish.get_fen _ _ _ _) as [|fen']; [discriminate|].
    by injection Happ as <- _.
Qed.

(** X7: The history is the list of the moves applied, in order: a run of
    moves that all went through appends exactly those moves, and after a
    reset the history is exactly the run. *)
Theorem history_records_moves (L : Chess.Lib) (O : Pyffish.Oracle) (v : Variant)
    (b b' : state (board_of L O v)) (mvs : list (move (board_of L O v))) :
  apply_moves _ b mvs = (b', inr tt) ->
  applied_history L O v b' = (applied_history L O v b ++ mvs)%list /\
  applied_history L O v (reset _ b) = [].
Proof.
  intros Hrun. split; [|by destruct v].
  revert b Hrun. induction mvs as [|mv rest IH]; intros b Hrun.
  - injection Hrun as <-. by rewrite app_nil_r.
  - simpl in Hrun.
    destruct (apply_move _ b mv) as [b1 [e|r]] eqn:Happ; [discriminate|].
    rewrite (IH b1 Hrun), (apply_move_appends L O v b b1 mv r Happ).
    by rewrite <- app_assoc.
Qed.

Lemma history_records_moves_witness :
  let B := chess_board Scripted.toy_lib in
  let b := Chess.mkChessBoard (L := Scripted.toy_lib) 0%nat [] None in
  let b' := fst (apply_moves B b [1%nat; 2%nat]) in
  applied_history Scripted.toy_lib Scripted.ending_oracle ChessV b'
    = (applied_history Scripted.toy_lib Scripted.ending_oracle ChessV b ++ [1%nat; 2%nat])%list /\
  applied_history Scripted.toy_lib Scripted.ending_oracle ChessV (reset B b) = [].
Proof.
  apply (history_records_moves Scripted.toy_lib Scripted.ending_oracle ChessV
           (Chess.mkChessBoard (L := Scripted.toy_lib) 0%nat [] None)
           (fst (apply_moves (chess_board Scripted.toy_lib)
                   (Chess.mkChessBoard (L := Scripted.toy_lib) 0%nat [] None)
                   [1%nat; 2%nat]))
           [1%nat; 2%nat]).
  reflexivity.
Defined.

(** X8: [ChessBoard]: after the move that ends the game, [get_result()]
    names the winner the reward speaks of: the mover's colour for
    reward 1, the other colour for -1, nobody for 0; and it counts the
    moves played, the last one included. *)
Theorem chess_result_matches_reward (L : Chess.Lib) (b b' : Chess.ChessBoard L)
    (mv : Chess.move L) (reward : Z) :
  Chess.apply_move L b mv = (b', inr (reward, true)) ->
  let mover := Chess.turn L (Chess.board b) in
  exists rd,
    Chess.get_result L b' = Some rd /\
    Chess.rd_moves rd = Z.of_nat (length (Chess.move_history b)) + 1 /\
    Chess.rd_winner rd =
      (if decide (reward = 1) then Some (colour_name mover)
       else if decide (reward = -1) then Some (colour_name (negb mover))
       else None).
Proof.
  unfold Chess.apply_move.
  destruct (Chess.is_legal _ _ _); [|discriminate].
  destruct (Chess.lib_is_game_over L (Chess.push L _ mv)) eqn:Hover; [|discriminate].
  intros [= <- <-]. set (mover := Chess.turn L (Chess.board b)).
  unfold Chess.get_result, Chess.is_game_over. simpl. rewrite Hover.
  assert (Hlen : Z.of_nat (length (Chess.move_history b ++ [mv]))
                 = Z.of_nat (length (Chess.move_history b)) + 1)
    by (rewrite length_app; simpl; lia).
  unfold Chess.reward_of.
  destruct (Chess.outcome _ _) as [[t [w|]]|]; eexists; (split; [reflexivity|]);
    (split; [exact Hlen|]); simpl; try reflexivity.
  destruct (decide (w = mover)) as [->|Hw].
  - simpl. by destruct mover.
  - simpl. destruct w, mover; simpl; done.
Qed.

Lemma chess_result_matches_reward_witness :
  exists rd,
    Chess.get_result Scripted.toy_lib
      (fst (Chess.apply_move Scripted.toy_lib
              (Chess.mkChessBoard (L := Scripted.toy_lib) 1%nat [0%nat] None) 2%nat))
      = Some rd /\
    Chess.rd_moves rd = Z.of_nat 1 + 1 /\
    Chess.rd_winner rd = Some "black".
Proof.
  apply (chess_result_matches_reward Scripted.toy_lib
           (Chess.mkChessBoard (L := Scripted.toy_lib) 1%nat [0%nat] None)
           (fst (Chess.apply_move Scripted.toy_lib
                   (Chess.mkChessBoard (L := Scripted.toy_lib) 1%nat [0%nat] None) 2%nat))
           2%nat 1).
  reflexivity.
Defined.

(** X9: [XiangqiPyffishBoard]: after the move that ends the game,
    [get_result()] names the side the reward speaks of in Red's terms:
    Red for reward 1, Black for -1, and a draw when the position has no
    side field and the reward is 0.  A second call answers the same. *)
Theorem pyffish_result_matches_reward (O : Pyffish.Oracle)
    (b b' : Pyffish.XiangqiPyffishBoard) (mv : Pyffish.XiangqiPyffishMove) (reward : Z) :
  (forall var fen, Pyffish.legal_moves2 O var fen <> inr []) ->
  Pyffish.result b = None ->
  Pyffish.apply_move O b mv = (b', inr (reward, true)) ->
  exists b'' rd,
    Pyffish.get_result O b' = (b'', rd) /\
    Pyffish.get_result O b'' = (b'', rd) /\
    Pyffish.rd_winner rd =
      Some (if decide (reward = 1) then "red"
            else if decide (reward = -1) then "black" else "draw").
Proof.
  intros Hfb Hres. unfold Pyffish.apply_move.
  destruct (Pyffish.legal_moves_compat O _ (Pyffish.current_fen b)) as [e|lm];
    [discriminate|].
  destruct (decide (_ ∈ lm)); [|discriminate].
  destruct (Pyffish.get_fen _ _ _ _) as [|fen']; [discriminate|].
  unfold Pyffish.check_termination. simpl.
  destruct (Pyffish.legal_moves_compat O _ fen') as [e'|next] eqn:Hnext;
    [discriminate|].
  destruct next as [|m next]; [|discriminate]. simpl.
  pose proof (compat_empty_of_fallback O _ _ Hfb Hnext) as H3.
  destruct (Pyffish.side_field fen') as [e'|c] eqn:Hside.
  - intros [= <- <-]. unfold Pyffish.get_result, Pyffish.is_game_over. simpl.
    rewrite H3, Hres, Hside. simpl.
    eexists _, _. split; [reflexivity|]. simpl. rewrite H3. simpl.
    split; reflexivity.
  - intros [= <- <-]. unfold Pyffish.get_result, Pyffish.is_game_over. simpl.
    rewrite H3. simpl.
    eexists _, _. split; [reflexivity|]. simpl. rewrite H3. simpl.
    split; [reflexivity|]. by destruct (bool_decide (c <> "w")).
Qed.

Lemma pyffish_result_matches_reward_witness :
  exists b'' rd,
    Pyffish.get_result Scripted.ending_oracle
      (fst (Pyffish.apply_move Scripted.ending_oracle Scripted.ending_board
              (Pyffish.mkXiangqiPyffishMove "b5b1"))) = (b'', rd) /\
    Pyffish.get_result Scripted.ending_oracle b'' = (b'', rd) /\
    Pyffish.rd_winner rd = Some "black".
Proof.
  apply (pyffish_result_matches_reward Scripted.ending_oracle Scripted.ending_board
           (fst (Pyffish.apply_move Scripted.ending_oracle Scripted.ending_board
                   (Pyffish.mkXiangqiPyffishMove "b5b1")))
           (Pyffish.mkXiangqiPyffishMove "b5b1") (-1)).
  - intros var fen. discriminate.
  - reflexivity.
  - reflexivity.
Defined.

(** X10: [XiangqiPyffishBoard.get_result] stores what it derives: whatever the
    board, a second call returns the same dictionary and changes nothing
    more, and no call touches the position or the history. *)
Theorem pyffish_get_result_stable (O : Pyffish.Oracle) (b : Pyffish.XiangqiPyffishBoard) :
  Pyffish.get_result O (fst (Pyffish.get_result O b))
    = (fst (Pyffish.get_result O b), snd (Pyffish.get_result O b)) /\
  Pyffish.current_fen (fst (Pyffish.get_result O b)) = Pyffish.current_fen b /\
  Pyffish.move_history (fst (Pyffish.get_result O b)) = Pyffish.move_history b.
Proof.
  unfold Pyffish.get_result.
  destruct (Pyffish.is_game_over O b) eqn:Hover; simpl.
  - destruct (Pyffish.result b) as [r|] eqn:Hres; simpl.
    + by rewrite Hover, Hres.
    + unfold Pyffish.is_game_over in *. simpl. by rewrite Hover.
  - by rewrite Hover.
Qed.

(** X11: [SimpleXiangqiBoard.make_move] and [XiangqiPyffishBoard.apply_move]
    are two writings of one step: when the oracle enumerates the moves of
    the position, a move the second lets through is let through by the
    first, to the same position, history and [done]; the first rewards
    the mover with 1 exactly when the game is done. *)
Theorem simple_follows_pyffish (O : Pyffish.Oracle)
    (b b' : Pyffish.XiangqiPyffishBoard) (mv : Pyffish.XiangqiPyffishMove)
    (reward : Z) (done : bool) :
  (forall var fen, Pyffish.legal_moves2 O var fen <> inr []) ->
  is_ok (Pyffish.legal_moves3 O (Pyffish.variant b) (Pyffish.current_fen b) []) = true ->
  Pyffish.apply_move O b mv = (b', inr (reward, done)) ->
  SimpleXiangqi.make_move O (as_simple b) (Pyffish.move_str mv)
    = (as_simple b', inr (if done then 1 else 0, done)).
Proof.
  intros Hfb Hok. unfold Pyffish.apply_move, SimpleXiangqi.make_move,
    SimpleXiangqi.get_legal_moves, Pyffish.legal_moves_compat at 1.
  simpl.
  destruct (Pyffish.legal_moves3 O _ (Pyffish.current_fen b) []) as [e|lm];
    [discriminate|]. cbn [ret].
  destruct (decide (_ ∈ lm)); [|discriminate].
  destruct (Pyffish.get_fen _ _ _ _) as [|fen']; [discriminate|].
  unfold Pyffish.check_termination. simpl.
  destruct (Pyffish.legal_moves_compat O _ fen') as [e'|next] eqn:Hnext.
  - intros [= <- <- <-]. unfold as_simple. simpl.
    unfold Pyffish.legal_moves_compat in Hnext.
    by destruct (Pyffish.legal_moves3 O _ fen' []).
  - destruct next as [|m next]; simpl.
    + pose proof (compat_empty_of_fallback O _ _ Hfb Hnext) as H3. rewrite H3.
      by destruct (Pyffish.side_field fen'); intros [= <- <- <-].
    + intros [= <- <- <-]. unfold as_simple. simpl.
      pose proof (GameOverClaims.compat_nonempty O _ _ _ Hnext) as Hne.
      destruct (Pyffish.legal_moves3 O _ fen' []) as [|[|m' l']]; try done.
      exfalso. by apply Hne.
Qed.

Lemma simple_follows_pyffish_witness :
  SimpleXiangqi.make_move Scripted.ending_oracle (as_simple Scripted.ending_board) "b5b1"
    = (as_simple (fst (Pyffish.apply_move Scripted.ending_oracle Scripted.ending_board
                         (Pyffish.mkXiangqiPyffishMove "b5b1"))),
       inr (1, true)).
Proof.
  apply (simple_follows_pyffish Scripted.ending_oracle Scripted.ending_board
           (fst (Pyffish.apply_move Scripted.ending_oracle Scripted.ending_board
                   (Pyffish.mkXiangqiPyffishMove "b5b1")))
           (Pyffish.mkXiangqiPyffishMove "b5b1") (-1) true).
  - intros var fen. discriminate.
  - reflexivity.
  - reflexivity.
Defined.

End BoardMore.

(** ** The chess environment *)

Module EnvMore.

Import Chess ChessEnvPy ChessEnvMore.

Lemma getitem_elem_of {A : Type} (l : list A) (i : Z) (a : A) :
  getitem l i = inr a -> a ∈ l.
Proof.
  unfold getitem. destruct (norm_index _ _) as [e|k]; [discriminate|]. simpl.
  destruct (l !! k) as [x|] eqn:Hx; [|discriminate].
  intros [= <-]. eapply list_elem_of_lookup_2; eauto.
Qed.

Lemma getitem_in_range {A : Type} (l : list A) (i : Z) :
  0 <= i < Z.of_nat (length l) ->
  exists a, l !! Z.to_nat i = Some a /\ getitem l i = inr a.
Proof.
  intros Hi. destruct (lookup_lt_is_Some_2 l (Z.to_nat i)) as [a Ha]; [lia|].
  exists a. split; [done|].
  replace i with (Z.of_nat (Z.to_nat i)) at 1 by lia. by apply getitem_lookup.
Qed.

Lemma norm_index_in_range (n : nat) (i : Z) :
  0 <= i < Z.of_nat n -> norm_index n i = inr (Z.to_nat i).
Proof. intros Hi. unfold norm_index. by destruct (decide _). Qed.

Section Index.

Context {A : Type} `{EqDecision A}.

Lemma list_index_spec (x : A) (l : list A) (i : Z) :
  list_index x l = inr i ->
  0 <= i < Z.of_nat (length l) /\ l !! Z.to_nat i = Some x /\
  forall j, (j < Z.to_nat i)%nat -> l !! j <> Some x.
Proof.
  revert i. induction l as [|y l IH]; intros i; simpl; [discriminate|].
  destruct (decide (y = x)) as [->|Hne].
  - intros [= <-]. split; [lia|]. split; [done|]. intros j Hj. simpl in Hj. lia.
  - destruct (list_index x l) as [e|i'] eqn:Hi'; [discriminate|].
    intros [= <-]. destruct (IH i' eq_refl) as (Hr & Hl & Hfirst).
    split; [lia|].
    replace (Z.to_nat (i' + 1)) with (S (Z.to_nat i')) by lia.
    split; [done|].
    intros [|j] Hj; simpl; [congruence|]. apply Hfirst. lia.
Qed.

Lemma list_index_raises (x : A) (l : list A) (e : exn) :
  list_index x l = inl e -> x ∉ l.
Proof.
  induction l as [|y l IH]; simpl; [intros _; apply not_elem_of_nil|].
  destruct (decide (y = x)) as [->|Hne]; [discriminate|].
  destruct (list_index x l) as [e'|i'] eqn:Hi'; [|discriminate].
  intros [= <-]. apply not_elem_of_cons. split; [congruence|]. by apply IH.
Qed.

Lemma list_index_NoDup (x : A) (l : list A) (k : nat) :
  NoDup l -> l !! k = Some x -> list_index x l = inr (Z.of_nat k).
Proof.
  intros Hnd Hk.
  destruct (list_index x l) as [e|i] eqn:Hi.
  - apply list_index_raises in Hi. exfalso. apply Hi.
    eapply list_elem_of_lookup_2; eauto.
  - apply list_index_spec in Hi as (Hr & Hl & _).
    pose proof (NoDup_lookup l _ _ x Hnd Hl Hk). f_equal. lia.
Qed.

End Index.

Section WithLib.

Context (L : Lib).
Context (chess_from_uci : string -> res (move L)).
Context (chess_move : Z -> Z -> option Z -> move L).

Local Abbreviation move_to_action := (ChessEnvMore.move_to_action L chess_from_uci chess_move).
Local Abbreviation as_chess_move := (ChessEnvMore.as_chess_move L chess_from_uci chess_move).

(** X12: [move_to_action] answers exactly for the legal moves: it returns the
    first index at which the move stands in the enumeration, an index
    between 0 and the number of legal moves that [action_to_move] maps
    back to the move; for a move that is not legal it raises
    [ValueError]. *)
Theorem move_to_action_legal (env : ChessEnv L) (arg : MoveArg L) (mv : move L) :
  as_chess_move arg = inr mv ->
  let legal := get_legal_moves L (board env) None in
  (mv ∈ legal ->
   exists a, move_to_action env arg = inr a /\
             0 <= a < Z.of_nat (length legal) /\
             action_to_move L env a = inr mv /\
             forall j, 0 <= j < a -> action_to_move L env j <> inr mv) /\
  (mv ∉ legal -> move_to_action env arg = inl ValueError).
Proof.
  intros Harg legal. unfold ChessEnvMore.move_to_action. rewrite Harg. cbn [bind].
  fold legal. split; intros Hin.
  - destruct (list_index mv legal) as [e|a] eqn:Ha.
    + apply list_index_raises in Ha. done.
    + destruct (list_index_spec _ _ _ Ha) as (Hr & Hl & Hfirst).
      exists a. split; [done|]. split; [done|].
      unfold action_to_move. fold legal. split.
      * destruct (decide _); [lia|].
        replace a with (Z.of_nat (Z.to_nat a)) by lia. by apply getitem_lookup.
      * intros j Hj. destruct (decide _); [done|].
        destruct (getitem_in_range legal j ltac:(lia)) as (x & Hx & ->).
        intros [= ->]. apply (Hfirst (Z.to_nat j)); [lia|done].
  - destruct (list_index mv legal) as [e|a] eqn:Ha; [done|].
    apply list_index_spec in Ha as (_ & Hl & _).
    exfalso. apply Hin. eapply list_elem_of_lookup_2; eauto.
Qed.

(** X13: When no move is enumerated twice, [move_to_action] undoes
    [action_to_move] on the indices from 0 on. *)
Theorem action_to_move_inverse (env : ChessEnv L) (a : Z) (mv : move L) :
  NoDup (get_legal_moves L (board env) None) ->
  0 <= a ->
  action_to_move L env a = inr mv ->
  move_to_action env (OfChessMove mv) = inr a.
Proof.
  intros Hnd Ha. unfold action_to_move, ChessEnvMore.move_to_action,
    ChessEnvMore.as_chess_move. cbn [bind ret].
  destruct (decide _); [discriminate|].
  destruct (getitem_in_range (get_legal_moves L (board env) None) a ltac:(lia))
    as (x & Hx & ->).
  intros [= ->].
  rewrite (list_index_NoDup _ _ _ Hnd Hx). unfold ret. f_equal. lia.
Qed.

(** X16: [step] and [action_to_move] reject the same indices in the same way
    and change nothing: with [n] legal moves, an index of [n] or more
    raises [ValueError], one below [-n] raises [IndexError], and no
    other index is rejected (those from [-n] to [-1] count from the end
    of the enumeration). *)
Theorem step_error_cases (env : ChessEnv L) (action : Z) (e : exn) :
  let n := Z.of_nat (length (get_legal_moves L (board env) None)) in
  (action_to_move L env action = inl e <->
   (n <= action /\ e = ValueError) \/ (action < - n /\ e = IndexError)) /\
  (action_to_move L env action = inl e -> step L env action = (env, inl e)).
Proof.
  intros n. subst n. unfold action_to_move, step.
  destruct (decide (action >= _)) as [Hge|Hlt].
  - split; [|by intros [= <-]]. split.
    + intros [= <-]. left. split; [lia|done].
    + intros [[_ ->]|[? _]]; [done|lia].
  - unfold getitem, norm_index.
    destruct (decide (0 <= action < _)) as [Hin|Hout].
    + cbn [bind ret].
      destruct (lookup_lt_is_Some_2 (get_legal_moves L (board env) None) (Z.to_nat action))
        as [mv Hmv]; [lia|].
      rewrite Hmv. split; [|done]. split; [done|]. intros [[? _]|[? _]]; lia.
    + destruct (decide (- _ <= action < 0)) as [Hneg|Hlow].
      * cbn [bind ret].
        destruct (lookup_lt_is_Some_2 (get_legal_moves L (board env) None)
                    (Z.to_nat (action + Z.of_nat (length (get_legal_moves L (board env) None)))))
          as [mv Hmv]; [lia|].
        rewrite Hmv. split; [|done]. split; [done|]. intros [[? _]|[? _]]; lia.
      * cbn [bind raise]. split; [|by intros [= <-]]. split.
        -- intros [= <-]. right. split; [lia|done].
        -- intros [[? _]|[_ ->]]; [lia|done].
Qed.

Section Mask.

Hypothesis squares : squares_in_range L.

Lemma mask_loop (mvs : list (move L)) :
  forall mask : list Z,
    length mask = 4096%nat ->
    (forall mv, mv ∈ mvs -> 0 <= mask_index L mv < 4096) ->
    exists mask',
      foldl (fun acc mv =>
               mask <- acc ;;
               let move_idx := from_square L mv * 64 + to_square L mv in
               Np.set1 4096 mask move_idx 1) (inr mask) mvs = inr mask' /\
      length mask' = 4096%nat /\
      forall j : nat,
        mask' !! j =
          if bool_decide (Exists (fun mv => mask_index L mv = Z.of_nat j) mvs)
          then Some 1 else mask !! j.
Proof.
  induction mvs as [|mv rest IH]; intros mask Hlen Hrange.
  - exists mask. split; [reflexivity|]. split; [done|]. intros j.
    rewrite bool_decide_eq_false_2; [done|]. by intros H%Exists_nil.
  - cbn [foldl bind].
    assert (Hmv : 0 <= mask_index L mv < 4096) by (apply Hrange; left).
    unfold mask_index in Hmv.
    unfold Np.set1 at 2.
    rewrite norm_index_in_range by lia. cbn [bind ret].
    set (k := Z.to_nat (from_square L mv * 64 + to_square L mv)).
    destruct (IH (<[ k := 1 ]> mask)) as (mask' & Hloop & Hlen' & Hspec).
    { by rewrite length_insert. }
    { intros mv' Hin. apply Hrange. by right. }
    exists mask'. split; [exact Hloop|]. split; [done|].
    intros j. rewrite Hspec.
    destruct (decide (j = k)) as [->|Hjk].
    + rewrite (bool_decide_eq_true_2 (Exists _ (mv :: rest))).
      * destruct (bool_decide _); [done|]. apply list_lookup_insert_eq. subst k; lia.
      * apply Exists_cons_hd. unfold mask_index. subst k. lia.
    + rewrite list_lookup_insert_ne by done.
      apply (f_equal (fun c : bool => if c then Some 1 else mask !! j)).
      apply bool_decide_ext. rewrite Exists_cons. split; [by right|].
      intros [Hhd|Htl]; [|done]. exfalso. apply Hjk. subst k.
      unfold mask_index in Hhd. lia.
Qed.

Lemma action_mask_returns (env : ChessEnv L) :
  exists mask, _get_action_mask L env = inr mask.
Proof.
  destruct (mask_loop (get_legal_moves L (board env) None) (Np.zeros 4096))
    as (mask & Hloop & _).
  - apply length_replicate.
  - intros mv Hin. apply squares in Hin. unfold mask_index. lia.
  - by exists mask.
Qed.

(** X14: The action mask has 4096 entries, and entry [j] is 1 exactly when a
    legal move goes from square [j // 64] to square [j % 64]; it raises
    for no position. *)
Theorem action_mask_marks_legal_moves (env : ChessEnv L) :
  exists mask,
    _get_action_mask L env = inr mask /\
    length mask = 4096%nat /\
    forall j : nat, (j < 4096)%nat ->
      mask !! j =
        Some (if bool_decide (Exists (fun mv => mask_index L mv = Z.of_nat j)
                                (get_legal_moves L (board env) None))
              then 1 else 0).
Proof.
  destruct (mask_loop (get_legal_moves L (board env) None) (Np.zeros 4096))
    as (mask & Hloop & Hlen & Hspec).
  - apply length_replicate.
  - intros mv Hin. apply squares in Hin. unfold mask_index. lia.
  - exists mask. split; [exact Hloop|]. split; [done|].
    intros j Hj. rewrite Hspec. destruct (bool_decide _); [done|].
    by apply TensorFacts.lookup_zeros.
Qed.

Hypothesis contract : Boards.chess_contract L.

(** X15: [step] with an index of a legal move never raises: it applies that
    move to the board, counts the step, passes [current_player] on, and
    returns the observation of the new position, the reward and [done]
    of [apply_move], [truncated] exactly when the step count has reached
    [max_steps], and the result in [info] exactly when the game is
    done. *)
Theorem step_in_range (env : ChessEnv L) (action : Z) :
  0 <= action < Z.of_nat (length (get_legal_moves L (board env) None)) ->
  exists mv b reward done obs info,
    get_legal_moves L (board env) None !! Z.to_nat action = Some mv /\
    apply_move L (board env) mv = (b, inr (reward, done)) /\
    step L env action =
      (mkChessEnv b (max_steps env) (steps env + 1) (negb (current_player env)) (rng env),
       inr (obs, reward, done, bool_decide (steps env + 1 >= max_steps env), info)) /\
    to_observation L b = inr obs /\
    done = is_game_over L b /\
    info_result info = (if done then Some (get_result L b) else None) /\
    info_legal_moves info = seqZ 0 (Z.of_nat (length (get_legal_moves L b None))) /\
    info_fen info = get_state_hash L b.
Proof.
  intros Ha.
  destruct (getitem_in_range _ action Ha) as (mv & Hmv & Hget).
  assert (Hin : mv ∈ legal_moves L (Chess.board (board env)))
    by (eapply list_elem_of_lookup_2; eauto).
  assert (Happ : exists b reward done,
            apply_move L (board env) mv = (b, inr (reward, done)) /\
            done = is_game_over L b).
  { unfold apply_move, is_game_over.
    rewrite (legal_moves_legal L _ _ Hin).
    destruct (lib_is_game_over L _) eqn:Hover; eexists _, _, _;
      (split; [reflexivity|]); simpl; by rewrite Hover. }
  destruct Happ as (b & reward & done & Happ & ->).
  destruct (ChessObservation.chess_observation L b) as (obs & Hobs & _).
  { intros sq pc. apply (Boards.piece_types L contract). }
  destruct (action_mask_returns
              (mkChessEnv b (max_steps env) (steps env + 1)
                 (negb (current_player env)) (rng env))) as (mask & Hmask).
  unfold step. destruct (decide _); [lia|].
  rewrite Hget, Happ. cbn zeta. rewrite Hmask, Hobs. cbn [bind ret].
  eexists mv, b, reward, (is_game_over L b), obs, _.
  split; [done|]. split; [done|]. split; [reflexivity|]. by repeat split.
Qed.

Hypothesis white_first : turn L (initial L) = true.

Lemma call_keeps_in_step (env : ChessEnv L) (c : Call) :
  in_step L env -> in_step L (call L env c) /\ max_steps (call L env c) = max_steps env.
Proof.
  intros (Hsteps & Hturn & Heven). destruct c as [s|s|a]; simpl.
  - split; [|by destruct s]. destruct s; repeat split; simpl; by rewrite ?white_first.
  - done.
  - unfold step.
    destruct (decide _); [done|].
    destruct (getitem _ a) as [e|mv] eqn:Hget; [done|].
    apply getitem_elem_of in Hget.
    unfold apply_move. rewrite (legal_moves_legal L _ _ Hget).
    assert (Hgoal : forall r,
      in_step L (mkChessEnv (mkChessBoard (push L (Chess.board (board env)) mv)
                             (move_history (board env) ++ [mv]) r)
                 (max_steps env) (steps env + 1) (negb (current_player env)) (rng env))).
    { intros r. unfold in_step. simpl.
      rewrite length_app, (Boards.push_passes_turn L contract _ _ Hget). simpl.
      rewrite Nat.add_1_r, ScriptedFacts.even_succ_negb, <- Heven, <- Hturn.
      split; [lia|done]. }
    destruct (lib_is_game_over L _); simpl; split; try done; apply Hgoal.
Qed.

(** X17: However a [ChessEnv] is used after its creation, by [reset], [seed]
    and [step] calls that return or raise: [steps] is the number of moves
    in the board's history, [current_player] is the side python-chess has
    to move, White exactly after an even number of moves, and
    [max_steps] is what the constructor was given. *)
Theorem env_follows_board (max_steps_arg : option Z) (cs : list Call) :
  let env := calls L (init L max_steps_arg) cs in
  steps env = Z.of_nat (length (move_history (board env))) /\
  current_player env = turn L (Chess.board (board env)) /\
  current_player env = Nat.even (length (move_history (board env))) /\
  max_steps env = default DEFAULT_MAX_STEPS max_steps_arg.
Proof.
  intros env. subst env.
  assert (H0 : in_step L (init L max_steps_arg) /\
               max_steps (init L max_steps_arg) = default DEFAULT_MAX_STEPS max_steps_arg).
  { split; [|done]. repeat split; simpl; by rewrite ?white_first. }
  revert H0. generalize (init L max_steps_arg).
  unfold calls. induction cs as [|c cs IH]; intros env [Hin Hmax].
  - destruct Hin as (? & ? & ?). done.
  - simpl. apply IH.
    destruct (call_keeps_in_step env c Hin) as [Hin' Hmax'].
    split; [done|]. by rewrite Hmax'.
Qed.

End Mask.

End WithLib.

Lemma toy_lib_squares : squares_in_range Scripted.toy_lib.
Proof.
  intros p mv. simpl. destruct (p <? 2)%nat; [|by intros H%elem_of_nil].
  intros H. repeat (apply elem_of_cons in H as [->|H]; [lia|]).
  by apply elem_of_nil in H.
Qed.

Lemma move_to_action_legal_witness :
  let env := init Scripted.toy_lib None in
  let arg : MoveArg Scripted.toy_lib :=
    OfMove (MovePy.mkMove 1 9 None None) in
  let to_action :=
    ChessEnvMore.move_to_action Scripted.toy_lib (fun _ => raise ValueError)
      (fun f _ _ => Z.to_nat f) env in
  let legal := get_legal_moves Scripted.toy_lib (board env) None in
  (1%nat ∈ legal ->
   exists a, to_action arg = inr a /\
             0 <= a < Z.of_nat (length legal) /\
             action_to_move Scripted.toy_lib env a = inr 1%nat /\
             forall j, 0 <= j < a -> action_to_move Scripted.toy_lib env j <> inr 1%nat) /\
  (1%nat ∉ legal -> to_action arg = inl ValueError).
Proof.
  apply (move_to_action_legal Scripted.toy_lib (fun _ => raise ValueError)
           (fun f _ _ => Z.to_nat f) (init Scripted.toy_lib None)
           (OfMove (MovePy.mkMove 1 9 None None)) 1%nat).
  reflexivity.
Defined.

Lemma action_to_move_inverse_witness :
  ChessEnvMore.move_to_action Scripted.toy_lib (fun _ => raise ValueError)
    (fun f _ _ => Z.to_nat f) (init Scripted.toy_lib None) (@OfChessMove Scripted.toy_lib 2%nat) = inr 2.
Proof.
  apply (action_to_move_inverse Scripted.toy_lib (fun _ => raise ValueError)
           (fun f _ _ => Z.to_nat f) (init Scripted.toy_lib None) 2 2%nat).
  - simpl. apply (bool_decide_eq_true_1 _). reflexivity.
  - lia.
  - reflexivity.
Defined.

Lemma action_mask_marks_legal_moves_witness :
  let env := init Scripted.toy_lib None in
  exists mask,
    _get_action_mask Scripted.toy_lib env = inr mask /\
    length mask = 4096%nat /\
    forall j : nat, (j < 4096)%nat ->
      mask !! j =
        Some (if bool_decide (Exists (fun mv => mask_index Scripted.toy_lib mv = Z.of_nat j)
                                (get_legal_moves Scripted.toy_lib (board env) None))
              then 1 else 0).
Proof.
  apply (action_mask_marks_legal_moves Scripted.toy_lib toy_lib_squares
           (init Scripted.toy_lib None)).
Defined.

Lemma step_in_range_witness :
  let env := init Scripted.toy_lib None in
  exists mv b reward done obs info,
    get_legal_moves Scripted.toy_lib (board env) None !! Z.to_nat 1 = Some mv /\
    apply_move Scripted.toy_lib (board env) mv = (b, inr (reward, done)) /\
    step Scripted.toy_lib env 1 =
      (mkChessEnv b (max_steps env) (steps env + 1) (negb (current_player env)) (rng env),
       inr (obs, reward, done, bool_decide (steps env + 1 >= max_steps env), info)) /\
    to_observation Scripted.toy_lib b = inr obs /\
    done = is_game_over Scripted.toy_lib b /\
    info_result info = (if done then Some (get_result Scripted.toy_lib b) else None) /\
    info_legal_moves info
      = seqZ 0 (Z.of_nat (length (get_legal_moves Scripted.toy_lib b None))) /\
    info_fen info = get_state_hash Scripted.toy_lib b.
Proof.
  apply (step_in_range Scripted.toy_lib toy_lib_squares ScriptedFacts.toy_lib_contract
           (init Scripted.toy_lib None) 1).
  simpl. lia.
Defined.

Lemma env_follows_board_witness :
  let env := calls Scripted.toy_lib (init Scripted.toy_lib (Some 3))
               [CallStep 0; CallStep (-1); CallStep 7; CallReset (Some 11);
                CallSeed None; CallStep 2] in
  steps env = Z.of_nat (length (move_history (board env))) /\
  current_player env = turn Scripted.toy_lib (Chess.board (board env)) /\
  current_player env = Nat.even (length (move_history (board env))) /\
  max_steps env = default DEFAULT_MAX_STEPS (Some 3).
Proof.
  apply (env_follows_board Scripted.toy_lib ScriptedFacts.toy_lib_contract eq_refl
           (Some 3)
           [CallStep 0; CallStep (-1); CallStep 7; CallReset (Some 11);
            CallSeed None; CallStep 2]).
Defined.

End EnvMore.

(** ** The observation tensors, cell by cell *)

Module CellFacts.

Import TensorFacts Cells.

(** Writing a one into a cell changes that cell and no other. *)
Lemma insert_cell (P H W : nat) (obs : list Z) (p0 r0 c0 p r c : nat) :
  length obs = (P * H * W)%nat ->
  (p0 < P)%nat -> (r0 < H)%nat -> (c0 < W)%nat ->
  (r < H)%nat -> (c < W)%nat ->
  <[ Np.flat3 H W p0 r0 c0 := 1 ]> obs !! Np.flat3 H W p r c =
    if decide (p = p0 /\ r = r0 /\ c = c0) then Some 1
    else obs !! Np.flat3 H W p r c.
Proof.
  intros Hlen Hp0 Hr0 Hc0 Hr Hc.
  destruct (decide _) as [(-> & -> & ->)|Hne].
  - apply list_lookup_insert_eq. rewrite Hlen. by apply flat3_lt.
  - apply list_lookup_insert_ne. intros Heq.
    apply flat3_inj in Heq as (-> & -> & ->); try done. by apply Hne.
Qed.

(** Two tensors of one shape that agree on every cell are equal. *)
Lemma cells_ext (P H W : nat) (l1 l2 : list Z) :
  length l1 = (P * H * W)%nat -> length l2 = (P * H * W)%nat ->
  (forall p r c, (p < P)%nat -> (r < H)%nat -> (c < W)%nat ->
     l1 !! Np.flat3 H W p r c = l2 !! Np.flat3 H W p r c) ->
  l1 = l2.
Proof.
  intros H1 H2 Hcells. apply list_eq. intros i.
  destruct (decide (i < P * H * W)%nat) as [Hi|Hi].
  - assert (HW : (0 < W)%nat) by (destruct W; [lia|lia]).
    assert (HH : (0 < H)%nat) by (destruct H; [lia|lia]).
    pose proof (Nat.div_mod_eq i W) as Ei.
    pose proof (Nat.div_mod_eq (i / W) H) as Eq.
    pose proof (Nat.mod_upper_bound i W ltac:(lia)) as Bc.
    pose proof (Nat.mod_upper_bound (i / W) H ltac:(lia)) as Br.
    assert (Bp : (i / W / H < P)%nat).
    { apply Nat.Div0.div_lt_upper_bound. apply Nat.Div0.div_lt_upper_bound. lia. }
    specialize (Hcells (i / W / H)%nat ((i / W) mod H)%nat (i mod W)%nat Bp Br Bc).
    unfold Np.flat3 in Hcells.
    replace ((i / W / H * H + (i / W) mod H) * W + i mod W)%nat with i in Hcells by lia.
    exact Hcells.
  - rewrite !lookup_ge_None_2 by lia. done.
Qed.

Section Chess.

Import Chess.

Context (L : Lib) (b : ChessBoard L).

Hypothesis types_ok : forall sq pc,
  piece_at L (board b) sq = Some pc -> 1 <= piece_type pc <= 6.

Lemma square_at_inj (r c r' c' : nat) :
  (c < 8)%nat -> (c' < 8)%nat -> square_at r c = square_at r' c' -> r = r' /\ c = c'.
Proof. unfold square_at. lia. Qed.

Lemma observe_square_cells (sq : Z) (obs : list Z) :
  0 <= sq < 64 -> length obs = (12 * 8 * 8)%nat ->
  exists obs',
    observe_square L b (inr obs) sq = inr obs' /\
    length obs' = (12 * 8 * 8)%nat /\
    forall p r c, (p < 12)%nat -> (r < 8)%nat -> (c < 8)%nat ->
      obs' !! Np.flat3 8 8 p r c =
        if decide (square_at r c = sq /\ plane_at L b sq = Some (Z.of_nat p))
        then Some 1 else obs !! Np.flat3 8 8 p r c.
Proof.
  intros Hsq Hlen. unfold observe_square, plane_at. cbn [bind].
  destruct (piece_at L (board b) sq) as [pc|] eqn:Hpc; cbn [mbind option_bind].
  - destruct (ChessObservation.plane_in_range _ (color pc) (types_ok _ _ Hpc))
      as (p0 & Hp0 & Hlt).
    rewrite Hp0.
    assert (Hdiv : 0 <= sq / 8 < 8)
      by (split; [apply Z.div_pos|apply Z.div_lt_upper_bound]; lia).
    assert (Hmod : 0 <= sq mod 8 < 8) by (apply Z.mod_pos_bound; lia).
    set (r0 := Z.to_nat (7 - sq / 8)). set (c0 := Z.to_nat (sq mod 8)).
    replace (7 - sq / 8) with (Z.of_nat r0) by (subst r0; lia).
    replace (sq mod 8) with (Z.of_nat c0) by (subst c0; lia).
    unfold NUM_PLANES, BOARD_SIZE.
    rewrite set3_in_range by (subst r0 c0; lia).
    eexists. split; [reflexivity|]. split; [by rewrite length_insert|].
    intros p r c Hp Hr Hc.
    rewrite (insert_cell 12 8 8) by (subst r0 c0; lia || done).
    assert (Hsq0 : square_at r0 c0 = sq).
    { unfold square_at. subst r0 c0. pose proof (Z.div_mod sq 8). lia. }
    destruct (decide (p = p0 /\ _)) as [(Hp' & Hr' & Hc')|Hne];
      destruct (decide (square_at r c = sq /\ _)) as [[Hs Hpl]|Hne']; try done.
    + exfalso. apply Hne'. rewrite Hp', Hr', Hc'. done.
    + exfalso. apply Hne. injection Hpl as Hpl.
      rewrite <- Hsq0 in Hs. apply square_at_inj in Hs as [Hr' Hc']; [|lia|subst c0; lia].
      split; [lia|done].
  - exists obs. split; [reflexivity|]. split; [done|].
    intros p r c _ _ _. destruct (decide _) as [[_ ?]|]; done.
Qed.

Lemma observe_squares_cells (len : nat) :
  forall (k : Z) (obs : list Z),
    0 <= k -> k + Z.of_nat len <= 64 -> length obs = (12 * 8 * 8)%nat ->
    exists obs',
      foldl (observe_square L b) (inr obs) (seqZ k (Z.of_nat len)) = inr obs' /\
      length obs' = (12 * 8 * 8)%nat /\
      forall p r c, (p < 12)%nat -> (r < 8)%nat -> (c < 8)%nat ->
        obs' !! Np.flat3 8 8 p r c =
          if decide (k <= square_at r c < k + Z.of_nat len /\
                     plane_at L b (square_at r c) = Some (Z.of_nat p))
          then Some 1 else obs !! Np.flat3 8 8 p r c.
Proof.
  induction len as [|len IH]; intros k obs Hk Hlen Hobs.
  - exists obs. split; [reflexivity|]. split; [done|].
    intros p r c _ _ _. destruct (decide _) as [[? _]|]; [lia|done].
  - rewrite seqZ_cons by lia.
    replace (Z.pred (Z.of_nat (S len))) with (Z.of_nat len) by lia.
    cbn [foldl].
    destruct (observe_square_cells k obs) as (obs1 & Hstep & Hlen1 & Hcells1); [lia|done|].
    rewrite Hstep.
    destruct (IH (Z.succ k) obs1 ltac:(lia) ltac:(lia) Hlen1) as (obs' & Hloop & Hlen' & Hcells).
    exists obs'. split; [exact Hloop|]. split; [done|].
    intros p r c Hp Hr Hc.
    rewrite (Hcells p r c Hp Hr Hc), (Hcells1 p r c Hp Hr Hc).
    destruct (decide (Z.succ k <= _ < _ /\ _)) as [[Hin Hpl]|Hout].
    + rewrite decide_True; [done|]. split; [lia|done].
    + destruct (decide (square_at r c = k /\ _)) as [[Hin'' Hpl'']|Hout''].
      * rewrite decide_True; [done|]. rewrite Hin''. split; [lia|done].
      * rewrite decide_False; [done|]. intros [Hin' Hpl'].
        destruct (decide (square_at r c = k)) as [Heq|Hneq].
        -- apply Hout''. split; [done|]. by rewrite <- Heq.
        -- apply Hout. split; [lia|done].
Qed.

End Chess.

Lemma chess_cells (L : Chess.Lib) (b : Chess.ChessBoard L) :
  (forall sq pc, Chess.piece_at L (Chess.board b) sq = Some pc ->
                 1 <= Chess.piece_type pc <= 6) ->
  exists obs,
    Chess.to_observation L b = inr obs /\
    length obs = (12 * 8 * 8)%nat /\
    forall p r c, (p < 12)%nat -> (r < 8)%nat -> (c < 8)%nat ->
      obs !! Np.flat3 8 8 p r c =
        Some (if decide (plane_at L b (square_at r c) = Some (Z.of_nat p))
              then 1 else 0).
Proof.
  intros Htypes.
  destruct (observe_squares_cells L b Htypes 64 0 (Np.zeros (12 * 8 * 8)))
    as (obs & Hloop & Hlen & Hcells); [lia|lia|apply length_replicate|].
  exists obs. split; [exact Hloop|]. split; [exact Hlen|].
  intros p r c Hp Hr Hc. rewrite (Hcells p r c Hp Hr Hc).
  rewrite lookup_zeros by (by apply flat3_lt).
  destruct (decide (_ /\ _)) as [[_ Hpl]|Hout]; destruct (decide _) as [Hpl'|Hn];
    try done.
  exfalso. apply Hout. split; [unfold square_at; lia|done].
Qed.

Lemma plane_at_piece (L : Chess.Lib) (b : Chess.ChessBoard L) (sq : Z) (pc : Chess.Piece) :
  1 <= Chess.piece_type pc <= 6 ->
  Chess.piece_at L (Chess.board b) sq = Some pc ->
  plane_at L b sq =
    Some (if Chess.color pc then Chess.piece_type pc - 1 else Chess.piece_type pc + 5).
Proof.
  intros Ht Hpc. unfold plane_at. rewrite Hpc. cbn [mbind option_bind].
  assert (Chess.piece_type pc = 1 \/ Chess.piece_type pc = 2 \/ Chess.piece_type pc = 3 \/
          Chess.piece_type pc = 4 \/ Chess.piece_type pc = 5 \/ Chess.piece_type pc = 6)
    as [-> | [-> | [-> | [-> | [-> | ->]]]]] by lia;
    destruct (Chess.color pc); reflexivity.
Qed.

(** X18: [ChessBoard.to_observation] shows the position cell by cell: the
    tensor has 12 * 8 * 8 entries, and the entry of plane [p], row [r],
    column [c] is 1 exactly when the piece on the square of rank [8 - r]
    and file [c] has plane [p], and 0 otherwise; the plane of a piece is
    its type minus one for White and its type plus five for Black. *)
Theorem chess_observation_cells (L : Chess.Lib) (b : Chess.ChessBoard L) :
  (forall sq pc, Chess.piece_at L (Chess.board b) sq = Some pc ->
                 1 <= Chess.piece_type pc <= 6) ->
  exists obs,
    Chess.to_observation L b = inr obs /\
    length obs = (12 * 8 * 8)%nat /\
    (forall p r c, (p < 12)%nat -> (r < 8)%nat -> (c < 8)%nat ->
       obs !! Np.flat3 8 8 p r c =
         Some (if decide (plane_at L b (square_at r c) = Some (Z.of_nat p))
               then 1 else 0)) /\
    (forall sq pc, Chess.piece_at L (Chess.board b) sq = Some pc ->
       plane_at L b sq =
         Some (if Chess.color pc then Chess.piece_type pc - 1
               else Chess.piece_type pc + 5)).
Proof.
  intros Htypes.
  destruct (chess_cells L b Htypes) as (obs & Hobs & Hlen & Hcells).
  exists obs. split; [exact Hobs|]. split; [exact Hlen|]. split; [exact Hcells|].
  intros sq pc Hpc. apply plane_at_piece; [|done]. by apply (Htypes sq).
Qed.

Lemma chess_observation_cells_witness :
  let b := Chess.mkChessBoard (L := Scripted.toy_lib) 0%nat [] None in
  exists obs,
    Chess.to_observation Scripted.toy_lib b = inr obs /\
    length obs = (12 * 8 * 8)%nat /\
    (forall p r c, (p < 12)%nat -> (r < 8)%nat -> (c < 8)%nat ->
       obs !! Np.flat3 8 8 p r c =
         Some (if decide (plane_at Scripted.toy_lib b (square_at r c) = Some (Z.of_nat p))
               then 1 else 0)) /\
    (forall sq pc, Chess.piece_at Scripted.toy_lib (Chess.board b) sq = Some pc ->
       plane_at Scripted.toy_lib b sq =
         Some (if Chess.color pc then Chess.piece_type pc - 1
               else Chess.piece_type pc + 5)).
Proof.
  apply (chess_observation_cells Scripted.toy_lib
           (Chess.mkChessBoard (L := Scripted.toy_lib) 0%nat [] None)).
  apply (Boards.piece_types Scripted.toy_lib ScriptedFacts.toy_lib_contract).
Defined.

(** X19: The observation of a [ChessBoard] is a picture of the pieces on the 64
    squares and of nothing else: two boards have the same observation
    exactly when every square holds the same piece on both, whatever
    their side to move, history or castling rights. *)
Theorem chess_observation_faithful (L : Chess.Lib) (b1 b2 : Chess.ChessBoard L) :
  (forall sq pc, Chess.piece_at L (Chess.board b1) sq = Some pc ->
                 1 <= Chess.piece_type pc <= 6) ->
  (forall sq pc, Chess.piece_at L (Chess.board b2) sq = Some pc ->
                 1 <= Chess.piece_type pc <= 6) ->
  Chess.to_observation L b1 = Chess.to_observation L b2 <->
  forall sq, 0 <= sq < 64 ->
    Chess.piece_at L (Chess.board b1) sq = Chess.piece_at L (Chess.board b2) sq.
Proof.
  intros T1 T2.
  destruct (chess_cells L b1 T1) as (obs1 & Ho1 & Hl1 & Hc1).
  destruct (chess_cells L b2 T2) as (obs2 & Ho2 & Hl2 & Hc2).
  rewrite Ho1, Ho2. split.
  - intros [= <-] sq Hsq.
    assert (Hdiv : 0 <= sq / 8 < 8)
      by (split; [apply Z.div_pos|apply Z.div_lt_upper_bound]; lia).
    assert (Hmod : 0 <= sq mod 8 < 8) by (apply Z.mod_pos_bound; lia).
    assert (Hsq0 : square_at (Z.to_nat (7 - sq / 8)) (Z.to_nat (sq mod 8)) = sq).
    { unfold square_at. pose proof (Z.div_mod sq 8). lia. }
    assert (Hsame : forall z, 0 <= z < 12 ->
              plane_at L b1 sq = Some z <-> plane_at L b2 sq = Some z).
    { intros z Hz.
      pose proof (Hc1 (Z.to_nat z) (Z.to_nat (7 - sq / 8)) (Z.to_nat (sq mod 8))
                    ltac:(lia) ltac:(lia) ltac:(lia)) as E1.
      pose proof (Hc2 (Z.to_nat z) (Z.to_nat (7 - sq / 8)) (Z.to_nat (sq mod 8))
                    ltac:(lia) ltac:(lia) ltac:(lia)) as E2.
      rewrite E1, Hsq0 in E2. replace (Z.of_nat (Z.to_nat z)) with z in E2 by lia.
      destruct (decide (_ = Some z)) as [Ha|Ha];
        destruct (decide (_ = Some z)) as [Hb|Hb]; try done. }
    destruct (Chess.piece_at L (Chess.board b1) sq) as [pc1|] eqn:E1;
      destruct (Chess.piece_at L (Chess.board b2) sq) as [pc2|] eqn:E2; try done.
    + pose proof (T1 _ _ E1) as R1. pose proof (T2 _ _ E2) as R2.
      pose proof (plane_at_piece L b1 sq pc1 R1 E1) as P1.
      pose proof (plane_at_piece L b2 sq pc2 R2 E2) as P2.
      apply Hsame in P1; [|destruct (Chess.color pc1); lia].
      rewrite P1 in P2. injection P2 as P2.
      destruct pc1 as [t1 [|]], pc2 as [t2 [|]]; simpl in *; f_equal; f_equal; lia.
    + pose proof (plane_at_piece L b1 sq pc1 (T1 _ _ E1) E1) as P1.
      apply Hsame in P1; [|pose proof (T1 _ _ E1); destruct (Chess.color pc1); lia].
      unfold plane_at in P1. rewrite E2 in P1. done.
    + pose proof (plane_at_piece L b2 sq pc2 (T2 _ _ E2) E2) as P2.
      apply Hsame in P2; [|pose proof (T2 _ _ E2); destruct (Chess.color pc2); lia].
      unfold plane_at in P2. rewrite E1 in P2. done.
  - intros Hsame. f_equal.
    apply (cells_ext 12 8 8); [done|done|].
    intros p r c Hp Hr Hc.
    rewrite (Hc1 p r c Hp Hr Hc), (Hc2 p r c Hp Hr Hc).
    unfold plane_at. rewrite (Hsame (square_at r c)) by (unfold square_at; lia). done.
Qed.

Lemma chess_observation_faithful_witness :
  Chess.to_observation Scripted.toy_lib
    (Chess.mkChessBoard (L := Scripted.toy_lib) 0%nat [] None)
  = Chess.to_observation Scripted.toy_lib
      (Chess.mkChessBoard (L := Scripted.toy_lib) 1%nat [2%nat] None)
  <->
  forall sq, 0 <= sq < 64 ->
    Chess.piece_at Scripted.toy_lib 0%nat sq = Chess.piece_at Scripted.toy_lib 1%nat sq.
Proof.
  apply (chess_observation_faithful Scripted.toy_lib
           (Chess.mkChessBoard (L := Scripted.toy_lib) 0%nat [] None)
           (Chess.mkChessBoard (L := Scripted.toy_lib) 1%nat [2%nat] None)).
  - apply (Boards.piece_types Scripted.toy_lib ScriptedFacts.toy_lib_contract).
  - apply (Boards.piece_types Scripted.toy_lib ScriptedFacts.toy_lib_contract).
Defined.

Section Native.

Import Xiangqi.

Context (b : XiangqiBoard).

Hypothesis grid : grid_ok (board b).

Lemma observe_cell_cells (i : nat) (obs : list Z) :
  (i < 90)%nat -> length obs = (14 * 10 * 9)%nat ->
  exists obs',
    observe_cell b (inr obs) (cell_of i) = inr obs' /\
    length obs' = (14 * 10 * 9)%nat /\
    forall p r c, (p < 14)%nat -> (r < 10)%nat -> (c < 9)%nat ->
      obs' !! Np.flat3 10 9 p r c =
        if decide ((r * 9 + c)%nat = i /\
                   code_at b r c ≫= plane_of_code = Some (Z.of_nat p))
        then Some 1 else obs !! Np.flat3 10 9 p r c.
Proof.
  intros Hi Hlen. destruct grid as [Hglen Hrange].
  assert (Hr : (i / 9 < 10)%nat) by (apply Nat.Div0.div_lt_upper_bound; lia).
  assert (Hc : (i mod 9 < 9)%nat) by (apply Nat.mod_upper_bound; lia).
  assert (Hflat : (i / 9 * 9 + i mod 9 = i)%nat) by (pose proof (Nat.div_mod_eq i 9); lia).
  destruct (get2_in_range 10 9 (board b) (i / 9) (i mod 9) Hr Hc Hglen) as (v & Hv & Hget).
  rewrite Hflat in Hv.
  unfold observe_cell, cell_of. cbn [bind].
  unfold BOARD_HEIGHT, BOARD_WIDTH. rewrite Hget. cbn [bind].
  assert (Hvr : -7 <= v <= 7).
  { rewrite Forall_forall in Hrange. apply Hrange.
    eapply list_elem_of_lookup_2; eauto. }
  destruct (decide (v <> 0)) as [Hnz|Hz].
  - set (plane := if 0 <? v then Z.abs v - 1 else Z.abs v + 6).
    assert (Hplane : 0 <= plane < 14) by (unfold plane; destruct (Z.ltb_spec 0 v); lia).
    replace plane with (Z.of_nat (Z.to_nat plane)) by lia.
    unfold NUM_PLANES. rewrite set3_in_range by lia.
    eexists. split; [reflexivity|]. split; [by rewrite length_insert|].
    intros p r c Hp Hr' Hc'.
    rewrite (insert_cell 14 10 9) by (lia || done).
    apply decide_ext. unfold code_at. split.
    + intros (-> & -> & ->). split; [done|]. rewrite Hflat, Hv.
      cbn [mbind option_bind]. unfold plane_of_code.
      rewrite decide_True by done. fold plane. f_equal. lia.
    + intros [Hrc Hpl]. rewrite Hrc, Hv in Hpl. cbn [mbind option_bind] in Hpl.
      unfold plane_of_code in Hpl. rewrite decide_True in Hpl by done.
      fold plane in Hpl. injection Hpl as Hpl.
      split; [lia|]. rewrite <- Hrc.
      split; [apply Nat.div_unique with c; lia|apply Nat.mod_unique with r; lia].
  - exists obs. split; [reflexivity|]. split; [done|].
    intros p r c _ _ _. rewrite decide_False; [done|].
    intros [Hrc Hpl]. unfold code_at in Hpl. rewrite Hrc, Hv in Hpl.
    cbn [mbind option_bind] in Hpl. unfold plane_of_code in Hpl.
    by rewrite decide_False in Hpl.
Qed.

Lemma observe_cells_cells (len : nat) :
  forall (k : nat) (obs : list Z),
    (k + len <= 90)%nat -> length obs = (14 * 10 * 9)%nat ->
    exists obs',
      foldl (observe_cell b) (inr obs) (cell_of <$> seq k len) = inr obs' /\
      length obs' = (14 * 10 * 9)%nat /\
      forall p r c, (p < 14)%nat -> (r < 10)%nat -> (c < 9)%nat ->
        obs' !! Np.flat3 10 9 p r c =
          if decide ((k <= r * 9 + c < k + len)%nat /\
                     code_at b r c ≫= plane_of_code = Some (Z.of_nat p))
          then Some 1 else obs !! Np.flat3 10 9 p r c.
Proof.
  induction len as [|len IH]; intros k obs Hlen Hobs.
  - exists obs. split; [reflexivity|]. split; [done|].
    intros p r c _ _ _. rewrite decide_False; [done|]. intros [? _]. lia.
  - cbn [seq fmap list_fmap foldl].
    destruct (observe_cell_cells k obs) as (obs1 & Hstep & Hlen1 & Hcells1); [lia|done|].
    rewrite Hstep.
    destruct (IH (S k) obs1 ltac:(lia) Hlen1) as (obs' & Hloop & Hlen' & Hcells).
    exists obs'. split; [exact Hloop|]. split; [done|].
    intros p r c Hp Hr Hc.
    rewrite (Hcells p r c Hp Hr Hc), (Hcells1 p r c Hp Hr Hc).
    destruct (decide ((S k <= _ < _)%nat /\ _)) as [[Hin Hpl]|Hout].
    + rewrite decide_True; [done|]. split; [lia|done].
    + apply decide_ext. split.
      * intros [Hrc Hpl]. split; [lia|done].
      * intros [Hin Hpl]. split; [|done].
        destruct (decide ((r * 9 + c)%nat = k)) as [Heq|Hne]; [done|].
        exfalso. apply Hout. split; [lia|done].
Qed.

Lemma xiangqi_cells :
  exists obs,
    to_observation b = inr obs /\
    length obs = (14 * 10 * 9)%nat /\
    forall p r c, (p < 14)%nat -> (r < 10)%nat -> (c < 9)%nat ->
      obs !! Np.flat3 10 9 p r c =
        Some (if decide (code_at b r c ≫= plane_of_code = Some (Z.of_nat p))
              then 1 else 0).
Proof.
  destruct (observe_cells_cells 90 0 (Np.zeros (14 * 10 * 9)))
    as (obs & Hloop & Hlen & Hcells); [lia|apply length_replicate|].
  exists obs. unfold to_observation. rewrite XiangqiObservation.cells_flat.
  split; [exact Hloop|]. split; [exact Hlen|].
  intros p r c Hp Hr Hc. rewrite (Hcells p r c Hp Hr Hc).
  rewrite lookup_zeros by (by apply flat3_lt).
  destruct (decide (_ /\ _)) as [[_ Hpl]|Hout]; destruct (decide _) as [Hpl'|Hn];
    try done.
  exfalso. apply Hout. split; [lia|done].
Qed.

End Native.

Lemma plane_of_code_inj (v1 v2 : Z) :
  -7 <= v1 <= 7 -> -7 <= v2 <= 7 ->
  plane_of_code v1 = plane_of_code v2 -> v1 = v2.
Proof.
  unfold plane_of_code. intros H1 H2.
  destruct (decide (v1 <> 0)), (decide (v2 <> 0)); try done; try lia.
  destruct (Z.ltb_spec 0 v1), (Z.ltb_spec 0 v2); intros [= Heq]; lia.
Qed.

(** X20: [XiangqiBoard.to_observation] shows the grid point by point, and
    nothing else of the board: the entry of plane [p], row [r], column
    [c] is 1 exactly when the point holds a piece whose kind, minus one
    for Red and plus six for Black, is [p]; and two well-formed boards
    have the same observation exactly when their grids are equal. *)
Theorem xiangqi_observation_cells (b b2 : Xiangqi.XiangqiBoard) :
  Xiangqi.grid_ok (Xiangqi.board b) -> Xiangqi.grid_ok (Xiangqi.board b2) ->
  (exists obs,
     Xiangqi.to_observation b = inr obs /\
     length obs = (14 * 10 * 9)%nat /\
     forall p r c, (p < 14)%nat -> (r < 10)%nat -> (c < 9)%nat ->
       obs !! Np.flat3 10 9 p r c =
         Some (if decide (code_at b r c ≫= plane_of_code = Some (Z.of_nat p))
               then 1 else 0)) /\
  (Xiangqi.to_observation b = Xiangqi.to_observation b2 <->
   Xiangqi.board b = Xiangqi.board b2).
Proof.
  intros G1 G2. split; [by apply xiangqi_cells|].
  destruct (xiangqi_cells b G1) as (obs1 & Ho1 & Hl1 & Hc1).
  destruct (xiangqi_cells b2 G2) as (obs2 & Ho2 & Hl2 & Hc2).
  rewrite Ho1, Ho2. split.
  - intros [= <-]. destruct G1 as [Hlen1 Hr1], G2 as [Hlen2 Hr2].
    apply list_eq. intros i.
    destruct (decide (i < 90)%nat) as [Hi|Hi]; [|by rewrite !lookup_ge_None_2 by lia].
    assert (Hr : (i / 9 < 10)%nat) by (apply Nat.Div0.div_lt_upper_bound; lia).
    assert (Hc : (i mod 9 < 9)%nat) by (apply Nat.mod_upper_bound; lia).
    assert (Hflat : (i / 9 * 9 + i mod 9 = i)%nat)
      by (pose proof (Nat.div_mod_eq i 9); lia).
    destruct (lookup_lt_is_Some_2 (Xiangqi.board b) i ltac:(lia)) as [v1 Hv1].
    destruct (lookup_lt_is_Some_2 (Xiangqi.board b2) i ltac:(lia)) as [v2 Hv2].
    rewrite Hv1, Hv2. f_equal.
    assert (B1 : -7 <= v1 <= 7).
    { rewrite Forall_forall in Hr1. apply Hr1. eapply list_elem_of_lookup_2; eauto. }
    assert (B2 : -7 <= v2 <= 7).
    { rewrite Forall_forall in Hr2. apply Hr2. eapply list_elem_of_lookup_2; eauto. }
    apply plane_of_code_inj; try done.
    assert (Hsame : forall z, 0 <= z < 14 ->
              plane_of_code v1 = Some z <-> plane_of_code v2 = Some z).
    { intros z Hz.
      pose proof (Hc1 (Z.to_nat z) (i / 9)%nat (i mod 9)%nat ltac:(lia) Hr Hc) as E1.
      pose proof (Hc2 (Z.to_nat z) (i / 9)%nat (i mod 9)%nat ltac:(lia) Hr Hc) as E2.
      rewrite E1 in E2. unfold code_at in E2. rewrite Hflat, Hv1, Hv2 in E2.
      cbn [mbind option_bind] in E2.
      replace (Z.of_nat (Z.to_nat z)) with z in E2 by lia.
      destruct (decide (_ = Some z)) as [Ha|Ha];
        destruct (decide (_ = Some z)) as [Hb|Hb]; try done. }
    assert (Hrange : forall v z, -7 <= v <= 7 -> plane_of_code v = Some z -> 0 <= z < 14).
    { intros v z Hv. unfold plane_of_code. destruct (decide _); [|done].
      intros [= <-]. destruct (Z.ltb_spec 0 v); lia. }
    destruct (plane_of_code v1) as [z1|] eqn:E1.
    + symmetry. apply Hsame; [by apply (Hrange v1)|done].
    + destruct (plane_of_code v2) as [z2|] eqn:E2; [|done].
      apply Hsame; [by apply (Hrange v2)|done].
  - intros Hsame. f_equal.
    apply (cells_ext 14 10 9); [done|done|].
    intros p r c Hp Hr Hc.
    rewrite (Hc1 p r c Hp Hr Hc), (Hc2 p r c Hp Hr Hc).
    unfold code_at. by rewrite Hsame.
Qed.

Lemma xiangqi_observation_cells_witness :
  let b := Xiangqi.init in
  let b2 := fst (Xiangqi.apply_move_body Xiangqi.init
                   (Xiangqi.mkXiangqiMove (9, 0) (8, 0) 5 true)) in
  (exists obs,
     Xiangqi.to_observation b = inr obs /\
     length obs = (14 * 10 * 9)%nat /\
     forall p r c, (p < 14)%nat -> (r < 10)%nat -> (c < 9)%nat ->
       obs !! Np.flat3 10 9 p r c =
         Some (if decide (code_at b r c ≫= plane_of_code = Some (Z.of_nat p))
               then 1 else 0)) /\
  (Xiangqi.to_observation b = Xiangqi.to_observation b2 <->
   Xiangqi.board b = Xiangqi.board b2).
Proof.
  apply (xiangqi_observation_cells Xiangqi.init
           (fst (Xiangqi.apply_move_body Xiangqi.init
                   (Xiangqi.mkXiangqiMove (9, 0) (8, 0) 5 true)))).
  - apply (bool_decide_eq_true_1 _). vm_compute. reflexivity.
  - apply (bool_decide_eq_true_1 _). vm_compute. reflexivity.
Defined.

Section Fen.

Import FenTensor FenObservation.

Context (offset : Z).

Hypothesis offset_range : 0 <= offset <= 7.

Lemma decimal_no_plane (ch : ascii) :
  is_decimal ch = true -> plane_of_char offset ch = None.
Proof.
  intros Hd. unfold plane_of_char.
  destruct (PIECE_MAPPING !! ch) as [tr|] eqn:Hm; [|done].
  destruct (letter_char ch) as (Hdig & _); [by eexists|].
  destruct (decimal_char ch Hd) as (Hdig' & _). congruence.
Qed.

Lemma letter_plane (ch : ascii) (t : Z) (red : bool) :
  PIECE_MAPPING !! ch = Some (t, red) ->
  plane_of_char offset ch = Some (if red then t else t + offset).
Proof. intros Hm. unfold plane_of_char. by rewrite Hm. Qed.

Lemma place_char_cells (r : nat) (file : nat) (obs : list Z) (ch : ascii) :
  (r < 10)%nat -> char_ok ch ->
  Z.of_nat file + rank_width [ch] <= 9 ->
  length obs = (14 * 10 * 9)%nat ->
  exists file' obs',
    place_char offset (Z.of_nat r) (inr (Z.of_nat file, obs)) ch
      = inr (Z.of_nat file', obs') /\
    Z.of_nat file' = Z.of_nat file + rank_width [ch] /\
    length obs' = (14 * 10 * 9)%nat /\
    forall p r' c', (p < 14)%nat -> (r' < 10)%nat -> (c' < 9)%nat ->
      obs' !! Np.flat3 10 9 p r' c' =
        if decide (r' = r /\ c' = file /\ plane_of_char offset ch = Some (Z.of_nat p))
        then Some 1 else obs !! Np.flat3 10 9 p r' c'.
Proof.
  intros Hr Hok Hw Hlen. unfold place_char. cbn [bind].
  unfold rank_width in *. cbn [foldr] in *.
  destruct Hok as [Hd|Hl].
  - destruct (decimal_char ch Hd) as (Hdig & Hint & Hrange & Hnp).
    rewrite Hdig, Hint. rewrite Hd in Hw. cbn [bind].
    exists (Z.to_nat (Z.of_nat file + (ord ch - 48))), obs. rewrite Hd.
    split; [unfold ret; repeat f_equal; lia|]. split; [lia|]. split; [done|].
    intros p r' c' _ _ _. rewrite decide_False; [done|].
    rewrite (decimal_no_plane ch Hd). by intros (_ & _ & ?).
  - destruct (letter_char ch Hl) as (Hdig & Hp & t & red & Hmap & Ht).
    assert (Hnd : is_decimal ch = false).
    { unfold isdigit in Hdig. by destruct (is_decimal ch). }
    rewrite Hdig, Hmap. rewrite Hnd in Hw.
    rewrite (letter_plane ch t red Hmap).
    set (plane := if red then t else t + offset).
    assert (Hplane : 0 <= plane < 14) by (unfold plane; destruct red; lia).
    replace plane with (Z.of_nat (Z.to_nat plane)) by lia.
    unfold NUM_PLANES, BOARD_SIZE_Y, BOARD_SIZE_X.
    rewrite set3_in_range by lia. cbn [bind].
    exists (S file). eexists. rewrite Hnd.
    split; [unfold ret; repeat f_equal; lia|]. split; [lia|].
    split; [by rewrite length_insert|].
    intros p r' c' Hp' Hr' Hc'.
    rewrite (insert_cell 14 10 9) by (lia || done).
    apply decide_ext. split.
    + intros (-> & -> & ->). done.
    + intros (-> & -> & [= Heq]). split; [lia|done].
Qed.

Lemma char_on_rank_cons (ch : ascii) (chars : list ascii) (i : nat) :
  char_on_rank (ch :: chars) i =
    if is_decimal ch then
      if decide (i < Z.to_nat (ord ch - 48))%nat then None
      else char_on_rank chars (i - Z.to_nat (ord ch - 48))
    else
      match i with
      | O => Some ch
      | S i' => char_on_rank chars i'
      end.
Proof.
  unfold char_on_rank, expand_rank. cbn [mbind list_bind].
  destruct (is_decimal ch).
  - destruct (decide _) as [Hlt|Hge].
    + rewrite lookup_app_l by (by rewrite length_replicate).
      by rewrite lookup_replicate_2.
    + rewrite lookup_app_r by (rewrite length_replicate; lia).
      by rewrite length_replicate.
  - by destruct i.
Qed.

Lemma place_chars_cells (r : nat) (chars : list ascii) :
  forall (file : nat) (obs : list Z),
    (r < 10)%nat -> Forall char_ok chars ->
    Z.of_nat file + rank_width chars <= 9 ->
    length obs = (14 * 10 * 9)%nat ->
    exists file' obs',
      foldl (place_char offset (Z.of_nat r)) (inr (Z.of_nat file, obs)) chars
        = inr (Z.of_nat file', obs') /\
      length obs' = (14 * 10 * 9)%nat /\
      forall p r' c', (p < 14)%nat -> (r' < 10)%nat -> (c' < 9)%nat ->
        obs' !! Np.flat3 10 9 p r' c' =
          if decide (r' = r /\ (file <= c')%nat /\
                     char_on_rank chars (c' - file) ≫= plane_of_char offset
                       = Some (Z.of_nat p))
          then Some 1 else obs !! Np.flat3 10 9 p r' c'.
Proof.
  induction chars as [|ch chars IH]; intros file obs Hr Hok Hw Hlen.
  - exists file, obs. split; [reflexivity|]. split; [done|].
    intros p r' c' _ _ _. rewrite decide_False; [done|].
    by intros (_ & _ & ?).
  - apply Forall_cons in Hok as [Hch Hok].
    rewrite rank_width_cons in Hw.
    pose proof (rank_width_nonneg chars) as Hnn.
    destruct (place_char_cells r file obs ch Hr Hch ltac:(lia) Hlen)
      as (file1 & obs1 & Hstep & Hfile1 & Hlen1 & Hcells1).
    cbn [foldl]. rewrite Hstep.
    destruct (IH file1 obs1 Hr Hok ltac:(lia) Hlen1) as (file' & obs' & Hloop & Hlen' & Hcells).
    exists file', obs'. split; [exact Hloop|]. split; [done|].
    intros p r' c' Hp Hr' Hc'.
    rewrite (Hcells p r' c' Hp Hr' Hc'), (Hcells1 p r' c' Hp Hr' Hc').
    rewrite char_on_rank_cons.
    unfold rank_width in Hfile1. cbn [foldr] in Hfile1.
    destruct (is_decimal ch) eqn:Hd.
    + rewrite (decimal_no_plane ch Hd).
      rewrite (decide_False (P := _ /\ _ /\ None = _)) by (by intros (_ & _ & ?)).
      apply decide_ext.
      assert (Hd' : 0 <= ord ch - 48) by (unfold is_decimal in Hd; lia).
      split.
      * intros (-> & Hle & Hpl). split; [done|]. split; [lia|].
        rewrite decide_False by lia.
        replace (c' - file - Z.to_nat (ord ch - 48))%nat with (c' - file1)%nat by lia.
        done.
      * intros (-> & Hle & Hpl).
        destruct (decide _) as [Hlt|Hge]; [done|].
        split; [done|]. split; [lia|].
        replace (c' - file1)%nat with (c' - file - Z.to_nat (ord ch - 48))%nat by lia.
        done.
    + assert (Hf1 : file1 = S file) by lia. subst file1.
      destruct (decide (r' = r /\ (S file <= c')%nat /\ _)) as [(-> & Hle & Hpl)|Hout].
      * rewrite decide_True; [done|]. split; [done|]. split; [lia|].
        replace (c' - file)%nat with (S (c' - S file)) by lia. done.
      * apply decide_ext. split.
        -- intros (-> & -> & Hpl). split; [done|]. split; [lia|].
           by rewrite Nat.sub_diag.
        -- intros (-> & Hle & Hpl).
           destruct (decide (c' = file)) as [->|Hne].
           ++ rewrite Nat.sub_diag in Hpl. done.
           ++ exfalso. apply Hout. split; [done|]. split; [lia|].
              replace (c' - file)%nat with (S (c' - S file)) in Hpl by lia. done.
Qed.

Lemma place_rank_cells (r : nat) (rank : string) (obs : list Z) :
  (r < 10)%nat -> rank_ok rank ->
  length obs = (14 * 10 * 9)%nat ->
  exists obs',
    place_rank offset (inr obs) (Z.of_nat r, rank) = inr obs' /\
    length obs' = (14 * 10 * 9)%nat /\
    forall p r' c', (p < 14)%nat -> (r' < 10)%nat -> (c' < 9)%nat ->
      obs' !! Np.flat3 10 9 p r' c' =
        if decide (r' = r /\
                   char_on_rank (list_ascii_of_string rank) c' ≫= plane_of_char offset
                     = Some (Z.of_nat p))
        then Some 1 else obs !! Np.flat3 10 9 p r' c'.
Proof.
  intros Hr [Hchars Hw] Hlen. unfold place_rank. cbn [bind fst snd].
  destruct (place_chars_cells r (list_ascii_of_string rank) 0 obs Hr Hchars ltac:(lia) Hlen)
    as (file' & obs' & Hloop & Hlen' & Hcells).
  change (Z.of_nat 0) with 0 in Hloop. unfold ret at 1. rewrite Hloop. cbn [bind snd].
  exists obs'. split; [reflexivity|]. split; [done|].
  intros p r' c' Hp Hr' Hc'. rewrite (Hcells p r' c' Hp Hr' Hc').
  rewrite Nat.sub_0_r. apply decide_ext. split.
  - by intros (-> & _ & ?).
  - intros (-> & ?). split; [done|]. split; [lia|done].
Qed.

Lemma place_ranks_cells (ranks : list string) :
  forall (k : nat) (obs : list Z),
    (k + length ranks <= 10)%nat -> Forall rank_ok ranks ->
    length obs = (14 * 10 * 9)%nat ->
    exists obs',
      foldl (place_rank offset) (inr obs)
            (zip (seqZ (Z.of_nat k) (Z.of_nat (length ranks))) ranks) = inr obs' /\
      length obs' = (14 * 10 * 9)%nat /\
      forall p r' c', (p < 14)%nat -> (r' < 10)%nat -> (c' < 9)%nat ->
        obs' !! Np.flat3 10 9 p r' c' =
          if decide ((k <= r')%nat /\
                     (ranks !! (r' - k)%nat ≫= fun rank =>
                        char_on_rank (list_ascii_of_string rank) c')
                       ≫= plane_of_char offset = Some (Z.of_nat p))
          then Some 1 else obs !! Np.flat3 10 9 p r' c'.
Proof.
  induction ranks as [|rank ranks IH]; intros k obs Hlen Hok Hobs.
  - exists obs. split; [reflexivity|]. split; [done|].
    intros p r' c' _ _ _. rewrite decide_False; [done|]. by intros (_ & ?).
  - apply Forall_cons in Hok as [Hrank Hok].
    simpl length in *. rewrite seqZ_cons by lia.
    replace (Z.pred (Z.of_nat (S (length ranks)))) with (Z.of_nat (length ranks)) by lia.
    replace (Z.succ (Z.of_nat k)) with (Z.of_nat (S k)) by lia.
    cbn [zip zip_with foldl].
    destruct (place_rank_cells k rank obs ltac:(lia) Hrank Hobs)
      as (obs1 & Hstep & Hlen1 & Hcells1).
    rewrite Hstep.
    destruct (IH (S k) obs1 ltac:(lia) Hok Hlen1) as (obs' & Hloop & Hlen' & Hcells).
    exists obs'. split; [exact Hloop|]. split; [done|].
    intros p r' c' Hp Hr' Hc'.
    rewrite (Hcells p r' c' Hp Hr' Hc'), (Hcells1 p r' c' Hp Hr' Hc').
    destruct (decide ((S k <= r')%nat /\ _)) as [[Hle Hpl]|Hout].
    + rewrite decide_True; [done|]. split; [lia|].
      replace (r' - k)%nat with (S (r' - S k)) by lia. done.
    + apply decide_ext. split.
      * intros (-> & Hpl). split; [lia|]. by rewrite Nat.sub_diag.
      * intros (Hle & Hpl).
        destruct (decide (r' = k)) as [->|Hne].
        -- rewrite Nat.sub_diag in Hpl. done.
        -- exfalso. apply Hout. split; [lia|].
           replace (r' - k)%nat with (S (r' - S k)) in Hpl by lia. done.
Qed.

Lemma observe_cells (fen : string) :
  placement_ok fen ->
  exists obs,
    observe offset fen = inr obs /\
    length obs = (14 * 10 * 9)%nat /\
    forall p r c, (p < 14)%nat -> (r < 10)%nat -> (c < 9)%nat ->
      obs !! Np.flat3 10 9 p r c =
        Some (if decide (char_at fen r c ≫= plane_of_char offset = Some (Z.of_nat p))
              then 1 else 0).
Proof.
  intros [Hlen Hranks]. unfold observe, enumerate.
  destruct (place_ranks_cells (split "/" (board_part fen)) 0
              (Np.zeros (14 * 10 * 9)) ltac:(lia) Hranks (length_replicate _ _))
    as (obs & Hloop & Hlen' & Hcells).
  exists obs. split; [exact Hloop|]. split; [done|].
  intros p r c Hp Hr Hc. rewrite (Hcells p r c Hp Hr Hc).
  rewrite Nat.sub_0_r, lookup_zeros by (by apply flat3_lt).
  unfold char_at.
  destruct (decide (_ /\ _)) as [[_ Hpl]|Hout]; destruct (decide _) as [Hpl'|Hn];
    try done.
  exfalso. apply Hout. split; [lia|done].
Qed.

Lemma plane_range (ch : ascii) (z : Z) :
  plane_of_char offset ch = Some z -> 0 <= z < 14.
Proof.
  unfold plane_of_char.
  destruct (PIECE_MAPPING !! ch) as [[t red]|] eqn:Hm; [|done].
  destruct (letter_char ch) as (_ & _ & t' & red' & Hm' & Ht); [by eexists|].
  rewrite Hm in Hm'. injection Hm' as <- <-.
  intros [= <-]. simpl. destruct red; lia.
Qed.

(** Two placements give the same tensor exactly when they give every
    point the same plane. *)
Lemma observe_eq_iff (fen1 fen2 : string) :
  placement_ok fen1 -> placement_ok fen2 ->
  observe offset fen1 = observe offset fen2 <->
  forall r c, (r < 10)%nat -> (c < 9)%nat ->
    char_at fen1 r c ≫= plane_of_char offset = char_at fen2 r c ≫= plane_of_char offset.
Proof.
  intros H1 H2.
  destruct (observe_cells fen1 H1) as (obs1 & Ho1 & Hl1 & Hc1).
  destruct (observe_cells fen2 H2) as (obs2 & Ho2 & Hl2 & Hc2).
  rewrite Ho1, Ho2. split.
  - intros [= <-] r c Hr Hc.
    assert (Hsame : forall z, 0 <= z < 14 ->
              char_at fen1 r c ≫= plane_of_char offset = Some z <->
              char_at fen2 r c ≫= plane_of_char offset = Some z).
    { intros z Hz.
      pose proof (Hc1 (Z.to_nat z) r c ltac:(lia) Hr Hc) as E1.
      pose proof (Hc2 (Z.to_nat z) r c ltac:(lia) Hr Hc) as E2.
      rewrite E1 in E2. replace (Z.of_nat (Z.to_nat z)) with z in E2 by lia.
      destruct (decide (_ = Some z)) as [Ha|Ha];
        destruct (decide (_ = Some z)) as [Hb|Hb]; try done. }
    assert (Hr1 : forall z, char_at fen1 r c ≫= plane_of_char offset = Some z -> 0 <= z < 14).
    { intros z. destruct (char_at fen1 r c) as [ch|]; [apply plane_range|done]. }
    assert (Hr2 : forall z, char_at fen2 r c ≫= plane_of_char offset = Some z -> 0 <= z < 14).
    { intros z. destruct (char_at fen2 r c) as [ch|]; [apply plane_range|done]. }
    destruct (char_at fen1 r c ≫= plane_of_char offset) as [z1|] eqn:E1.
    + symmetry. apply Hsame; [by apply Hr1|done].
    + destruct (char_at fen2 r c ≫= plane_of_char offset) as [z2|] eqn:E2; [|done].
      apply Hsame; [by apply Hr2|done].
  - intros Hsame. f_equal.
    apply (cells_ext 14 10 9); [done|done|].
    intros p r c Hp Hr Hc.
    rewrite (Hc1 p r c Hp Hr Hc), (Hc2 p r c Hp Hr Hc), (Hsame r c Hr Hc). done.
Qed.

End Fen.

Import FenTensor FenObservation.

Lemma char_on_rank_letter (chars : list ascii) :
  forall (i : nat) (ch : ascii),
    Forall char_ok chars -> char_on_rank chars i = Some ch ->
    is_Some (PIECE_MAPPING !! ch).
Proof.
  induction chars as [|x chars IH]; intros i ch Hok; [done|].
  apply Forall_cons in Hok as [Hx Hok].
  rewrite char_on_rank_cons.
  destruct (is_decimal x) eqn:Hd.
  - destruct (decide _); [done|]. by apply IH.
  - destruct i as [|i]; [|by apply IH].
    intros [= <-]. destruct Hx as [Hx|Hx]; [congruence|done].
Qed.

Lemma char_at_letter (fen : string) (r c : nat) (ch : ascii) :
  placement_ok fen -> char_at fen r c = Some ch -> is_Some (PIECE_MAPPING !! ch).
Proof.
  intros [_ Hranks]. unfold char_at.
  destruct (split "/" (board_part fen) !! r) as [rank|] eqn:Hrank; [|done].
  cbn [mbind option_bind].
  apply char_on_rank_letter.
  rewrite Forall_forall in Hranks.
  apply (Hranks rank); eapply list_elem_of_lookup_2; eauto.
Qed.

(** With the offset 7 of [XiangqiPyffishBoard] no two piece letters
    share a plane. *)
Lemma plane_of_char_inj (ch1 ch2 : ascii) (z : Z) :
  plane_of_char 7 ch1 = Some z -> plane_of_char 7 ch2 = Some z -> ch1 = ch2.
Proof.
  unfold plane_of_char.
  destruct (PIECE_MAPPING !! ch1) as [[t1 red1]|] eqn:H1; [|done].
  destruct (PIECE_MAPPING !! ch2) as [[t2 red2]|] eqn:H2; [|done].
  cbn [mbind option_bind fst snd]. intros [= <-] [= Heq].
  unfold PIECE_MAPPING in H1, H2.
  apply elem_of_list_to_map_2 in H1. apply elem_of_list_to_map_2 in H2.
  repeat (apply elem_of_cons in H1 as [[= -> -> ->]|H1];
          [repeat (apply elem_of_cons in H2 as [[= -> -> ->]|H2];
                   [first [reflexivity|discriminate Heq]|]);
           by apply elem_of_nil in H2|]).
  by apply elem_of_nil in H1.
Qed.

(** X21: [XiangqiPyffishBoard.to_observation] shows the position point by
    point: the tensor has 14 * 10 * 9 entries, and the entry of plane
    [p], rank [r], file [c] is 1 exactly when the FEN puts a piece letter
    of plane [p] there: the piece type for Red, the type plus 7 for
    Black. *)
Theorem pyffish_observation_cells (b : Pyffish.XiangqiPyffishBoard) :
  placement_ok (Pyffish.current_fen b) ->
  exists obs,
    Pyffish.to_observation b = inr obs /\
    length obs = (14 * 10 * 9)%nat /\
    forall p r c, (p < 14)%nat -> (r < 10)%nat -> (c < 9)%nat ->
      obs !! Np.flat3 10 9 p r c =
        Some (if decide (char_at (Pyffish.current_fen b) r c ≫= plane_of_char 7
                         = Some (Z.of_nat p))
              then 1 else 0).
Proof.
  intros Hok. apply (observe_cells 7); [lia|done].
Qed.

Lemma pyffish_observation_cells_witness :
  exists obs,
    Pyffish.to_observation Scripted.ending_board = inr obs /\
    length obs = (14 * 10 * 9)%nat /\
    forall p r c, (p < 14)%nat -> (r < 10)%nat -> (c < 9)%nat ->
      obs !! Np.flat3 10 9 p r c =
        Some (if decide (char_at Scripted.ending_before r c ≫= plane_of_char 7
                         = Some (Z.of_nat p))
              then 1 else 0).
Proof.
  apply (pyffish_observation_cells Scripted.ending_board).
  apply (bool_decide_eq_true_1 _). vm_compute. reflexivity.
Defined.

(** X22: The observation of a [XiangqiPyffishBoard] is a faithful picture of
    the placement and of nothing else: two boards have the same
    observation exactly when their FENs put the same piece on every
    point, whatever their side to move, history or result. *)
Theorem pyffish_observation_faithful (b1 b2 : Pyffish.XiangqiPyffishBoard) :
  placement_ok (Pyffish.current_fen b1) ->
  placement_ok (Pyffish.current_fen b2) ->
  Pyffish.to_observation b1 = Pyffish.to_observation b2 <->
  forall r c, (r < 10)%nat -> (c < 9)%nat ->
    char_at (Pyffish.current_fen b1) r c = char_at (Pyffish.current_fen b2) r c.
Proof.
  intros H1 H2. unfold Pyffish.to_observation.
  rewrite (observe_eq_iff 7 ltac:(lia) _ _ H1 H2). split.
  - intros Hsame r c Hr Hc. specialize (Hsame r c Hr Hc).
    destruct (char_at (Pyffish.current_fen b1) r c) as [ch1|] eqn:E1;
      destruct (char_at (Pyffish.current_fen b2) r c) as [ch2|] eqn:E2;
      cbn [mbind option_bind] in Hsame; try done.
    + destruct (plane_of_char 7 ch1) as [z|] eqn:Hz.
      * f_equal. by apply (plane_of_char_inj ch1 ch2 z).
      * destruct (char_at_letter _ _ _ _ H1 E1) as [[t red] Hm].
        rewrite (letter_plane 7 ch1 t red Hm) in Hz. done.
    + destruct (char_at_letter _ _ _ _ H1 E1) as [[t red] Hm].
      rewrite (letter_plane 7 ch1 t red Hm) in Hsame. done.
    + destruct (char_at_letter _ _ _ _ H2 E2) as [[t red] Hm].
      rewrite (letter_plane 7 ch2 t red Hm) in Hsame. done.
  - intros Hsame r c Hr Hc. by rewrite (Hsame r c Hr Hc).
Qed.

Lemma pyffish_observation_faithful_witness :
  Pyffish.to_observation Scripted.ending_board
    = Pyffish.to_observation
        (Pyffish.mkXiangqiPyffishBoard "xiangqi" "3k5/9/9/9/54/1r7/9/9/r8/4K4 w" ["a1a2"] None)
  <->
  forall r c, (r < 10)%nat -> (c < 9)%nat ->
    char_at Scripted.ending_before r c = char_at "3k5/9/9/9/54/1r7/9/9/r8/4K4 w" r c.
Proof.
  apply (pyffish_observation_faithful Scripted.ending_board
           (Pyffish.mkXiangqiPyffishBoard "xiangqi" "3k5/9/9/9/54/1r7/9/9/r8/4K4 w"
              ["a1a2"] None)).
  - apply (bool_decide_eq_true_1 _). vm_compute. reflexivity.
  - apply (bool_decide_eq_true_1 _). vm_compute. reflexivity.
Defined.

(** X23: [SimpleXiangqiBoard.get_observation] writes a Black piece to the
    plane of its type plus 3, not plus 7: the entry of plane [p], rank
    [r], file [c] is 1 exactly when the FEN puts a letter there whose
    type, plus 3 for Black, is [p].  So the planes 10 to 13 stay empty,
    and a Red advisor and a Black pawn are shown alike, on plane 3. *)
Theorem simple_observation_cells (b : SimpleXiangqi.SimpleXiangqiBoard) :
  placement_ok (SimpleXiangqi.current_fen b) ->
  exists obs,
    SimpleXiangqi.get_observation b = inr obs /\
    length obs = (14 * 10 * 9)%nat /\
    (forall p r c, (p < 14)%nat -> (r < 10)%nat -> (c < 9)%nat ->
       obs !! Np.flat3 10 9 p r c =
         Some (if decide (char_at (SimpleXiangqi.current_fen b) r c ≫= plane_of_char 3
                          = Some (Z.of_nat p))
               then 1 else 0)) /\
    (forall p r c, (10 <= p < 14)%nat -> (r < 10)%nat -> (c < 9)%nat ->
       obs !! Np.flat3 10 9 p r c = Some 0) /\
    (forall r c, (r < 10)%nat -> (c < 9)%nat ->
       char_at (SimpleXiangqi.current_fen b) r c = Some "A"%char \/
       char_at (SimpleXiangqi.current_fen b) r c = Some "p"%char ->
       obs !! Np.flat3 10 9 3 r c = Some 1).
Proof.
  intros Hok.
  destruct (observe_cells 3 ltac:(lia) _ Hok) as (obs & Hobs & Hlen & Hcells).
  exists obs. split; [exact Hobs|]. split; [done|]. split; [done|]. split.
  - intros p r c Hp Hr Hc. rewrite (Hcells p r c ltac:(lia) Hr Hc).
    rewrite decide_False; [done|].
    destruct (char_at _ r c) as [ch|] eqn:Hch; [|done]. cbn [mbind option_bind].
    destruct (char_at_letter _ _ _ _ Hok Hch) as [[t red] Hm].
    destruct (letter_char ch) as (_ & _ & t' & red' & Hm' & Ht); [by eexists|].
    rewrite Hm in Hm'. injection Hm' as <- <-.
    rewrite (letter_plane 3 ch t red Hm). intros [= Heq]. destruct red; lia.
  - intros r c Hr Hc Hch. rewrite (Hcells 3%nat r c ltac:(lia) Hr Hc).
    rewrite decide_True; [done|]. by destruct Hch as [-> | ->].
Qed.

Lemma simple_observation_cells_witness :
  exists obs,
    SimpleXiangqi.get_observation Scripted.ending_board_simple = inr obs /\
    length obs = (14 * 10 * 9)%nat /\
    (forall p r c, (p < 14)%nat -> (r < 10)%nat -> (c < 9)%nat ->
       obs !! Np.flat3 10 9 p r c =
         Some (if decide (char_at Scripted.ending_before r c ≫= plane_of_char 3
                          = Some (Z.of_nat p))
               then 1 else 0)) /\
    (forall p r c, (10 <= p < 14)%nat -> (r < 10)%nat -> (c < 9)%nat ->
       obs !! Np.flat3 10 9 p r c = Some 0) /\
    (forall r c, (r < 10)%nat -> (c < 9)%nat ->
       char_at Scripted.ending_before r c = Some "A"%char \/
       char_at Scripted.ending_before r c = Some "p"%char ->
       obs !! Np.flat3 10 9 3 r c = Some 1).
Proof.
  apply (simple_observation_cells Scripted.ending_board_simple).
  apply (bool_decide_eq_true_1 _). vm_compute. reflexivity.
Defined.

End CellFacts.

(** ** The Xiangqi environment and the factory *)

Module FactoryMore.

Import GameFactory GameFactoryMore.

(** X24: [XiangqiEnv.reset] never raises, whatever the environment went
    through: it returns the observation of the starting position, with
    its 32 pieces, and an [info] that offers no action at all, an empty
    list of legal moves and a mask of 8100 zeros; the step count is 0
    again, Red is to move, and the seed is kept unless a new one is
    given. *)
Theorem xiangqi_env_reset (env : XiangqiEnvPy.XiangqiEnv) (seed_arg : option Z) :
  exists obs info,
    XiangqiEnvPy.reset env seed_arg =
      (XiangqiEnvPy.mkXiangqiEnv Xiangqi.init (XiangqiEnvPy.max_steps env) 0 Xiangqi.RED
         (match seed_arg with Some s => Some s | None => XiangqiEnvPy.rng env end),
       inr (obs, info)) /\
    Xiangqi.to_observation Xiangqi.init = inr obs /\
    Np.sum obs = 32 /\
    XiangqiEnvPy.info_legal_moves info = [] /\
    XiangqiEnvPy.info_action_mask info = Np.zeros (90 * 90) /\
    XiangqiEnvPy.info_turn info = "red" /\
    XiangqiEnvPy.info_result info = None.
Proof.
  destruct (XiangqiObservation.xiangqi_observation Xiangqi.init
              (XiangqiObservation.reset_grid_ok Xiangqi.init))
    as (obs & Hobs & _ & _ & Hsum).
  assert (Hstr : exists text, Xiangqi.to_str Xiangqi.init = inr text)
    by (eexists; vm_compute; reflexivity).
  destruct Hstr as [text Hstr].
  assert (Hcount : Xiangqi.piece_count Xiangqi.init = 32) by (vm_compute; reflexivity).
  exists obs. eexists.
  unfold XiangqiEnvPy.reset, XiangqiEnvPy._get_action_mask,
    XiangqiEnvPy._get_legal_move_indices.
  rewrite !EnvClaims.xiangqi_no_legal_moves. cbn [foldl length bind ret].
  change (Xiangqi.reset _) with Xiangqi.init.
  cbn [XiangqiEnvPy.board]. rewrite Hstr, Hobs. cbn [bind ret].
  split; [by destruct seed_arg|].
  split; [done|]. split; [by rewrite Hsum|]. by repeat split.
Qed.

(** X25: The factory's two constructors agree: an environment it creates
    holds the very board [create_board] makes for the same name, with
    the step limit asked for or else 400; and the names that get a
    board but no environment, [ValueError] instead, are exactly
    ["xiangqi_pyffish"] and ["xiangqi_simple"], in any letter case. *)
Theorem factory_board_of_environment (L : Chess.Lib) (O : Pyffish.Oracle)
    (game_type : string) (max_steps : option Z) :
  (forall env, create_environment L game_type max_steps = inr env ->
     create_board L O game_type = inr (board_of_env env) /\
     max_steps_of env = default 400 max_steps) /\
  (is_ok (create_board L O game_type) = true /\
   create_environment L game_type max_steps = inl ValueError <->
   str_lower game_type = XIANGQI_PYFFISH \/ str_lower game_type = XIANGQI_SIMPLE).
Proof.
  unfold create_environment, create_board.
  destruct (decide (str_lower game_type = CHESS)) as [Hc|Hc].
  - split.
    + intros env [= <-]. split; [reflexivity|]. by destruct max_steps.
    + split; [by intros [_ ?]|]. rewrite Hc. by intros [?|?].
  - destruct (decide (str_lower game_type = XIANGQI)) as [Hx|Hx].
    + split.
      * intros env [= <-]. split; [reflexivity|]. by destruct max_steps.
      * split; [by intros [_ ?]|]. rewrite Hx. by intros [?|?].
    + split; [done|].
      destruct (decide (str_lower game_type = XIANGQI_PYFFISH)) as [Hp|Hp].
      * split; [by left|done].
      * destruct (decide (str_lower game_type = XIANGQI_SIMPLE)) as [Hs|Hs].
        -- split; [by right|done].
        -- split; [by intros [? _]|by intros [?|?]].
Qed.

End FactoryMore.
